(** * sharexhandler: the upload and delivery handlers of router.go over the
    Mongo-backed storage of storages/mongostorage.go

  The development follows the Go sources.  The Go standard library and
  the packages the handlers call (strings, encoding/hex, bson, net/http,
  mime/multipart, mgo) are modelled first, each in a module named after
  the package.  [Storages] embeds storages/mongostorage.go; [Handler] is
  the state a handler runs in (backend, response writer, request, and a
  trace of the calls made) with the monad the handlers are written in;
  [Router] embeds router.go; [RouterRev] embeds the later revision of
  router.go (the one with [ReceiveBufferSize], which hands the file to
  http.ServeContent) and [RouterOld] the delivery handler of its first
  revision, which the handlers of router.go are compared with.  The
  properties follow the definitions. *)

From Stdlib Require Import ZArith Ascii String Lia.
From Stdlib.Strings Require Import Byte.
From stdpp Require Import base gmap list strings.

Local Open Scope Z_scope.

(** ** Package strings *)
Module Strings.

Definition dot : ascii := "."%char.

(** [strings.LastIndex(s, sep)] for a one-byte separator: the index of
    the last occurrence, [-1] when there is none. *)
Fixpoint LastIndex (s : string) (c : ascii) : Z :=
  match s with
  | EmptyString => -1
  | String a s' =>
      let r := LastIndex s' c in
      if 0 <=? r then r + 1
      else if Ascii.eqb a c then 0 else -1
  end.

Fixpoint drop_str (n : nat) (s : string) : string :=
  match n, s with
  | O, _ => s
  | S _, EmptyString => EmptyString
  | S n', String _ s' => drop_str n' s'
  end.

Fixpoint take_str (n : nat) (s : string) : string :=
  match n, s with
  | O, _ => EmptyString
  | S _, EmptyString => EmptyString
  | S n', String a s' => String a (take_str n' s')
  end.

Definition len (s : string) : Z := Z.of_nat (String.length s).

(** The slice expression [s[i:]]; [None] is the run-time panic
    "slice bounds out of range". *)
Definition slice_from (s : string) (i : Z) : option string :=
  if (0 <=? i) && (i <=? len s) then Some (drop_str (Z.to_nat i) s)
  else None.

(** The slice expression [s[:i]]. *)
Definition slice_to (s : string) (i : Z) : option string :=
  if (0 <=? i) && (i <=? len s) then Some (take_str (Z.to_nat i) s)
  else None.

Definition is_upper (a : ascii) : bool :=
  let n := N_of_ascii a in ((65 <=? n) && (n <=? 90))%N.

Definition is_lower (a : ascii) : bool :=
  let n := N_of_ascii a in ((97 <=? n) && (n <=? 122))%N.

Definition to_lower (a : ascii) : ascii :=
  if is_upper a then ascii_of_N (N_of_ascii a + 32) else a.

Definition to_upper (a : ascii) : ascii :=
  if is_lower a then ascii_of_N (N_of_ascii a - 32) else a.

(** [strings.EqualFold] on the ASCII range: equality up to the case of
    the letters A-Z. *)
Fixpoint EqualFold (s t : string) : bool :=
  match s, t with
  | EmptyString, EmptyString => true
  | String a s', String b t' =>
      Ascii.eqb (to_lower a) (to_lower b) && EqualFold s' t'
  | _, _ => false
  end.

(** No occurrence of [c] in [s]. *)
Fixpoint absent (c : ascii) (s : string) : bool :=
  match s with
  | EmptyString => true
  | String a s' => negb (Ascii.eqb a c) && absent c s'
  end.

End Strings.

(** ** Package encoding/hex *)
Module Hex.

Definition hextable : string := "0123456789abcdef".

Definition digit (n : N) : ascii :=
  match String.get (N.to_nat n) hextable with
  | Some c => c
  | None => "0"%char
  end.

(** [hex.EncodeToString]: two lower-case digits per byte. *)
Fixpoint EncodeToString (s : string) : string :=
  match s with
  | EmptyString => EmptyString
  | String a s' =>
      let n := N_of_ascii a in
      String (digit (n / 16)) (String (digit (n mod 16)) (EncodeToString s'))
  end.

(** [fromHexChar]: digits and letters a-f in either case. *)
Definition fromHexChar (c : ascii) : option N :=
  let n := N_of_ascii c in
  (if (48 <=? n) && (n <=? 57) then Some (n - 48)
   else if (97 <=? n) && (n <=? 102) then Some (n - 87)
   else if (65 <=? n) && (n <=? 70) then Some (n - 55)
   else None)%N.

(** [hex.DecodeString]; [None] stands for [ErrLength] and
    [InvalidByteError]. *)
Fixpoint DecodeString (s : string) : option string :=
  match s with
  | EmptyString => Some EmptyString
  | String _ EmptyString => None
  | String a (String b s') =>
      match fromHexChar a, fromHexChar b, DecodeString s' with
      | Some hi, Some lo, Some r => Some (String (ascii_of_N (hi * 16 + lo)) r)
      | _, _, _ => None
      end
  end.

End Hex.

(** ** Package bson: object identifiers *)
Module Bson.

(** [type ObjectId string]: the twelve raw bytes. *)
Definition ObjectId : Type := string.

Definition Hex (id : ObjectId) : string := Hex.EncodeToString id.

(** [bson.IsObjectIdHex]. *)
Definition IsObjectIdHex (s : string) : bool :=
  if negb (Strings.len s =? 24) then false
  else match Hex.DecodeString s with Some _ => true | None => false end.

(** [bson.ObjectIdHex]; [None] is its panic on an invalid argument. *)
Definition ObjectIdHex (s : string) : option ObjectId :=
  if IsObjectIdHex s then Hex.DecodeString s else None.

End Bson.

(** ** Package net/http: headers and the response writer *)
Module Http.

(** [http.Header]: a map from canonical keys to value lists. *)
Abbreviation Header := (gmap string (list string)).

Definition StatusOK : Z := 200.
Definition StatusNotModified : Z := 304.
Definition StatusBadRequest : Z := 400.
Definition StatusNotFound : Z := 404.
Definition StatusInternalServerError : Z := 500.

Definition is_digit (a : ascii) : bool :=
  let n := N_of_ascii a in ((48 <=? n) && (n <=? 57))%N.

(** [validHeaderFieldByte]: the token characters of RFC 7230. *)
Definition validHeaderFieldByte (a : ascii) : bool :=
  Strings.is_upper a || Strings.is_lower a || is_digit a
  || negb (Strings.absent a "!#$%&'*+-.^_`|~").

Fixpoint all_valid (s : string) : bool :=
  match s with
  | EmptyString => true
  | String a s' => validHeaderFieldByte a && all_valid s'
  end.

(** The loop of [canonicalMIMEHeaderKey]: upper-case the first letter and
    every letter after a hyphen, lower-case the others. *)
Fixpoint canon_from (upper : bool) (s : string) : string :=
  match s with
  | EmptyString => EmptyString
  | String a s' =>
      let c := if upper then Strings.to_upper a else Strings.to_lower a in
      String c (canon_from (Ascii.eqb c "-"%char) s')
  end.

(** [textproto.CanonicalMIMEHeaderKey]: a key holding a byte that is no
    token character is returned as it is. *)
Definition CanonicalMIMEHeaderKey (s : string) : string :=
  if all_valid s then canon_from true s else s.

(** [Header.Set]. *)
Definition Header_Set (key value : string) (h : Header) : Header :=
  <[CanonicalMIMEHeaderKey key := [value]]> h.

(** [Header.Add]. *)
Definition Header_Add (key value : string) (h : Header) : Header :=
  let k := CanonicalMIMEHeaderKey key in
  <[k := default [] (h !! k) ++ [value]]> h.

(** [Header.Del]. *)
Definition Header_Del (key : string) (h : Header) : Header :=
  delete (CanonicalMIMEHeaderKey key) h.

(** [Header.Get]: the first value of the key, the empty string when the
    key is absent. *)
Definition Header_Get (key : string) (h : Header) : string :=
  match h !! CanonicalMIMEHeaderKey key with
  | Some (v :: _) => v
  | _ => EmptyString
  end.

(** The state behind an [http.ResponseWriter]: the live header map, the
    status line once written together with the headers that went out
    with it, and the body bytes written so far. *)
Record ResponseWriter := mkResponseWriter {
  header : Header;
  wroteHeader : option (Z * Header);
  body : list byte
}.

Definition newResponseWriter : ResponseWriter :=
  {| header := ∅; wroteHeader := None; body := [] |}.

(** The status code the client receives, if one was written. *)
Definition status (w : ResponseWriter) : option Z :=
  fst <$> wroteHeader w.

(** The headers the client receives. *)
Definition sentHeader (w : ResponseWriter) : option Header :=
  snd <$> wroteHeader w.

Definition setHeader (f : Header → Header) (w : ResponseWriter) : ResponseWriter :=
  {| header := f (header w); wroteHeader := wroteHeader w; body := body w |}.

(** [w.WriteHeader(code)]: only the first call counts; later ones are
    superfluous and change nothing. *)
Definition WriteHeader (code : Z) (w : ResponseWriter) : ResponseWriter :=
  match wroteHeader w with
  | Some _ => w
  | None => {| header := header w;
               wroteHeader := Some (code, header w);
               body := body w |}
  end.

(** [bodyAllowedForStatus]. *)
Definition bodyAllowedForStatus (code : Z) : bool :=
  if (100 <=? code) && (code <=? 199) then false
  else if code =? 204 then false
  else if code =? 304 then false
  else true.

(** [w.Write(b)]: writes the 200 status line first when none was written;
    the boolean is the error [http.ErrBodyNotAllowed].  (The content type
    that the server detects when none is set by then is left out.) *)
Definition Write (b : list byte) (w : ResponseWriter) : bool * ResponseWriter :=
  let w1 := WriteHeader StatusOK w in
  match wroteHeader w1 with
  | Some (code, _) =>
      if bodyAllowedForStatus code
      then (false, {| header := header w1; wroteHeader := wroteHeader w1;
                      body := body w1 ++ b |})
      else (true, w1)
  | None => (true, w1)
  end.

Definition newline : string := String (ascii_of_nat 10) EmptyString.

(** [http.Error(w, error, code)]. *)
Definition Error (msg : string) (code : Z) (w : ResponseWriter) : ResponseWriter :=
  let w1 := setHeader (Header_Del "Content-Length") w in
  let w2 := setHeader (Header_Set "Content-Type" "text/plain; charset=utf-8") w1 in
  let w3 := setHeader (Header_Set "X-Content-Type-Options" "nosniff") w2 in
  let w4 := WriteHeader code w3 in
  snd (Write (list_byte_of_string (msg +:+ newline)) w4).

(** [http.NotFound(w, r)]. *)
Definition NotFound (w : ResponseWriter) : ResponseWriter :=
  Error "404 page not found" StatusNotFound w.

End Http.

(** ** Package mime/multipart: the parsed form and its files *)
Module Multipart.

(** [multipart.FileHeader]: the client's file name and the part's bytes;
    [tmpfile] tells that the part was larger than the memory limit and
    was spilled to a temporary file. *)
Record FileHeader := mkFileHeader {
  Filename : string;
  content : list byte;
  tmpfile : bool
}.

(** [multipart.File]: an [io.SectionReader] over the bytes kept in memory,
    or an [os.File] over the temporary file. *)
Record File := mkFile {
  data : list byte;
  off : nat;
  onDisk : bool
}.

(** [FileHeader.Open]. *)
Definition Open (fh : FileHeader) : File :=
  {| data := content fh; off := 0; onDisk := tmpfile fh |}.

(** [file.Read(buf)] for a buffer of [n] bytes: the bytes read and
    whether the error is [io.EOF].  At the end of the data it returns no
    byte and [io.EOF]; before it, as many bytes as fit and a nil error. *)
Definition Read (n : nat) (f : File) : list byte * bool * File :=
  match drop (off f) (data f) with
  | [] => ([], true, f)
  | rest =>
      let chunk := take n rest in
      (chunk, false,
       {| data := data f; off := (off f + length chunk)%nat; onDisk := onDisk f |})
  end.

(** [file.Seek(0, 0)]. *)
Definition Seek0 (f : File) : File :=
  {| data := data f; off := 0; onDisk := onDisk f |}.

(** The type assertion [file.(interface{ Size() int64 }).Size()]: the
    section reader has the method, [*os.File] has not and the assertion
    panics ([None]). *)
Definition Size (f : File) : option Z :=
  if onDisk f then None else Some (Z.of_nat (length (data f))).

(** [make([]byte, n)]. *)
Definition zeros (n : nat) : list byte := replicate n x00.

(** A buffer [buf] after a read that returned [chunk]: the chunk
    overwrites the front, the rest of the buffer keeps what it held. *)
Definition fill (buf chunk : list byte) : list byte :=
  chunk ++ drop (length chunk) buf.

End Multipart.

(** ** storages/mongostorage.go *)
Module Storages.

(** The Go [error] values the storage can hand back. *)
Inductive error :=
| ErrNotFound      (* mgo.ErrNotFound *)
| ErrBackend       (* any other failure of the database connection *)
| ErrIO.           (* a failure of os.Create or os.Open *)

Record MongoStorageConfiguration := mkConfiguration {
  DatabaseName : string;
  UploadCollectionName : string;
  FileFolderPath : string
}.

(** The exported fields of [MongoStorageEntry], which are the fields of
    the stored document.  The two unexported pointers ([configuration],
    [database]) are those of the storage that made or loaded the entry;
    they are passed to the methods below. *)
Record MongoStorageEntry := mkEntry {
  Id : Bson.ObjectId;
  Author : string;
  Filename : string;
  ContentType : string;
  LastModified : Z;
  UploadDate : Z
}.

Definition GetId (e : MongoStorageEntry) : string := Bson.Hex (Id e).
Definition GetFilename (e : MongoStorageEntry) : string := Filename e.
Definition GetContentType (e : MongoStorageEntry) : string := ContentType e.

Definition SetId (id : Bson.ObjectId) (e : MongoStorageEntry) : MongoStorageEntry :=
  mkEntry id (Author e) (Filename e) (ContentType e) (LastModified e) (UploadDate e).

Definition SetFilename (filename : string) (e : MongoStorageEntry) : MongoStorageEntry :=
  mkEntry (Id e) (Author e) filename (ContentType e) (LastModified e) (UploadDate e).

Definition SetContentType (contentType : string) (e : MongoStorageEntry) : MongoStorageEntry :=
  mkEntry (Id e) (Author e) (Filename e) contentType (LastModified e) (UploadDate e).

(** What the storage works on: the documents of the upload collection
    (oldest first), whether the database answers, the files of the file
    folder by path, whether a file can be created there, the number of
    object ids handed out so far, and the clock. *)
Record Backend := mkBackend {
  collection : list MongoStorageEntry;
  reachable : bool;
  files : gmap string (list byte);
  creatable : bool;
  issued : nat;
  clock : Z
}.

Definition setCollection (c : list MongoStorageEntry) (b : Backend) : Backend :=
  mkBackend c (reachable b) (files b) (creatable b) (issued b) (clock b).

Definition setFiles (f : gmap string (list byte)) (b : Backend) : Backend :=
  mkBackend (collection b) (reachable b) f (creatable b) (issued b) (clock b).

Definition setIssued (n : nat) (b : Backend) : Backend :=
  mkBackend (collection b) (reachable b) (files b) (creatable b) n (clock b).

(** The ids of the stored documents. *)
Definition ids (b : Backend) : list Bson.ObjectId := Id <$> collection b.

Definition has_id (id : Bson.ObjectId) (e : MongoStorageEntry) : bool :=
  String.eqb (Id e) id.

(** [collection.FindId(id).Limit(1).Count()]. *)
Definition FindId_Limit1_Count (id : Bson.ObjectId) (b : Backend) : error + nat :=
  if reachable b
  then inr (Nat.min 1 (length (filter (λ e, has_id id e = true) (collection b))))
  else inl ErrBackend.

(** [collection.FindId(id).One(result)]. *)
Definition FindId_One (id : Bson.ObjectId) (b : Backend) : error + MongoStorageEntry :=
  if reachable b
  then match List.find (has_id id) (collection b) with
       | Some e => inr e
       | None => inl ErrNotFound
       end
  else inl ErrBackend.

(** [collection.Insert(doc)]: the document is appended.  The rejection of
    a duplicate [_id] by the collection's index is not modelled, so that
    what is proved of [Save] is owed to its own check. *)
Definition Insert (doc : MongoStorageEntry) (b : Backend) : option error * Backend :=
  if reachable b
  then (None, setCollection (collection b ++ [doc]) b)
  else (Some ErrBackend, b).

Fixpoint replace_first (id : Bson.ObjectId) (doc : MongoStorageEntry)
    (c : list MongoStorageEntry) : option (list MongoStorageEntry) :=
  match c with
  | [] => None
  | e :: c' =>
      if has_id id e then Some (doc :: c')
      else (e ::.) <$> replace_first id doc c'
  end.

(** [collection.UpdateId(id, doc)]. *)
Definition UpdateId (id : Bson.ObjectId) (doc : MongoStorageEntry) (b : Backend)
    : option error * Backend :=
  if reachable b
  then match replace_first id doc (collection b) with
       | Some c => (None, setCollection c b)
       | None => (Some ErrNotFound, b)
       end
  else (Some ErrBackend, b).

Fixpoint remove_first (id : Bson.ObjectId) (c : list MongoStorageEntry)
    : option (list MongoStorageEntry) :=
  match c with
  | [] => None
  | e :: c' =>
      if has_id id e then Some c' else (e ::.) <$> remove_first id c'
  end.

(** [collection.RemoveId(id)]. *)
Definition RemoveId (id : Bson.ObjectId) (b : Backend) : option error * Backend :=
  if reachable b
  then match remove_first id (collection b) with
       | Some c => (None, setCollection c b)
       | None => (Some ErrNotFound, b)
       end
  else (Some ErrBackend, b).

(** The id [id] names no stored document: it is no object id in
    hexadecimal, or the database answers and holds no document with it. *)
Definition misses (id : string) (b : Backend) : Prop :=
  match Bson.ObjectIdHex id with
  | None => True
  | Some oid => reachable b = true ∧ oid ∉ ids b
  end.

Section Methods.

(** [bson.NewObjectId()]: the id it returns on its [n]-th call. *)
Variable NewObjectId : nat → Bson.ObjectId.

Variable configuration : MongoStorageConfiguration.

(** The [for] loop of [Save], with [fuel] bounding the number of
    iterations: [None] when the loop is still running after [fuel]
    rounds, else the error returned from inside the loop (if any), the
    id assigned last, and the backend. *)
Fixpoint Save_loop (fuel : nat) (b : Backend) : option (option error * Bson.ObjectId * Backend) :=
  match fuel with
  | O => None
  | S fuel' =>
      let id := NewObjectId (issued b) in
      let b1 := setIssued (S (issued b)) b in
      match FindId_Limit1_Count id b1 with
      | inl err => Some (Some err, id, b1)
      | inr count =>
          if (1 <=? count)%nat then Save_loop fuel' b1
          else Some (None, id, b1)
      end
  end.

(** [MongoStorageEntry.Save]. *)
Definition Save (fuel : nat) (e : MongoStorageEntry) (b : Backend)
    : option (option error * MongoStorageEntry * Backend) :=
  match Save_loop fuel b with
  | None => None
  | Some (Some err, id, b1) => Some (Some err, SetId id e, b1)
  | Some (None, id, b1) =>
      let e1 := SetId id e in
      let '(err, b2) := Insert e1 b1 in
      Some (err, e1, b2)
  end.

(** [Save] called on each entry of [es] in turn, whatever each call
    returns; [None] when a call is still in its loop after [fuel] rounds. *)
Fixpoint SaveAll (fuel : nat) (es : list MongoStorageEntry) (b : Backend)
    : option Backend :=
  match es with
  | [] => Some b
  | e :: es' =>
      match Save fuel e b with
      | None => None
      | Some (_, _, b') => SaveAll fuel es' b'
      end
  end.

(** [MongoStorageEntry.Update]. *)
Definition Update (e : MongoStorageEntry) (b : Backend) : option error * Backend :=
  UpdateId (Id e) e b.

(** [MongoStorageEntry.Delete]. *)
Definition Delete (e : MongoStorageEntry) (b : Backend) : option error * Backend :=
  RemoveId (Id e) b.

Definition path_of (e : MongoStorageEntry) : string :=
  FileFolderPath configuration +:+ GetId e.

(** [MongoStorageEntry.GetReadSeeker]: [os.Open] of the entry's file;
    the reader starts at offset 0 of the file's bytes. *)
Definition GetReadSeeker (e : MongoStorageEntry) (b : Backend) : error + Multipart.File :=
  match files b !! path_of e with
  | Some bytes => inr (Multipart.mkFile bytes 0 true)
  | None => inl ErrIO
  end.

(** [MongoStorageEntry.GetWriter]: [os.Create] of the entry's file,
    which leaves it empty; the writer is named by the path. *)
Definition GetWriter (e : MongoStorageEntry) (b : Backend) : (error + string) * Backend :=
  if creatable b
  then (inr (path_of e), setFiles (<[path_of e := []]> (files b)) b)
  else (inl ErrIO, b).

(** [writer.Write(p)] on the file created by [GetWriter]. *)
Definition Writer_Write (path : string) (p : list byte) (b : Backend) : Backend :=
  setFiles (<[path := default [] (files b !! path) ++ p]> (files b)) b.

(** [MongoStorage.NewStorageEntry]. *)
Definition NewStorageEntry (b : Backend) : MongoStorageEntry :=
  let uploadDate := clock b in
  mkEntry EmptyString EmptyString EmptyString EmptyString uploadDate uploadDate.

(** [&MongoStorageEntry{}]. *)
Definition emptyEntry : MongoStorageEntry :=
  mkEntry EmptyString EmptyString EmptyString EmptyString 0 0.

(** [MongoStorage.LoadStorageEntry].  [Bson.ObjectIdHex] is defined
    exactly when [bson.IsObjectIdHex(id)] holds, so the outer match is
    the [if] of the source. *)
Definition LoadStorageEntry (id : string) (b : Backend)
    : bool * option error * MongoStorageEntry :=
  let result := emptyEntry in
  match Bson.ObjectIdHex id with
  | Some oid =>
      match FindId_One oid b with
      | inl ErrNotFound => (false, None, result)
      | inl err => (false, Some err, result)
      | inr e => (true, None, e)
      end
  | None => (false, None, result)
  end.

End Methods.

End Storages.

(** ** The state a handler runs in *)
Module Handler.

(** [*http.Request], as far as the handlers read it: the header, the
    route variables [mux.Vars(req)], and what
    [req.ParseMultipartForm(1 << 20)] makes of the content type and body:
    [None] when it returns an error (the declared content type is not
    multipart data, or the body does not parse as declared), else the files
    of the form by field name. *)
Record Request := mkRequest {
  Header : Http.Header;
  Vars : gmap string string;
  MultipartForm : option (gmap string (list Multipart.FileHeader))
}.

(** What a handler did, for the properties that speak of calls made or
    not made. *)
Inductive Event :=
| EvOutgoingFunction
| EvParseMultipartForm
| EvNewStorageEntry
| EvSave
| EvGetWriter
| EvWriterWrite (n : nat)
| EvWriterClose
| EvUpdate
| EvLoadStorageEntry (id : string)
| EvGetReader.

(** The trace holds the newest event first. *)
Record State := mkState {
  backend : Storages.Backend;
  w : Http.ResponseWriter;
  req : Request;
  trace : list Event
}.

(** How a run ends: it returns, it panics, or a [for] loop is still
    running when its fuel is spent. *)
Inductive Outcome (A : Type) :=
| Ret (a : A)
| Panic
| Running.
Arguments Ret {A} a.
Arguments Panic {A}.
Arguments Running {A}.

Definition M (A : Type) : Type := State → Outcome A * State.

Definition ret {A} (a : A) : M A := λ s, (Ret a, s).

Definition bind {A B} (m : M A) (k : A → M B) : M B :=
  λ s, match m s with
       | (Ret a, s') => k a s'
       | (Panic, s') => (Panic, s')
       | (Running, s') => (Running, s')
       end.

Definition panic {A} : M A := λ s, (Panic, s).
Definition running {A} : M A := λ s, (Running, s).

Definition emit (e : Event) : M unit :=
  λ s, (Ret tt, mkState (backend s) (w s) (req s) (e :: trace s)).

Definition getRequest : M Request := λ s, (Ret (req s), s).

Definition getBackend : M Storages.Backend := λ s, (Ret (backend s), s).

Definition setBackend (b : Storages.Backend) : M unit :=
  λ s, (Ret tt, mkState b (w s) (req s) (trace s)).

(** A call on the response writer. *)
Definition onWriter (f : Http.ResponseWriter → Http.ResponseWriter) : M unit :=
  λ s, (Ret tt, mkState (backend s) (f (w s)) (req s) (trace s)).

(** [w.Write(p)], returning whether it reported an error. *)
Definition write (p : list byte) : M bool :=
  λ s, let '(err, w') := Http.Write p (w s) in
       (Ret err, mkState (backend s) w' (req s) (trace s)).

(** [defer f()] around [body]: [f] runs when [body] is left, also by a
    panic. *)
Definition defer {A} (f : State → State) (body : M A) : M A :=
  λ s, let '(o, s') := body s in (o, f s').

(** Every run of [m] only adds events that satisfy [P] to the trace. *)
Definition emits {A} (P : Event → Prop) (m : M A) : Prop :=
  ∀ s, ∃ t, trace (snd (m s)) = t ++ trace s ∧ Forall P t.

(** An event other than a call of the hook. *)
Definition notOutgoing (e : Event) : Prop := e ≠ EvOutgoingFunction.

#[global] Instance M_ret : MRet M := @ret.
#[global] Instance M_bind : MBind M := λ A B k m, bind m k.

End Handler.

(** Unfolds the operations of the handler monad. *)
Ltac run_monad :=
  unfold mbind, mret, Handler.M_bind, Handler.M_ret, Handler.bind, Handler.ret,
    Handler.emit, Handler.getRequest, Handler.getBackend, Handler.setBackend,
    Handler.onWriter, Handler.panic, Handler.running;
  cbn [Handler.backend Handler.w Handler.req Handler.trace].

(** ** router.go *)
Module Router.
Import Handler.

(** [ShareXHandler].  The storage is the Mongo storage of
    storages/mongostorage.go with the given configuration; the routing
    fields ([PathConfiguration], [Path]) only serve [BindToRouter], which
    binds [handleUploadRequest] and [handleGetRequest] to their paths. *)
Record ShareXHandler := mkShareXHandler {
  Configuration : Storages.MongoStorageConfiguration;
  OutgoingFunction :
    option (Http.ResponseWriter → Request → Http.ResponseWriter * Request);
  BufferSize : Z;
  ProtocolHost : string;
  WhitelistedContentTypes : list string
}.

(** One call [shareXHandler.OutgoingFunction(w, req)] of the hook [f]:
    it may change the response writer and the request it is handed. *)
Definition outgoing
    (f : Http.ResponseWriter → Request → Http.ResponseWriter * Request)
    (s : State) : State :=
  let '(w', req') := f (w s) (req s) in
  mkState (backend s) w' req' (EvOutgoingFunction :: trace s).

(** The state after [if shareXHandler.OutgoingFunction != nil { ... }]. *)
Definition afterOutgoing (h : ShareXHandler) (s : State) : State :=
  match OutgoingFunction h with
  | Some f => outgoing f s
  | None => s
  end.

(** The handler with its [OutgoingFunction] set to nil. *)
Definition withoutOutgoingFunction (h : ShareXHandler) : ShareXHandler :=
  mkShareXHandler (Configuration h) None (BufferSize h) (ProtocolHost h)
    (WhitelistedContentTypes h).

Definition quote : string := String (ascii_of_nat 34) EmptyString.

(** [fmt.Sprintf(dispositionValueFormat, kind, filename)]. *)
Definition dispositionValue (kind filename : string) : string :=
  kind +:+ "; filename=" +:+ quote +:+ filename +:+ quote.

(** The [for ... range] over the whitelist of [handleGetRequest], which
    leaves by [goto inlinePassed] at the first value that folds to the
    content type. *)
Fixpoint whitelisted (values : list string) (contentType : string) : bool :=
  match values with
  | [] => false
  | value :: values' =>
      if Strings.EqualFold value contentType then true
      else whitelisted values' contentType
  end.

(** The size of the buffer the upload loop allocates per round. *)
Definition chunkSize : nat := Z.to_nat 8192.

(** The size of the buffer the content type is detected from. *)
Definition sniffLen : nat := Z.to_nat 512.

(** What the copy loop of [handleUploadRequest2] hands to the writer in
    [fuel] rounds for a file whose remaining bytes are [rest]: per round
    the bytes read, followed by what the rest of the buffer holds. *)
Fixpoint writtenBy (fuel : nat) (rest : list byte) : list byte :=
  match fuel, rest with
  | O, _ => []
  | _, [] => []
  | S fuel', _ =>
      Multipart.fill (Multipart.zeros chunkSize) (take chunkSize rest)
      ++ writtenBy fuel' (drop chunkSize rest)
  end.

Section Handlers.

(** [bson.NewObjectId()], by the number of the call. *)
Variable NewObjectId : nat → Bson.ObjectId.

(** [http.DetectContentType]. *)
Variable DetectContentType : list byte → string.

(** [entry.GetETagValue()]: a method of the [Entry] interface of this
    revision whose implementation is not part of storages/mongostorage.go
    as given; the handlers only compare and forward its value. *)
Variable GetETagValue : Storages.MongoStorageEntry → string.

Variable shareXHandler : ShareXHandler.

Definition internalError : M unit :=
  onWriter (Http.Error "500 an internal error occurred" Http.StatusInternalServerError).

(** [if shareXHandler.OutgoingFunction != nil { ... }]. *)
Definition callOutgoingFunction : M unit :=
  match OutgoingFunction shareXHandler with
  | Some f => λ s, (Ret tt, outgoing f s)
  | None => ret tt
  end.

Definition ParseMultipartForm : M (option (gmap string (list Multipart.FileHeader))) :=
  emit EvParseMultipartForm;;
  r ← getRequest;
  ret (MultipartForm r).

(** [req.FormFile(key)]: the first file of the field, opened. *)
Definition FormFile (key : string) (form : gmap string (list Multipart.FileHeader))
    : option (Multipart.File * Multipart.FileHeader) :=
  match form !! key with
  | Some (fh :: _) => Some (Multipart.Open fh, fh)
  | _ => None
  end.

Definition NewStorageEntry : M Storages.MongoStorageEntry :=
  emit EvNewStorageEntry;;
  b ← getBackend;
  ret (Storages.NewStorageEntry b).

Definition Save (fuel : nat) (entry : Storages.MongoStorageEntry)
    : M (option Storages.error * Storages.MongoStorageEntry) :=
  emit EvSave;;
  b ← getBackend;
  match Storages.Save NewObjectId fuel entry b with
  | None => running
  | Some (err, entry', b') => setBackend b';; ret (err, entry')
  end.

Definition GetWriter (entry : Storages.MongoStorageEntry)
    : M (Storages.error + string) :=
  emit EvGetWriter;;
  b ← getBackend;
  let '(r, b') := Storages.GetWriter (Configuration shareXHandler) entry b in
  setBackend b';; ret r.

Definition writerWrite (writer : string) (p : list byte) : M unit :=
  emit (EvWriterWrite (length p));;
  b ← getBackend;
  setBackend (Storages.Writer_Write writer p b).

Definition writerClose (s : State) : State :=
  mkState (backend s) (w s) (req s) (EvWriterClose :: trace s).

Definition Update (entry : Storages.MongoStorageEntry) : M (option Storages.error) :=
  emit EvUpdate;;
  b ← getBackend;
  let '(err, b') := Storages.Update entry b in
  setBackend b';; ret err.

Definition LoadStorageEntry (id : string)
    : M (bool * option Storages.error * Storages.MongoStorageEntry) :=
  emit (EvLoadStorageEntry id);;
  b ← getBackend;
  ret (Storages.LoadStorageEntry id b).

(** [entry.GetReader()]: the storage opens the entry's file (the method
    storages/mongostorage.go names [GetReadSeeker]). *)
Definition GetReader (entry : Storages.MongoStorageEntry)
    : M (Storages.error + Multipart.File) :=
  emit EvGetReader;;
  b ← getBackend;
  ret (Storages.GetReadSeeker (Configuration shareXHandler) entry b).

(** The [for] loop of [handleUploadRequest2] (lines 85-96): a fresh
    buffer of 8192 bytes per round, and the whole buffer written. *)
Fixpoint uploadLoop (fuel : nat) (file : Multipart.File) (writer : string) : M unit :=
  match fuel with
  | O => running
  | S fuel' =>
      let buffer := Multipart.zeros chunkSize in
      let '(chunk, err, file') := Multipart.Read chunkSize file in
      let buffer := Multipart.fill buffer chunk in
      let bytesRead := length chunk in
      if (bytesRead =? 0)%nat then ret tt
      else if err then
        internalError;; uploadLoop fuel' file' writer
      else
        writerWrite writer buffer;; uploadLoop fuel' file' writer
  end.

(** [handleUploadRequest2].  [fuel] bounds the rounds of the loop of
    [Save]; the copy loop gets one round per byte of the file and one
    more, which is enough for it to end (see [uploadLoop_ends]). *)
Definition handleUploadRequest2 (fuel : nat) : M unit :=
  callOutgoingFunction;;
  form ← ParseMultipartForm;
  match form with
  | None => internalError
  | Some form =>
      match FormFile "file" form with
      | None => internalError
      | Some (file, multipartFileHeader) =>
          let fileHeader := Multipart.zeros sniffLen in
          let '(chunk, err, file) := Multipart.Read sniffLen file in
          let fileHeader := Multipart.fill fileHeader chunk in
          (if err then internalError else ret tt);;
          let file := Multipart.Seek0 file in
          let fileName := Multipart.Filename multipartFileHeader in
          match Multipart.Size file with
          | None => panic
          | Some size =>
              let mimeType := DetectContentType fileHeader in
              entry ← NewStorageEntry;
              '(err, entry) ← Save fuel entry;
              match err with
              | Some _ => internalError
              | None =>
                  let id := Storages.GetId entry in
                  r ← GetWriter entry;
                  match r with
                  | inl _ => internalError
                  | inr writer =>
                      defer writerClose (
                        let entry := Storages.SetContentType mimeType entry in
                        let entry := Storages.SetFilename fileName entry in
                        uploadLoop (S (length (Multipart.data file))) file writer;;
                        err ← Update entry;
                        match err with
                        | Some _ => internalError
                        | None =>
                            onWriter (Http.WriteHeader 200);;
                            let filename := Storages.GetFilename entry in
                            match Strings.slice_from filename
                                    (Strings.LastIndex filename Strings.dot) with
                            | None => panic
                            | Some ending =>
                                let url := ProtocolHost shareXHandler +:+ id +:+ ending in
                                write (list_byte_of_string url);; ret tt
                            end
                        end)
                  end
              end
          end
      end
  end.

(** [handleUploadRequest]: the statements after [if true { return }] are
    never reached. *)
Definition handleUploadRequest (fuel : nat) : M unit :=
  callOutgoingFunction;;
  handleUploadRequest2 fuel.

(** The sending loop of [handleGetRequest] (lines 229-241): one buffer
    for all rounds, and the whole buffer written. *)
Fixpoint sendLoop (fuel : nat) (reader : Multipart.File) (buf : list byte) : M unit :=
  match fuel with
  | O => running
  | S fuel' =>
      let '(chunk, _, reader') := Multipart.Read (length buf) reader in
      let buf := Multipart.fill buf chunk in
      let n := length chunk in
      if (n =? 0)%nat then ret tt
      else
        err ← write buf;
        if err : bool then panic else sendLoop fuel' reader' buf
  end.

(** Lines 204-242 of [handleGetRequest]: what it does with the stripped
    [id], for the request [r]. *)
Definition serveEntry (r : Request) (id : string) : M unit :=
  '(success, err, entry) ← LoadStorageEntry id;
  match err with
  | Some _ => internalError;; panic
  | None =>
      if negb success then onWriter Http.NotFound
      else if String.eqb (Http.Header_Get "If-None-Match" (Header r))
                         (GetETagValue entry)
      then onWriter (Http.WriteHeader Http.StatusNotModified)
      else
        rd ← GetReader entry;
        match rd with
        | inl _ => internalError;; panic
        | inr reader =>
            (if whitelisted (WhitelistedContentTypes shareXHandler)
                  (Storages.GetContentType entry)
             then onWriter (Http.setHeader (Http.Header_Set "Content-Disposition"
                    (dispositionValue "inline" (Storages.GetFilename entry))))
             else onWriter (Http.setHeader (Http.Header_Set "Content-Disposition"
                    (dispositionValue "attachment" (Storages.GetFilename entry)))));;
            onWriter (Http.setHeader (Http.Header_Set "Content-Type"
                        (Storages.GetContentType entry)));;
            onWriter (Http.setHeader (Http.Header_Set "ETag" (GetETagValue entry)));;
            onWriter (Http.WriteHeader Http.StatusOK);;
            if BufferSize shareXHandler <? 0 then panic
            else
              let buf := Multipart.zeros (Z.to_nat (BufferSize shareXHandler)) in
              sendLoop (S (length (Multipart.data reader))) reader buf
        end
  end.

(** [handleGetRequest]: a segment without a dot is answered by
    [http.NotFound]; otherwise the id is the segment before its last dot. *)
Definition handleGetRequest : M unit :=
  callOutgoingFunction;;
  r ← getRequest;
  let id := default EmptyString (Vars r !! "id") in
  let lastDotIndex := Strings.LastIndex id Strings.dot in
  if lastDotIndex =? -1 then onWriter Http.NotFound
  else
    match Strings.slice_to id lastDotIndex with
    | None => panic
    | Some id => serveEntry r id
    end.

End Handlers.

End Router.

(** ** The later revision of router.go

    The revision of the handlers that has [SendBufferSize] and
    [ReceiveBufferSize] in place of [BufferSize]: its copy loop, its file
    ending and its id stripping, which the handlers above are compared
    with, and its two handlers. *)
Module RouterRev.
Import Handler.

(** The [for] loop of its [handleUploadRequest]: a fresh buffer of
    [ReceiveBufferSize] bytes per round, [buffer[:bytesRead]] written. *)
Fixpoint uploadLoop (ReceiveBufferSize : nat) (fuel : nat) (file : Multipart.File)
    (b : Storages.Backend) (writer : string) : option Storages.Backend :=
  match fuel with
  | O => None
  | S fuel' =>
      let buffer := Multipart.zeros ReceiveBufferSize in
      let '(chunk, err, file') := Multipart.Read ReceiveBufferSize file in
      let buffer := Multipart.fill buffer chunk in
      let bytesRead := length chunk in
      if (bytesRead =? 0)%nat then Some b
      else if err then uploadLoop ReceiveBufferSize fuel' file' b writer
      else uploadLoop ReceiveBufferSize fuel' file'
             (Storages.Writer_Write writer (take bytesRead buffer) b) writer
  end.

(** Its [fileEnding]: empty when the file name has no dot. *)
Definition fileEnding (filename : string) : option string :=
  let dotIndex := Strings.LastIndex filename Strings.dot in
  if dotIndex =? -1 then Some EmptyString
  else Strings.slice_from filename (Strings.LastIndex filename Strings.dot).

(** Its id stripping: the whole segment when it has no dot. *)
Definition strippedId (id : string) : option string :=
  let lastDotIndex := Strings.LastIndex id Strings.dot in
  let lastDotIndex := if lastDotIndex =? -1 then Strings.len id else lastDotIndex in
  Strings.slice_to id lastDotIndex.

(** [*mux.Router], as far as the handlers use it: its [NotFoundHandler],
    nil unless the application sets one. *)
Record MuxRouter := mkMuxRouter {
  NotFoundHandler : option (Http.ResponseWriter → Request → Http.ResponseWriter)
}.

(** The [ShareXHandler] of this revision.  [router] is nil until
    [BindToRouter] has set it. *)
Record ShareXHandler := mkShareXHandler {
  Configuration : Storages.MongoStorageConfiguration;
  OutgoingFunction :
    option (Http.ResponseWriter → Request → Http.ResponseWriter * Request);
  SendBufferSize : Z;
  ReceiveBufferSize : Z;
  ProtocolHost : string;
  WhitelistedContentTypes : list string;
  router : option MuxRouter
}.

(** The state after [if shareXHandler.OutgoingFunction != nil { ... }]. *)
Definition afterOutgoing (h : ShareXHandler) (s : State) : State :=
  match OutgoingFunction h with
  | Some f => Router.outgoing f s
  | None => s
  end.

Section Handlers.

(** [bson.NewObjectId()], by the number of the call. *)
Variable NewObjectId : nat → Bson.ObjectId.

(** [http.DetectContentType]. *)
Variable DetectContentType : list byte → string.

(** [http.ServeContent(w, req, name, modtime, content)]: what it leaves
    of the response writer. *)
Variable ServeContent :
  Http.ResponseWriter → Request → string → Z → Multipart.File → Http.ResponseWriter.

Variable shareXHandler : ShareXHandler.

(** [if shareXHandler.OutgoingFunction != nil { ... }]. *)
Definition callOutgoingFunction : M unit :=
  match OutgoingFunction shareXHandler with
  | Some f => λ s, (Ret tt, Router.outgoing f s)
  | None => ret tt
  end.

Definition GetWriter (entry : Storages.MongoStorageEntry)
    : M (Storages.error + string) :=
  emit EvGetWriter;;
  b ← getBackend;
  let '(r, b') := Storages.GetWriter (Configuration shareXHandler) entry b in
  setBackend b';; ret r.

Definition GetReadSeeker (entry : Storages.MongoStorageEntry)
    : M (Storages.error + Multipart.File) :=
  emit EvGetReader;;
  b ← getBackend;
  ret (Storages.GetReadSeeker (Configuration shareXHandler) entry b).

(** The [for] loop of [handleUploadRequest] (lines 255-267) on the
    handler's state: a fresh buffer of [ReceiveBufferSize] bytes per round
    ([make] panics on a negative size), and [buffer[:bytesRead]] written.
    The counter [total] only goes to the log. *)
Fixpoint receiveLoop (fuel : nat) (file : Multipart.File) (writer : string) : M unit :=
  match fuel with
  | O => running
  | S fuel' =>
      if ReceiveBufferSize shareXHandler <? 0 then panic
      else
        let buffer := Multipart.zeros (Z.to_nat (ReceiveBufferSize shareXHandler)) in
        let '(chunk, err, file') := Multipart.Read (length buffer) file in
        let buffer := Multipart.fill buffer chunk in
        let bytesRead := length chunk in
        if (bytesRead =? 0)%nat then ret tt
        else if err then
          Router.internalError;; receiveLoop fuel' file' writer
        else
          Router.writerWrite writer (take bytesRead buffer);;
          receiveLoop fuel' file' writer
  end.

(** [handleUploadRequest] (lines 218-288).  [fuel] bounds the rounds of
    the loop of [Save]; the copy loop gets one round per byte of the file
    and one more. *)
Definition handleUploadRequest (fuel : nat) : M unit :=
  callOutgoingFunction;;
  form ← Router.ParseMultipartForm;
  match form with
  | None => Router.internalError
  | Some form =>
      match Router.FormFile "file" form with
      | None => Router.internalError
      | Some (file, multipartFileHeader) =>
          let fileHeader := Multipart.zeros Router.sniffLen in
          let '(chunk, err, file) := Multipart.Read Router.sniffLen file in
          let fileHeader := Multipart.fill fileHeader chunk in
          (if err then Router.internalError else ret tt);;
          let file := Multipart.Seek0 file in
          let fileName := Multipart.Filename multipartFileHeader in
          let mimeType := DetectContentType fileHeader in
          entry ← Router.NewStorageEntry;
          '(err, entry) ← Router.Save NewObjectId fuel entry;
          match err with
          | Some _ => Router.internalError
          | None =>
              let id := Storages.GetId entry in
              r ← GetWriter entry;
              match r with
              | inl _ => Router.internalError
              | inr writer =>
                  defer Router.writerClose (
                    let entry := Storages.SetContentType mimeType entry in
                    let entry := Storages.SetFilename fileName entry in
                    receiveLoop (S (length (Multipart.data file))) file writer;;
                    err ← Router.Update entry;
                    match err with
                    | Some _ => Router.internalError
                    | None =>
                        onWriter (Http.WriteHeader Http.StatusOK);;
                        match fileEnding (Storages.GetFilename entry) with
                        | None => panic
                        | Some fileEnding =>
                            let url := ProtocolHost shareXHandler +:+ id +:+ fileEnding in
                            write (list_byte_of_string url);; ret tt
                        end
                    end)
              end
          end
      end
  end.

(** [shareXHandler.router.NotFoundHandler.ServeHTTP(w, req)]: a nil
    router and a nil handler panic. *)
Definition serveNotFound : M unit :=
  match router shareXHandler with
  | None => panic
  | Some rt =>
      match NotFoundHandler rt with
      | None => panic
      | Some ServeHTTP =>
          r ← getRequest;
          onWriter (λ w, ServeHTTP w r)
      end
  end.

(** [handleGetRequest] (lines 293-326): a database error is answered and
    logged, without a panic; the label [inlinePassed] stands behind the
    [Set] of the content type, which is thus set for attachments only. *)
Definition handleGetRequest : M unit :=
  callOutgoingFunction;;
  r ← getRequest;
  let id := default EmptyString (Vars r !! "id") in
  match strippedId id with
  | None => panic
  | Some id =>
      '(success, err, entry) ← Router.LoadStorageEntry id;
      match err with
      | Some _ => Router.internalError
      | None =>
          if negb success then serveNotFound
          else
            rd ← GetReadSeeker entry;
            match rd with
            | inl _ => Router.internalError
            | inr readSeeker =>
                (if Router.whitelisted (WhitelistedContentTypes shareXHandler)
                      (Storages.GetContentType entry)
                 then onWriter (Http.setHeader (Http.Header_Set "Content-Disposition"
                        (Router.dispositionValue "inline" (Storages.GetFilename entry))))
                 else
                   onWriter (Http.setHeader (Http.Header_Set "Content-Disposition"
                     (Router.dispositionValue "attachment" (Storages.GetFilename entry))));;
                   onWriter (Http.setHeader (Http.Header_Set "Content-Type"
                     (Storages.GetContentType entry))));;
                onWriter (λ w, ServeContent w r EmptyString
                                 (Storages.LastModified entry) readSeeker)
            end
      end
  end.

End Handlers.

End RouterRev.

(** ** The first revision of router.go

    The revision whose [handleUploadRequest] reads the multipart body
    part by part and whose [handleGetRequest] looks the path segment up
    as it is and writes [buf[:n]]. *)
Module RouterOld.
Import Handler.

(** A [*multipart.Part], as far as the handler reads it: the Content-Type
    of its header, its file name, and what [io.Copy] gets out of it: its
    bytes, or [None] for a read error. *)
Record Part := mkPart {
  partContentType : string;
  FileName : string;
  partBody : option (list byte)
}.

(** What a call of [multipartReader.NextPart] returns before the end of
    the body: a part, or an error other than io.EOF. *)
Inductive NextPartResult :=
| PartOk (part : Part)
| PartErr.

(** The bytes [io.Copy] gets out of the parts [parts], part by part. *)
Definition bodies (parts : list Part) : list (list byte) :=
  (λ part, default [] (partBody part)) <$> parts.

Record ShareXHandler := mkShareXHandler {
  Configuration : Storages.MongoStorageConfiguration;
  OutgoingFunction :
    option (Http.ResponseWriter → Request → Http.ResponseWriter * Request);
  BufferSize : Z
}.

(** The state after [if shareXHandler.OutgoingFunction != nil { ... }]. *)
Definition afterOutgoing (h : ShareXHandler) (s : State) : State :=
  match OutgoingFunction h with
  | Some f => Router.outgoing f s
  | None => s
  end.

Section Handlers.

(** [bson.NewObjectId()], by the number of the call. *)
Variable NewObjectId : nat → Bson.ObjectId.

(** [mime.ParseMediaType]: the parameters of the media type, [None] for
    its error. *)
Variable ParseMediaType : string → option (gmap string string).

(** [multipart.NewReader(req.Body, boundary)]: what the calls of its
    [NextPart] return, one after the other; after the last one they
    return io.EOF. *)
Variable NewReader : Request → string → list NextPartResult.

Variable shareXHandler : ShareXHandler.

Definition callOutgoingFunction : M unit :=
  match OutgoingFunction shareXHandler with
  | Some f => λ s, (Ret tt, Router.outgoing f s)
  | None => ret tt
  end.

Definition GetWriter (entry : Storages.MongoStorageEntry)
    : M (Storages.error + string) :=
  emit EvGetWriter;;
  b ← getBackend;
  let '(r, b') := Storages.GetWriter (Configuration shareXHandler) entry b in
  setBackend b';; ret r.

Definition GetReader (entry : Storages.MongoStorageEntry)
    : M (Storages.error + Multipart.File) :=
  emit EvGetReader;;
  b ← getBackend;
  ret (Storages.GetReadSeeker (Configuration shareXHandler) entry b).

(** The [for] loop of [handleUploadRequest] (lines 398-414), entered
    with the part [part] and with [rest] still to come from [NextPart]:
    every part is copied into the buffer and written to the writer as a
    whole; the loop is left at io.EOF, and by a panic on any other
    error.  It takes one round per part. *)
Fixpoint copyParts (part : Part) (rest : list NextPartResult) (writer : string) : M unit :=
  match partBody part with
  | None => Router.internalError;; panic
  | Some bytes =>
      Router.writerWrite writer bytes;;
      match rest with
      | [] => ret tt
      | PartOk part' :: rest' => copyParts part' rest' writer
      | PartErr :: _ => Router.internalError;; panic
      end
  end.

(** [handleUploadRequest] (lines 367-428).  [fuel] bounds the rounds of
    the loop of [Save]. *)
Definition handleUploadRequest (fuel : nat) : M unit :=
  callOutgoingFunction;;
  r ← getRequest;
  match ParseMediaType (Http.Header_Get "Content-Type" (Header r)) with
  | None => onWriter (Http.Error "400 bad request" Http.StatusBadRequest)
  | Some params =>
      let multipartReader := NewReader r (default EmptyString (params !! "boundary")) in
      entry ← Router.NewStorageEntry;
      '(err, entry) ← Router.Save NewObjectId fuel entry;
      match err with
      | Some _ => Router.internalError;; panic
      | None =>
          let id := Storages.GetId entry in
          r ← GetWriter entry;
          match r with
          | inl _ => Router.internalError;; panic
          | inr writer =>
              defer Router.writerClose (
                match multipartReader with
                | PartOk part :: rest =>
                    let entry :=
                      Storages.SetContentType (partContentType part) entry in
                    let entry := Storages.SetFilename (FileName part) entry in
                    copyParts part rest writer;;
                    err ← Router.Update entry;
                    match err with
                    | Some _ => Router.internalError;; panic
                    | None =>
                        onWriter (Http.WriteHeader 200);;
                        write (list_byte_of_string
                                 ("http://localhost:8080/sharex/" +:+ id));;
                        ret tt
                    end
                | _ => Router.internalError;; panic
                end)
          end
      end
  end.

(** The sending loop of its [handleGetRequest] (lines 450-462): one
    buffer for all rounds, and [buf[:n]] written. *)
Fixpoint sendLoop (fuel : nat) (reader : Multipart.File) (buf : list byte) : M unit :=
  match fuel with
  | O => running
  | S fuel' =>
      let '(chunk, _, reader') := Multipart.Read (length buf) reader in
      let buf := Multipart.fill buf chunk in
      let n := length chunk in
      if (n =? 0)%nat then ret tt
      else
        err ← write (take n buf);
        if err : bool then panic else sendLoop fuel' reader' buf
  end.

(** [handleGetRequest] (lines 431-465): the status line is written
    before the content type is set. *)
Definition handleGetRequest : M unit :=
  callOutgoingFunction;;
  r ← getRequest;
  let id := default EmptyString (Vars r !! "id") in
  '(success, err, entry) ← Router.LoadStorageEntry id;
  match err with
  | Some _ => Router.internalError;; panic
  | None =>
      if negb success then onWriter Http.NotFound
      else
        rd ← GetReader entry;
        match rd with
        | inl _ => Router.internalError;; panic
        | inr reader =>
            onWriter (Http.WriteHeader Http.StatusOK);;
            onWriter (Http.setHeader (Http.Header_Set "Content-Type"
                        (Storages.GetContentType entry)));;
            if BufferSize shareXHandler <? 0 then panic
            else
              let buf := Multipart.zeros (Z.to_nat (BufferSize shareXHandler)) in
              sendLoop (S (length (Multipart.data reader))) reader buf
        end
  end.

End Handlers.

End RouterOld.

(** ** Concrete data for the examples below *)
Module Examples.
Import Handler.

(** An id generator: eleven zero bytes and the call number. *)
Definition testId (n : nat) : Bson.ObjectId :=
  string_of_list_ascii (replicate 11 zero ++ [ascii_of_nat n]).

Definition detect (_ : list byte) : string := "application/octet-stream".

Definition etag (e : Storages.MongoStorageEntry) : string :=
  "v1-" +:+ Storages.GetId e.

Definition configuration : Storages.MongoStorageConfiguration :=
  Storages.mkConfiguration "sharex" "uploads" "files/".

Definition handler : Router.ShareXHandler :=
  Router.mkShareXHandler configuration None 1024 "http://localhost:8080/" ["image/png"].

(** A hook that adds a response header. *)
Definition addHeader (w : Http.ResponseWriter) (r : Request)
    : Http.ResponseWriter * Request :=
  (Http.setHeader (Http.Header_Add "X-Served-By" "sharex") w, r).

Definition handlerWithHook : Router.ShareXHandler :=
  Router.mkShareXHandler configuration (Some addHeader) 1024
    "http://localhost:8080/" ["image/png"].

Definition emptyBackend : Storages.Backend :=
  Storages.mkBackend [] true ∅ true 0 1000.

(** A POST with one file in the form field "file". *)
Definition uploadOf (name : string) (bytes : list byte) : Request :=
  mkRequest ∅ ∅ (Some {[ "file" := [Multipart.mkFileHeader name bytes false] ]}).

(** A POST whose content type is not multipart data. *)
Definition plainPost : Request :=
  mkRequest {[ "Content-Type" := ["text/plain"] ]} ∅ None.

(** A GET of the path segment [seg] with the given If-None-Match. *)
Definition getOf (seg ifNoneMatch : string) : Request :=
  mkRequest {[ "If-None-Match" := [ifNoneMatch] ]} {[ "id" := seg ]} None.

Definition start (b : Storages.Backend) (r : Request) : State :=
  mkState b Http.newResponseWriter r [].

Definition upload (name : string) (bytes : list byte) : Outcome unit * State :=
  Router.handleUploadRequest testId detect handler 5
    (start emptyBackend (uploadOf name bytes)).

Definition get (seg ifNoneMatch : string) (b : Storages.Backend)
    : Outcome unit * State :=
  Router.handleGetRequest etag handler (start b (getOf seg ifNoneMatch)).

(** The status, and the length of the body, of the response. *)
Definition statusOf (r : Outcome unit * State) : option Z := Http.status (w r.2).
Definition bodyOf (r : Outcome unit * State) : list byte := Http.body (w r.2).

(** The backend a run leaves. *)
Definition backendOf (r : Outcome unit * State) : Storages.Backend := backend r.2.

(** The file of the entry with the hexadecimal id [id]. *)
Definition blobOf (id : string) (b : Storages.Backend) : option (list byte) :=
  Storages.files b !! ("files/" +:+ id).

Definition firstId : string := "000000000000000000000000".

(** The backend after the upload of a one-byte file named a.txt. *)
Definition stored : Storages.Backend := backendOf (upload "a.txt" ["A"%byte]).

(** The document of that upload. *)
Definition storedEntry : Storages.MongoStorageEntry :=
  Storages.mkEntry (testId 0) EmptyString "a.txt" "application/octet-stream" 1000 1000.

(** A generator that never repeats itself: the [n]-th id is [n] letters. *)
Definition unaryId (n : nat) : Bson.ObjectId :=
  string_of_list_ascii (replicate n "a"%char).

(** A database that holds the document [storedEntry] and no file. *)
Definition oneDocument : Storages.Backend :=
  Storages.mkBackend [storedEntry] true ∅ true 1 1000.

(** The same with the entry's file, of three bytes. *)
Definition oneFile : Storages.Backend :=
  Storages.mkBackend [storedEntry] true
    {[ "files/" +:+ firstId := ["A"%byte; "B"%byte; "C"%byte] ]} true 1 1000.

(** A database that does not answer, and a file folder that cannot be
    written. *)
Definition downBackend : Storages.Backend :=
  Storages.mkBackend [] false ∅ true 0 1000.
Definition readOnlyBackend : Storages.Backend :=
  Storages.mkBackend [] true ∅ false 0 1000.

(** A POST whose file was spilled to disk by the form parser, and one
    whose form has no file. *)
Definition uploadFromDisk (name : string) (bytes : list byte) : Request :=
  mkRequest ∅ ∅ (Some {[ "file" := [Multipart.mkFileHeader name bytes true] ]}).
Definition emptyForm : Request := mkRequest ∅ ∅ (Some ∅).

(** A stand-in for [http.ServeContent] in the examples: it writes the
    content from the reader's offset on. *)
Definition serve (w : Http.ResponseWriter) (_ : Request) (_ : string) (_ : Z)
    (content : Multipart.File) : Http.ResponseWriter :=
  (Http.Write (drop (Multipart.off content) (Multipart.data content)) w).2.

(** A handler of the later revision with the given [ReceiveBufferSize],
    bound to a router without [NotFoundHandler]. *)
Definition revHandler (receive : Z) : RouterRev.ShareXHandler :=
  RouterRev.mkShareXHandler configuration None 1024 receive "http://localhost:8080/"
    ["image/png"] (Some (RouterRev.mkMuxRouter None)).

(** A handler of the first revision. *)
Definition oldHandler : RouterOld.ShareXHandler :=
  RouterOld.mkShareXHandler configuration None 1024.

(** A handler whose [BufferSize] is 0. *)
Definition handlerWithoutBuffer : Router.ShareXHandler :=
  Router.mkShareXHandler configuration None 0 "http://localhost:8080/" ["image/png"].

(** Stand-ins for [mime.ParseMediaType] and [multipart.NewReader] in the
    examples: one content type parses, and the body has two parts. *)
Definition parseMedia (v : string) : option (gmap string string) :=
  if String.eqb v "multipart/form-data; boundary=x" then Some {[ "boundary" := "x" ]}
  else None.
Definition firstPart : RouterOld.Part :=
  RouterOld.mkPart "text/plain" "a.txt" (Some ["A"%byte; "B"%byte]).
Definition secondPart : RouterOld.Part :=
  RouterOld.mkPart EmptyString EmptyString (Some ["C"%byte]).
Definition twoParts (_ : Request) (_ : string) : list RouterOld.NextPartResult :=
  [RouterOld.PartOk firstPart; RouterOld.PartOk secondPart].

(** A POST with that content type. *)
Definition multipartPost : Request :=
  mkRequest {[ "Content-Type" := ["multipart/form-data; boundary=x"] ]} ∅ None.

End Examples.

(** * Properties *)

(** ** Facts about the string functions *)
Section StringFacts.
Import Strings.

Lemma LastIndex_ge (s : string) (c : ascii) : -1 <= LastIndex s c.
Proof.
  induction s as [|a s IH]; simpl; [lia|].
  destruct (0 <=? LastIndex s c) eqn:E; [apply Z.leb_le in E; lia|].
  destruct (Ascii.eqb a c); lia.
Qed.

Lemma LastIndex_lt (s : string) (c : ascii) : LastIndex s c < len s.
Proof.
  unfold len. induction s as [|a s IH]; simpl String.length; simpl LastIndex; [lia|].
  destruct (0 <=? LastIndex s c) eqn:E; [lia|].
  destruct (Ascii.eqb a c); lia.
Qed.

Lemma LastIndex_absent (s : string) (c : ascii) :
  absent c s = true ↔ LastIndex s c = -1.
Proof.
  induction s as [|a s IH]; simpl; [tauto|].
  pose proof (LastIndex_ge s c).
  destruct (0 <=? LastIndex s c) eqn:E.
  - apply Z.leb_le in E. split; [|lia].
    intros [_ Hs]%andb_true_iff. apply IH in Hs. lia.
  - apply Z.leb_gt in E. assert (LastIndex s c = -1) as Hs by lia.
    apply IH in Hs. rewrite Hs, andb_true_r.
    destruct (Ascii.eqb a c); simpl; split; (lia || discriminate || reflexivity).
Qed.

Lemma LastIndex_app (key ext : string) (c : ascii) :
  absent c ext = true →
  LastIndex (key +:+ String c ext) c = len key.
Proof.
  intros Hext. unfold len. induction key as [|a key IH]; simpl.
  - apply LastIndex_absent in Hext. rewrite Hext. simpl.
    now rewrite Ascii.eqb_refl.
  - rewrite IH. destruct (0 <=? Z.of_nat (String.length key)) eqn:E; [lia|].
    apply Z.leb_gt in E. lia.
Qed.

Lemma take_str_app (key rest : string) :
  take_str (String.length key) (key +:+ rest) = key.
Proof. induction key as [|a key IH]; simpl; [now destruct rest|now rewrite IH]. Qed.

Lemma drop_str_app (key rest : string) :
  drop_str (String.length key) (key +:+ rest) = rest.
Proof. induction key as [|a key IH]; simpl; [reflexivity|exact IH]. Qed.

Lemma length_app_str (s t : string) :
  String.length (s +:+ t) = (String.length s + String.length t)%nat.
Proof. induction s as [|a s IH]; simpl; [reflexivity|now rewrite IH]. Qed.

(** The segment [key.ext] is cut to [key] when [ext] has no dot. *)
Lemma slice_to_LastIndex_app (key ext : string) :
  absent dot ext = true →
  slice_to (key +:+ String dot ext) (LastIndex (key +:+ String dot ext) dot) = Some key.
Proof.
  intros Hext. rewrite LastIndex_app by exact Hext.
  unfold slice_to, len. rewrite length_app_str. simpl String.length.
  rewrite Nat2Z.id, take_str_app.
  destruct (0 <=? Z.of_nat (String.length key)) eqn:E1; [|apply Z.leb_gt in E1; lia].
  destruct (Z.of_nat (String.length key) <=?
            Z.of_nat (String.length key + S (String.length ext))) eqn:E2;
    [reflexivity|apply Z.leb_gt in E2; lia].
Qed.

End StringFacts.

(** ** Which events a run adds to the trace *)
Section Emits.
Import Handler.
Context {P : Event → Prop}.

Lemma emits_ret {A} (a : A) : emits P (ret a).
Proof. intros s. exists []. simpl. auto. Qed.

Lemma emits_panic {A} : emits P (@panic A).
Proof. intros s. exists []. simpl. auto. Qed.

Lemma emits_running {A} : emits P (@running A).
Proof. intros s. exists []. simpl. auto. Qed.

Lemma emits_bind {A B} (m : M A) (k : A → M B) :
  emits P m → (∀ a, emits P (k a)) → emits P (bind m k).
Proof.
  intros Hm Hk s. unfold bind. destruct (Hm s) as (t1 & E1 & F1).
  destruct (m s) as [[a| |] s1]; simpl in *; try (exists t1; split; assumption).
  destruct (Hk a s1) as (t2 & E2 & F2). exists (t2 ++ t1).
  rewrite E2, E1, app_assoc. split; [reflexivity|]. apply Forall_app; auto.
Qed.

Lemma emits_emit (e : Event) : P e → emits P (emit e).
Proof. intros He s. exists [e]. simpl. auto. Qed.

Lemma emits_getRequest : emits P getRequest.
Proof. intros s. exists []. simpl. auto. Qed.

Lemma emits_getBackend : emits P getBackend.
Proof. intros s. exists []. simpl. auto. Qed.

Lemma emits_setBackend b : emits P (setBackend b).
Proof. intros s. exists []. simpl. auto. Qed.

Lemma emits_onWriter f : emits P (onWriter f).
Proof. intros s. exists []. simpl. auto. Qed.

Lemma emits_write p : emits P (write p).
Proof.
  intros s. exists []. unfold write. destruct (Http.Write p (w s)). simpl. auto.
Qed.

Lemma emits_defer {A} (m : M A) :
  P EvWriterClose → emits P m → emits P (defer Router.writerClose m).
Proof.
  intros Hc Hm s. unfold defer. destruct (Hm s) as (t & E & F).
  destruct (m s) as [o s1]. simpl in *. exists (EvWriterClose :: t).
  rewrite E. auto.
Qed.

End Emits.

(** One step of a proof that a handler emits only events in [P]. *)
Ltac emits_step :=
  match goal with
  | |- Handler.emits _ (mbind _ _) => unfold mbind, Handler.M_bind
  | |- Handler.emits _ (mret _) => unfold mret, Handler.M_ret
  | |- Handler.emits _ (Handler.bind _ _) => apply emits_bind; [|intros]
  | |- Handler.emits _ (Handler.ret _) => apply emits_ret
  | |- Handler.emits _ (@Handler.panic _) => apply emits_panic
  | |- Handler.emits _ (@Handler.running _) => apply emits_running
  | |- Handler.emits _ (Handler.emit _) => apply emits_emit
  | |- Handler.emits _ Handler.getRequest => apply emits_getRequest
  | |- Handler.emits _ Handler.getBackend => apply emits_getBackend
  | |- Handler.emits _ (Handler.setBackend _) => apply emits_setBackend
  | |- Handler.emits _ (Handler.onWriter _) => apply emits_onWriter
  | |- Handler.emits _ (Handler.write _) => apply emits_write
  | |- Handler.emits _ (Handler.defer _ _) => apply emits_defer
  | |- Handler.emits _ (match ?x with _ => _ end) => destruct x
  end.

Section HookFacts.
Import Handler Router.
Variable NewObjectId : nat → Bson.ObjectId.
Variable DetectContentType : list byte → string.
Variable GetETagValue : Storages.MongoStorageEntry → string.

Lemma uploadLoop_emits fuel file writer :
  emits notOutgoing (uploadLoop fuel file writer).
Proof.
  revert file. induction fuel as [|fuel IH]; intros file; simpl.
  - apply emits_running.
  - destruct (Multipart.Read chunkSize file) as [[chunk err] file'].
    unfold internalError, writerWrite.
    repeat first [apply IH | emits_step | discriminate].
Qed.

Lemma sendLoop_emits fuel reader buf :
  emits notOutgoing (sendLoop fuel reader buf).
Proof.
  revert reader buf. induction fuel as [|fuel IH]; intros reader buf; simpl.
  - apply emits_running.
  - destruct (Multipart.Read (length buf) reader) as [[chunk err] reader'].
    repeat first [apply IH | emits_step].
Qed.

Lemma upload2_emits h fuel :
  OutgoingFunction h = None →
  emits notOutgoing (handleUploadRequest2 NewObjectId DetectContentType h fuel).
Proof.
  intros Hh. unfold handleUploadRequest2, callOutgoingFunction. rewrite Hh.
  unfold ParseMultipartForm, NewStorageEntry, Save, GetWriter, Update, internalError.
  repeat first [apply uploadLoop_emits | emits_step | discriminate].
Qed.

Lemma get_emits h :
  OutgoingFunction h = None →
  emits notOutgoing (handleGetRequest GetETagValue h).
Proof.
  intros Hh. unfold handleGetRequest, serveEntry, callOutgoingFunction. rewrite Hh.
  unfold LoadStorageEntry, GetReader, internalError.
  repeat first [apply sendLoop_emits | emits_step | discriminate].
Qed.

Lemma upload2_parses_first h fuel s :
  OutgoingFunction h = None →
  ∃ t, trace (handleUploadRequest2 NewObjectId DetectContentType h fuel s).2
       = t ++ EvParseMultipartForm :: trace s
       ∧ Forall notOutgoing t.
Proof.
  intros Hh. unfold handleUploadRequest2, callOutgoingFunction. rewrite Hh.
  unfold mbind, M_bind.
  lazymatch goal with
  | |- context [bind ParseMultipartForm ?K] =>
      assert (∀ form, emits notOutgoing (K form)) as HK
  end.
  { intros form. unfold NewStorageEntry, Save, GetWriter, Update, internalError.
    repeat first [apply uploadLoop_emits | emits_step | discriminate]. }
  unfold ParseMultipartForm, mbind, M_bind, mret, M_ret.
  unfold bind at 1. unfold ret at 1. unfold bind at 1. unfold bind at 1.
  unfold emit at 1. unfold bind at 1. unfold getRequest at 1. unfold ret at 1.
  apply HK.
Qed.

Lemma withoutOutgoingFunction_None h :
  OutgoingFunction (withoutOutgoingFunction h) = None.
Proof. reflexivity. Qed.

(** C10. With a hook [f] set, [handleUploadRequest] runs like the handler
    without a hook started after two calls of [f], one by
    [handleUploadRequest] itself and one by [handleUploadRequest2], so what
    [f] does to the response and the request is done twice; both calls
    come before the form is parsed and no further call follows.
    [handleGetRequest] runs like the handler without a hook started after
    one call of [f], and calls it no second time. *)
Theorem OutgoingFunction_twice_on_upload_once_on_get h f fuel s :
  OutgoingFunction h = Some f →
  handleUploadRequest NewObjectId DetectContentType h fuel s
    = handleUploadRequest NewObjectId DetectContentType
        (withoutOutgoingFunction h) fuel (outgoing f (outgoing f s))
  ∧ (∃ t, trace (handleUploadRequest NewObjectId DetectContentType h fuel s).2
          = t ++ [EvParseMultipartForm; EvOutgoingFunction; EvOutgoingFunction] ++ trace s
          ∧ Forall notOutgoing t)
  ∧ handleGetRequest GetETagValue h s
    = handleGetRequest GetETagValue (withoutOutgoingFunction h) (outgoing f s)
  ∧ (∃ t, trace (handleGetRequest GetETagValue h s).2
          = t ++ [EvOutgoingFunction] ++ trace s
          ∧ Forall notOutgoing t).
Proof.
  intros Hf.
  assert (handleUploadRequest NewObjectId DetectContentType h fuel s
          = handleUploadRequest NewObjectId DetectContentType
              (withoutOutgoingFunction h) fuel (outgoing f (outgoing f s))) as E1.
  { unfold handleUploadRequest, handleUploadRequest2, callOutgoingFunction.
    rewrite Hf. destruct h; reflexivity. }
  assert (handleGetRequest GetETagValue h s
          = handleGetRequest GetETagValue (withoutOutgoingFunction h) (outgoing f s)) as E2.
  { unfold handleGetRequest, callOutgoingFunction. rewrite Hf. destruct h; reflexivity. }
  split; [exact E1|]. split; [|split; [exact E2|]].
  - rewrite E1. unfold handleUploadRequest at 1, callOutgoingFunction.
    rewrite withoutOutgoingFunction_None.
    destruct (upload2_parses_first (withoutOutgoingFunction h) fuel
                (outgoing f (outgoing f s)) (withoutOutgoingFunction_None h))
      as (t & Et & Ft).
    exists t. split; [|exact Ft].
    change (trace (handleUploadRequest2 NewObjectId DetectContentType
                     (withoutOutgoingFunction h) fuel (outgoing f (outgoing f s))).2
            = t ++ [EvParseMultipartForm; EvOutgoingFunction; EvOutgoingFunction] ++ trace s).
    rewrite Et. unfold outgoing.
    destruct (f (w s) (req s)) as [w1 r1]. simpl.
    destruct (f w1 r1) as [w2 r2]. reflexivity.
  - rewrite E2.
    destruct (get_emits (withoutOutgoingFunction h)
                (withoutOutgoingFunction_None h) (outgoing f s)) as (t & Et & Ft).
    exists t. split; [|exact Ft]. rewrite Et. unfold outgoing.
    destruct (f (w s) (req s)) as [w1 r1]. reflexivity.
Qed.

End HookFacts.

(** ** Facts about the response writer *)
Section HttpFacts.
Import Http.

Lemma status_WriteHeader code w :
  wroteHeader w = None → status (WriteHeader code w) = Some code.
Proof. intros H. unfold status, WriteHeader. now rewrite H. Qed.

Lemma WriteHeader_written code w x :
  wroteHeader w = Some x → WriteHeader code w = w.
Proof. intros H. unfold WriteHeader. now rewrite H. Qed.

Lemma body_WriteHeader code w : body (WriteHeader code w) = body w.
Proof. unfold WriteHeader. now destruct (wroteHeader w). Qed.

Lemma header_WriteHeader code w : header (WriteHeader code w) = header w.
Proof. unfold WriteHeader. now destruct (wroteHeader w). Qed.

Lemma header_Write p w : header (Write p w).2 = header w.
Proof.
  unfold Write. pose proof (header_WriteHeader StatusOK w) as H.
  destruct (wroteHeader (WriteHeader StatusOK w)) as [[code hd]|]; simpl; [|exact H].
  destruct (bodyAllowedForStatus code); simpl; exact H.
Qed.

Lemma wroteHeader_Write p w x :
  wroteHeader w = Some x → wroteHeader (Write p w).2 = Some x.
Proof.
  intros H. unfold Write. rewrite (WriteHeader_written _ _ _ H), H.
  destruct x as [code hd]. now destruct (bodyAllowedForStatus code).
Qed.

Lemma status_Error msg code w :
  wroteHeader w = None → status (Error msg code w) = Some code.
Proof.
  intros H. unfold Error, status.
  set (w3 := setHeader _ (setHeader _ (setHeader _ w))).
  assert (wroteHeader w3 = None) as H3 by exact H.
  assert (wroteHeader (WriteHeader code w3) = Some (code, header w3)) as H4.
  { unfold WriteHeader. now rewrite H3. }
  now rewrite (wroteHeader_Write _ _ _ H4).
Qed.

Lemma Header_Get_Set key value h :
  Header_Get key (Header_Set key value h) = value.
Proof. unfold Header_Get, Header_Set. now rewrite lookup_insert_eq. Qed.

Lemma Header_Get_Set_ne key key' value h :
  CanonicalMIMEHeaderKey key' ≠ CanonicalMIMEHeaderKey key →
  Header_Get key (Header_Set key' value h) = Header_Get key h.
Proof. intros H. unfold Header_Get, Header_Set. now rewrite lookup_insert_ne. Qed.

End HttpFacts.

(** ** The delivery handler *)
Section GetFacts.
Import Handler Router.
Variable GetETagValue : Storages.MongoStorageEntry → string.
Variable h : ShareXHandler.

Lemma slice_to_Some_nonneg seg i key :
  Strings.slice_to seg i = Some key → (i =? -1) = false.
Proof.
  unfold Strings.slice_to. destruct (0 <=? i) eqn:E; [|discriminate].
  intros _. apply Z.leb_le in E. apply Z.eqb_neq. lia.
Qed.

Lemma handleGetRequest_unfold s :
  handleGetRequest GetETagValue h s =
    let s1 := afterOutgoing h s in
    let seg := default EmptyString (Vars (req s1) !! "id") in
    if Strings.LastIndex seg Strings.dot =? -1
    then (Ret tt, mkState (backend s1) (Http.NotFound (w s1)) (req s1) (trace s1))
    else match Strings.slice_to seg (Strings.LastIndex seg Strings.dot) with
         | None => (Panic, s1)
         | Some key => serveEntry GetETagValue h (req s1) key s1
         end.
Proof.
  unfold handleGetRequest, callOutgoingFunction, afterOutgoing.
  destruct (OutgoingFunction h) as [f|]; run_monad;
    match goal with |- context [Strings.LastIndex ?x _ =? -1] =>
      destruct (Strings.LastIndex x Strings.dot =? -1); [reflexivity|];
      destruct (Strings.slice_to x (Strings.LastIndex x Strings.dot)); reflexivity
    end.
Qed.

Lemma serveEntry_miss r key s :
  Storages.LoadStorageEntry key (backend s) = (false, None, Storages.emptyEntry) →
  serveEntry GetETagValue h r key s
  = (Ret tt, mkState (backend s) (Http.NotFound (w s)) (req s)
               (EvLoadStorageEntry key :: trace s)).
Proof.
  intros H. unfold serveEntry, LoadStorageEntry. run_monad. rewrite H. reflexivity.
Qed.

Lemma serveEntry_not_modified r key s entry :
  Storages.LoadStorageEntry key (backend s) = (true, None, entry) →
  Http.Header_Get "If-None-Match" (Header r) = GetETagValue entry →
  serveEntry GetETagValue h r key s
  = (Ret tt, mkState (backend s) (Http.WriteHeader Http.StatusNotModified (w s))
               (req s) (EvLoadStorageEntry key :: trace s)).
Proof.
  intros H E. unfold serveEntry, LoadStorageEntry. run_monad. rewrite H.
  cbv beta iota. rewrite E, String.eqb_refl. reflexivity.
Qed.

(** The response writer once the headers of a delivery are set and the
    status line is written (lines 217-227). *)
Lemma serveEntry_delivers r key s entry reader :
  Storages.LoadStorageEntry key (backend s) = (true, None, entry) →
  Http.Header_Get "If-None-Match" (Header r) ≠ GetETagValue entry →
  Storages.GetReadSeeker (Configuration h) entry (backend s) = inr reader →
  serveEntry GetETagValue h r key s
  = (if BufferSize h <? 0 then panic
     else sendLoop (S (length (Multipart.data reader))) reader
            (Multipart.zeros (Z.to_nat (BufferSize h))))
      (mkState (backend s)
         (Http.WriteHeader Http.StatusOK
            (Http.setHeader (Http.Header_Set "ETag" (GetETagValue entry))
               (Http.setHeader (Http.Header_Set "Content-Type"
                                  (Storages.GetContentType entry))
                  (Http.setHeader
                     (Http.Header_Set "Content-Disposition"
                        (dispositionValue
                           (if whitelisted (WhitelistedContentTypes h)
                                 (Storages.GetContentType entry)
                            then "inline" else "attachment")
                           (Storages.GetFilename entry)))
                     (w s)))))
         (req s) (EvGetReader :: EvLoadStorageEntry key :: trace s)).
Proof.
  intros H E Hr. unfold serveEntry, LoadStorageEntry, GetReader. run_monad.
  rewrite H. cbv beta iota.
  apply String.eqb_neq in E. rewrite E. cbv beta iota. cbn [negb].
  cbn [backend w req trace]. rewrite Hr.
  destruct (whitelisted (WhitelistedContentTypes h) (Storages.GetContentType entry));
    reflexivity.
Qed.

(** The sending loop only appends to the body. *)
Lemma sendLoop_keeps fuel reader buf s :
  let s' := (sendLoop fuel reader buf s).2 in
  Http.header (w s') = Http.header (w s)
  ∧ (∀ x, Http.wroteHeader (w s) = Some x → Http.wroteHeader (w s') = Some x)
  ∧ backend s' = backend s ∧ trace s' = trace s.
Proof.
  revert reader buf s. induction fuel as [|fuel IH]; intros reader buf s; simpl.
  - auto.
  - destruct (Multipart.Read (length buf) reader) as [[chunk err] reader'].
    destruct (length chunk =? 0)%nat; [simpl; auto|].
    run_monad. unfold write.
    pose proof (header_Write (Multipart.fill buf chunk) (w s)) as Hh.
    pose proof (wroteHeader_Write (Multipart.fill buf chunk) (w s)) as Hw.
    destruct (Http.Write (Multipart.fill buf chunk) (w s)) as [e w'].
    simpl in Hh, Hw. destruct e; [simpl; auto|].
    specialize (IH reader' (Multipart.fill buf chunk) (mkState (backend s) w' (req s) (trace s))).
    simpl in IH. destruct IH as (I1 & I2 & I3 & I4).
    repeat split; [congruence| |assumption|assumption].
    intros x Hx. apply I2, Hw, Hx.
Qed.

Lemma whitelisted_spec values contentType :
  whitelisted values contentType = true
  ↔ ∃ value, value ∈ values ∧ Strings.EqualFold value contentType = true.
Proof.
  induction values as [|v values IH]; simpl.
  - split; [discriminate|]. intros (x & Hx & _). inversion Hx.
  - destruct (Strings.EqualFold v contentType) eqn:E.
    + split; [|reflexivity]. intros _. exists v. split; [left|exact E].
    + rewrite IH. split.
      * intros (x & Hx & Ex). exists x. split; [now right|exact Ex].
      * intros (x & Hx & Ex). exists x. split; [|exact Ex].
        inversion Hx; subst; [congruence|assumption].
Qed.

End GetFacts.

(** ** Looking up an entry *)
Section LoadFacts.
Import Storages.

Lemma find_has_id_None oid (c : list MongoStorageEntry) :
  oid ∉ (Id <$> c) → List.find (has_id oid) c = None.
Proof.
  induction c as [|e c IH]; simpl; [reflexivity|].
  intros Hn. unfold has_id at 1. destruct (String.eqb_spec (Id e) oid) as [E|E].
  - exfalso. apply Hn. rewrite E. left.
  - apply IH. intros Hc. apply Hn. now right.
Qed.

Lemma find_has_id_Some oid (c : list MongoStorageEntry) e :
  List.find (has_id oid) c = Some e → e ∈ c ∧ Id e = oid.
Proof.
  induction c as [|e' c IH]; simpl; [discriminate|].
  unfold has_id at 1. destruct (String.eqb_spec (Id e') oid) as [E|E].
  - intros [= <-]. split; [left|exact E].
  - intros H. destruct (IH H) as [Hin Hid]. split; [now right|exact Hid].
Qed.

(** A miss is reported as (false, nil): no error. *)
Lemma LoadStorageEntry_misses id b :
  misses id b → LoadStorageEntry id b = (false, None, emptyEntry).
Proof.
  unfold misses, LoadStorageEntry. destruct (Bson.ObjectIdHex id) as [oid|]; [|reflexivity].
  intros [Hr Hn]. unfold FindId_One. rewrite Hr.
  now rewrite (find_has_id_None _ _ Hn).
Qed.

(** A failure of the database is reported as an error. *)
Lemma LoadStorageEntry_unreachable id oid b :
  Bson.ObjectIdHex id = Some oid → reachable b = false →
  LoadStorageEntry id b = (false, Some ErrBackend, emptyEntry).
Proof.
  intros Ho Hr. unfold LoadStorageEntry, FindId_One. now rewrite Ho, Hr.
Qed.

(** A hit is a stored document with the decoded id. *)
Lemma LoadStorageEntry_hit id b e :
  LoadStorageEntry id b = (true, None, e) →
  ∃ oid, Bson.ObjectIdHex id = Some oid ∧ e ∈ collection b ∧ Id e = oid.
Proof.
  unfold LoadStorageEntry. destruct (Bson.ObjectIdHex id) as [oid|]; [|discriminate].
  unfold FindId_One. destruct (reachable b); [|discriminate].
  destruct (List.find (has_id oid) (collection b)) as [e'|] eqn:F; [|discriminate].
  intros [= <-]. exists oid. split; [reflexivity|]. now apply find_has_id_Some.
Qed.

End LoadFacts.

(** ** The claims on the delivery handler *)
Section GetClaims.
Import Handler Router.
Variable GetETagValue : Storages.MongoStorageEntry → string.
Variable h : ShareXHandler.

(** C2, as amended.  A segment without a dot is answered by
    [http.NotFound] and the storage is not asked (no event is added to the
    trace); a segment [key.ext] whose [ext] has no dot is served under the
    key [key], whatever [ext] is. *)
Theorem get_strips_extension_or_answers_not_found s :
  let s1 := afterOutgoing h s in
  let seg := default EmptyString (Vars (req s1) !! "id") in
  (Strings.absent Strings.dot seg = true →
     handleGetRequest GetETagValue h s
     = (Ret tt, mkState (backend s1) (Http.NotFound (w s1)) (req s1) (trace s1)))
  ∧ (∀ key ext, seg = key +:+ String Strings.dot ext →
       Strings.absent Strings.dot ext = true →
       handleGetRequest GetETagValue h s = serveEntry GetETagValue h (req s1) key s1).
Proof.
  intros s1 seg. split.
  - intros Ha. rewrite handleGetRequest_unfold. fold s1. cbv zeta. fold seg.
    apply LastIndex_absent in Ha. now rewrite Ha.
  - intros key ext Hseg Hext. rewrite handleGetRequest_unfold. fold s1. cbv zeta.
    fold seg. pose proof (slice_to_LastIndex_app key ext Hext) as Hk.
    rewrite <- Hseg in Hk. rewrite (slice_to_Some_nonneg _ _ _ Hk), Hk. reflexivity.
Qed.

(** C6.  When the stripped id names no stored document (it is no object
    id in hexadecimal, or the database answers and holds no document with
    it), [LoadStorageEntry] reports (false, nil) and the response is 404,
    not 500; a segment without a dot is answered 404 as well.  A database
    that does not answer is told apart: there [LoadStorageEntry] returns an
    error. *)
Theorem get_of_unknown_id_is_not_found s :
  let s1 := afterOutgoing h s in
  let seg := default EmptyString (Vars (req s1) !! "id") in
  (∀ key, Strings.slice_to seg (Strings.LastIndex seg Strings.dot) = Some key →
          Storages.misses key (backend s1)) →
  Http.wroteHeader (w s1) = None →
  (∀ key, Strings.slice_to seg (Strings.LastIndex seg Strings.dot) = Some key →
          Storages.LoadStorageEntry key (backend s1)
          = (false, None, Storages.emptyEntry))
  ∧ (∃ s', handleGetRequest GetETagValue h s = (Ret tt, s')
           ∧ Http.status (w s') = Some Http.StatusNotFound
           ∧ backend s' = backend s1)
  ∧ (∀ key oid b, Bson.ObjectIdHex key = Some oid → Storages.reachable b = false →
                  Storages.LoadStorageEntry key b
                  = (false, Some Storages.ErrBackend, Storages.emptyEntry)).
Proof.
  intros s1 seg Hmiss Hw. split; [|split; [|exact LoadStorageEntry_unreachable]].
  - intros key Hk. apply LoadStorageEntry_misses, Hmiss, Hk.
  - rewrite handleGetRequest_unfold. fold s1. cbv zeta. fold seg.
    destruct (Strings.LastIndex seg Strings.dot =? -1) eqn:E.
    + eexists. split; [reflexivity|]. split; [|reflexivity].
      now apply status_Error.
    + destruct (Strings.slice_to seg (Strings.LastIndex seg Strings.dot)) as [key|] eqn:Hk.
      * rewrite (serveEntry_miss GetETagValue h _ _ _
                   (LoadStorageEntry_misses _ _ (Hmiss key eq_refl))).
        eexists. split; [reflexivity|]. split; [|reflexivity].
        now apply status_Error.
      * exfalso. unfold Strings.slice_to in Hk.
        pose proof (LastIndex_ge seg Strings.dot).
        pose proof (LastIndex_lt seg Strings.dot).
        apply Z.eqb_neq in E.
        destruct (0 <=? Strings.LastIndex seg Strings.dot) eqn:E1;
          [|apply Z.leb_gt in E1; lia].
        destruct (Strings.LastIndex seg Strings.dot <=? Strings.len seg) eqn:E2;
          [discriminate|apply Z.leb_gt in E2; lia].
Qed.

(** C7.  When the If-None-Match header equals the ETag value of the
    entry the stripped id resolves to, the handler writes the status 304,
    adds no byte to the body, and the only call on the storage is the
    lookup: the reader is not opened. *)
Theorem get_with_matching_etag_is_not_modified s key entry :
  let s1 := afterOutgoing h s in
  let seg := default EmptyString (Vars (req s1) !! "id") in
  Strings.slice_to seg (Strings.LastIndex seg Strings.dot) = Some key →
  Storages.LoadStorageEntry key (backend s1) = (true, None, entry) →
  Http.Header_Get "If-None-Match" (Header (req s1)) = GetETagValue entry →
  Http.wroteHeader (w s1) = None →
  ∃ s', handleGetRequest GetETagValue h s = (Ret tt, s')
        ∧ Http.status (w s') = Some Http.StatusNotModified
        ∧ Http.body (w s') = Http.body (w s1)
        ∧ trace s' = EvLoadStorageEntry key :: trace s1
        ∧ (EvGetReader ∉ [EvLoadStorageEntry key])
        ∧ backend s' = backend s1.
Proof.
  intros s1 seg Hk Hl He Hw.
  rewrite handleGetRequest_unfold. fold s1. cbv zeta. fold seg.
  rewrite (slice_to_Some_nonneg _ _ _ Hk), Hk.
  rewrite (serveEntry_not_modified GetETagValue h _ _ _ _ Hl He).
  eexists. split; [reflexivity|]. cbn [w trace backend].
  split; [now apply status_WriteHeader|].
  split; [apply body_WriteHeader|].
  split; [reflexivity|]. split; [|reflexivity].
  intros Hin. apply list_elem_of_singleton in Hin. discriminate.
Qed.

(** C8.  For an entry that is delivered (the stripped id resolves to
    it, the If-None-Match header does not match, its file opens), the
    Content-Disposition header is "inline" with the entry's file name when
    some whitelisted value folds to its content type, "attachment" with the
    file name otherwise, and in both cases Content-Type and ETag are set
    from the entry; these are the headers sent with the status 200 when
    the hook has written no status line before. *)
Theorem get_sets_disposition_content_type_and_etag s key entry reader :
  let s1 := afterOutgoing h s in
  let seg := default EmptyString (Vars (req s1) !! "id") in
  Strings.slice_to seg (Strings.LastIndex seg Strings.dot) = Some key →
  Storages.LoadStorageEntry key (backend s1) = (true, None, entry) →
  Http.Header_Get "If-None-Match" (Header (req s1)) ≠ GetETagValue entry →
  Storages.GetReadSeeker (Configuration h) entry (backend s1) = inr reader →
  let w' := w (handleGetRequest GetETagValue h s).2 in
  let hd := Http.header w' in
  (((∃ value, value ∈ WhitelistedContentTypes h
              ∧ Strings.EqualFold value (Storages.GetContentType entry) = true)
    ∧ Http.Header_Get "Content-Disposition" hd
      = dispositionValue "inline" (Storages.GetFilename entry))
   ∨ ((∀ value, value ∈ WhitelistedContentTypes h →
                Strings.EqualFold value (Storages.GetContentType entry) = false)
      ∧ Http.Header_Get "Content-Disposition" hd
        = dispositionValue "attachment" (Storages.GetFilename entry)))
  ∧ Http.Header_Get "Content-Type" hd = Storages.GetContentType entry
  ∧ Http.Header_Get "ETag" hd = GetETagValue entry
  ∧ (Http.wroteHeader (w s1) = None →
     Http.wroteHeader w' = Some (Http.StatusOK, hd)).
Proof.
  intros s1 seg Hk Hl He Hr.
  rewrite handleGetRequest_unfold. fold s1. cbv zeta. fold seg.
  rewrite (slice_to_Some_nonneg _ _ _ Hk), Hk.
  rewrite (serveEntry_delivers GetETagValue h _ _ _ _ _ Hl He Hr).
  set (w3 := Http.setHeader (Http.Header_Set "ETag" _) _).
  set (s2 := mkState _ (Http.WriteHeader Http.StatusOK w3) _ _).
  assert (Http.header (w ((if BufferSize h <? 0 then panic
            else sendLoop (S (length (Multipart.data reader))) reader
                   (Multipart.zeros (Z.to_nat (BufferSize h)))) s2).2)
          = Http.header w3
          ∧ (Http.wroteHeader (w s1) = None →
             Http.wroteHeader (w ((if BufferSize h <? 0 then panic
               else sendLoop (S (length (Multipart.data reader))) reader
                      (Multipart.zeros (Z.to_nat (BufferSize h)))) s2).2)
             = Some (Http.StatusOK, Http.header w3))) as [Hh Hs].
  { assert (Http.wroteHeader (w s1) = None →
            Http.wroteHeader (w s2) = Some (Http.StatusOK, Http.header w3)) as H2.
    { intros Hw. subst s2 w3. cbn [w]. unfold Http.WriteHeader.
      cbn [Http.setHeader Http.wroteHeader]. now rewrite Hw. }
    destruct (BufferSize h <? 0).
    - split; [apply header_WriteHeader|exact H2].
    - destruct (sendLoop_keeps (S (length (Multipart.data reader))) reader
                  (Multipart.zeros (Z.to_nat (BufferSize h))) s2) as (K1 & K2 & _).
      split.
      + rewrite K1. apply header_WriteHeader.
      + intros Hw. apply K2, H2, Hw. }
  rewrite Hh. subst w3. cbn [Http.setHeader Http.header].
  split; [|split; [|split; [|exact Hs]]].
  - rewrite !Header_Get_Set_ne by (vm_compute; discriminate).
    rewrite Header_Get_Set.
    destruct (whitelisted (WhitelistedContentTypes h) (Storages.GetContentType entry)) eqn:W.
    + left. split; [now apply whitelisted_spec|reflexivity].
    + right. split; [|reflexivity]. intros value Hv.
      destruct (Strings.EqualFold value (Storages.GetContentType entry)) eqn:E;
        [|reflexivity].
      assert (whitelisted (WhitelistedContentTypes h) (Storages.GetContentType entry)
              = true) as W' by (apply whitelisted_spec; eauto).
      congruence.
  - rewrite Header_Get_Set_ne by (vm_compute; discriminate).
    apply Header_Get_Set.
  - apply Header_Get_Set.
Qed.

End GetClaims.

(** ** Saving entries *)
Section SaveFacts.
Import Storages.
Variable NewObjectId : nat → Bson.ObjectId.

Lemma count_zero_not_in id (c : list MongoStorageEntry) :
  (1 <=? Nat.min 1 (length (filter (λ e, has_id id e = true) c)))%nat = false →
  id ∉ (Id <$> c).
Proof.
  intros H Hin. apply list_elem_of_fmap in Hin as (e & -> & He).
  assert (e ∈ filter (λ e0, has_id (Id e) e0 = true) c) as Hf.
  { apply list_elem_of_filter. split; [|exact He]. unfold has_id. apply String.eqb_refl. }
  destruct (filter (λ e0, has_id (Id e) e0 = true) c) as [|x l]; [inversion Hf|].
  simpl in H. discriminate.
Qed.

Lemma count_pos_in id (c : list MongoStorageEntry) :
  (1 <=? Nat.min 1 (length (filter (λ e, has_id id e = true) c)))%nat = true →
  id ∈ (Id <$> c).
Proof.
  intros H. destruct (filter (λ e, has_id id e = true) c) as [|x l] eqn:F;
    [simpl in H; discriminate|].
  assert (x ∈ filter (λ e, has_id id e = true) c) as Hx by (rewrite F; left).
  apply list_elem_of_filter in Hx as [Hid Hin].
  apply list_elem_of_fmap. exists x. split; [|exact Hin].
  unfold has_id in Hid. apply String.eqb_eq in Hid. now symmetry.
Qed.

(** What the loop of [Save] returns: an id that no stored document has,
    or an error; the collection is as before either way. *)
Lemma Save_loop_returns fuel b err id b1 :
  Save_loop NewObjectId fuel b = Some (err, id, b1) →
  collection b1 = collection b ∧ reachable b1 = reachable b
  ∧ (err = None → id ∉ ids b).
Proof.
  revert b. induction fuel as [|fuel IH]; intros b; cbn [Save_loop]; [discriminate|].
  unfold FindId_Limit1_Count. cbn [reachable setIssued collection].
  destruct (reachable b) eqn:R.
  - match goal with |- context [(1 <=? ?n)%nat] => destruct (1 <=? n)%nat eqn:C end.
    + intros H. destruct (IH _ H) as (I1 & I2 & I3). cbn in I1, I2, I3.
      rewrite R in I2. auto.
    + intros [= <- <- <-]. cbn. rewrite R. repeat split.
      intros _. now apply count_zero_not_in.
  - intros [= <- <- <-]. cbn. rewrite R. repeat split. discriminate.
Qed.

(** One [Save] keeps the ids of the stored documents pairwise different;
    when it returns nil it has appended the entry under an id that no
    stored document had, and when it returns an error the collection is
    as before. *)
Lemma Save_keeps_ids_distinct fuel e b err e' b' :
  NoDup (ids b) →
  Save NewObjectId fuel e b = Some (err, e', b') →
  NoDup (ids b')
  ∧ (err = None → (Id e' ∉ ids b) ∧ collection b' = collection b ++ [e'])
  ∧ (err ≠ None → collection b' = collection b).
Proof.
  intros Hnd. unfold Save.
  destruct (Save_loop NewObjectId fuel b) as [[[[err1|] id] b1]|] eqn:L; [| |discriminate].
  - intros [= <- <- <-]. destruct (Save_loop_returns _ _ _ _ _ L) as (C & _ & _).
    unfold ids. rewrite C. split; [exact Hnd|]. split; [discriminate|]. reflexivity.
  - destruct (Save_loop_returns _ _ _ _ _ L) as (C & R & F).
    specialize (F eq_refl). unfold Insert.
    destruct (reachable b1) eqn:R1.
    + intros [= <- <- <-]. unfold ids. cbn [collection setCollection].
      rewrite C, fmap_app. cbn [fmap list_fmap SetId Id].
      split; [|split; [intros _; split; [exact F|reflexivity]|congruence]].
      apply NoDup_app. split; [exact Hnd|]. split; [|apply NoDup_singleton].
      intros x Hx Hx'. apply list_elem_of_singleton in Hx'. subst x. now apply F.
    + intros [= <- <- <-]. unfold ids. rewrite C.
      split; [exact Hnd|]. split; [discriminate|reflexivity].
Qed.

(** What one [Save] does to the collection, whatever the documents in it:
    when it returns nil it has appended the entry under an id that no
    stored document had, and when it returns an error the collection is
    as before. *)
Lemma Save_appends_under_fresh_id fuel e b err e' b' :
  Save NewObjectId fuel e b = Some (err, e', b') →
  (err = None → (Id e' ∉ ids b) ∧ collection b' = collection b ++ [e'])
  ∧ (err ≠ None → collection b' = collection b).
Proof.
  unfold Save.
  destruct (Save_loop NewObjectId fuel b) as [[[[err1|] id] b1]|] eqn:L; [| |discriminate].
  - intros [= <- <- <-]. destruct (Save_loop_returns _ _ _ _ _ L) as (C & _ & _).
    split; [discriminate|]. intros _. exact C.
  - destruct (Save_loop_returns _ _ _ _ _ L) as (C & R & F).
    specialize (F eq_refl). unfold Insert.
    destruct (reachable b1) eqn:R1.
    + intros [= <- <- <-]. cbn [collection setCollection SetId Id]. rewrite C.
      split; [intros _; split; [exact F|reflexivity]|congruence].
    + intros [= <- <- <-]. split; [discriminate|]. intros _. exact C.
Qed.

(** The loop of [Save] ends: with a generator that does not repeat itself
    and more fuel than candidates [l] for a collision, it returns. *)
Lemma Save_loop_ends fuel (l : list Bson.ObjectId) b :
  (∀ i j, NewObjectId i = NewObjectId j → i = j) →
  (∀ j, (issued b ≤ j)%nat → NewObjectId j ∈ ids b → NewObjectId j ∈ l) →
  (length l < fuel)%nat →
  ∃ r, Save_loop NewObjectId fuel b = Some r.
Proof.
  intros Hinj. revert l b. induction fuel as [|fuel IH]; intros l b Hl Hlen; [lia|].
  cbn [Save_loop]. unfold FindId_Limit1_Count. cbn [reachable setIssued collection].
  destruct (reachable b) eqn:R; [|eauto].
  match goal with |- context [(1 <=? ?n)%nat] => destruct (1 <=? n)%nat eqn:C end;
    [|eauto].
  apply count_pos_in in C.
  set (x := NewObjectId (issued b)) in *.
  assert (x ∈ l) as Hx by (apply Hl; [lia|exact C]).
  apply (IH (filter (λ y, y ≠ x) l)).
  - intros j Hj Hin. cbn [issued setIssued] in Hj.
    apply list_elem_of_filter. split.
    + intros E. apply Hinj in E. lia.
    + apply Hl; [lia|exact Hin].
  - pose proof (length_filter_lt (λ y, y ≠ x) l x Hx) as Hlt.
    assert (¬ x ≠ x) as Hnn by (intros Hne; now apply Hne).
    specialize (Hlt Hnn). lia.
Qed.

Lemma Save_ends fuel e b :
  (∀ i j, NewObjectId i = NewObjectId j → i = j) →
  (length (collection b) < fuel)%nat →
  ∃ err e' b', Save NewObjectId fuel e b = Some (err, e', b').
Proof.
  intros Hinj Hlen. unfold Save.
  destruct (Save_loop_ends fuel (ids b) b Hinj) as [[[err id] b1] L].
  - auto.
  - unfold ids. now rewrite length_fmap.
  - rewrite L. destruct err; [eauto|]. destruct (Insert (SetId id e) b1); eauto.
Qed.

Lemma Save_length fuel e b err e' b' :
  Save NewObjectId fuel e b = Some (err, e', b') →
  (length (collection b') ≤ S (length (collection b)))%nat
  ∧ ∃ new, ids b' = ids b ++ new.
Proof.
  unfold Save.
  destruct (Save_loop NewObjectId fuel b) as [[[[err1|] id] b1]|] eqn:L; [| |discriminate].
  - intros [= <- <- <-]. destruct (Save_loop_returns _ _ _ _ _ L) as (C & _ & _).
    unfold ids. rewrite C. split; [lia|]. exists []. now rewrite app_nil_r.
  - destruct (Save_loop_returns _ _ _ _ _ L) as (C & _ & _). unfold Insert.
    destruct (reachable b1).
    + intros [= <- <- <-]. unfold ids. cbn [collection setCollection].
      rewrite C, length_app, fmap_app. simpl. split; [lia|eauto].
    + intros [= <- <- <-]. unfold ids. rewrite C. split; [lia|].
      exists []. now rewrite app_nil_r.
Qed.

(** C9.  With an id generator that does not repeat itself and enough
    fuel for the retries, every sequence of [Save] calls returns, keeps
    the ids of the stored documents pairwise different (at most one
    document per id), and only adds ids behind the ones that were there:
    no stored id is given out again.  Each single [Save] inserts only
    after its loop has found an id that no stored document has. *)
Theorem saves_keep_one_document_per_id fuel es b :
  (∀ i j, NewObjectId i = NewObjectId j → i = j) →
  NoDup (ids b) →
  (length (collection b) + length es ≤ fuel)%nat →
  (∃ b', SaveAll NewObjectId fuel es b = Some b'
         ∧ NoDup (ids b')
         ∧ ∃ new, ids b' = ids b ++ new)
  ∧ (∀ e b0 err e' b1,
       Save NewObjectId fuel e b0 = Some (err, e', b1) →
       (err = None → (Id e' ∉ ids b0) ∧ collection b1 = collection b0 ++ [e'])
       ∧ (err ≠ None → collection b1 = collection b0)).
Proof.
  intros Hinj Hnd Hlen. split; [|intros e b0 err e' b1; apply Save_appends_under_fresh_id].
  revert b Hnd Hlen. induction es as [|e es IH]; intros b Hnd Hlen; simpl.
  - exists b. split; [reflexivity|]. split; [exact Hnd|]. exists []. now rewrite app_nil_r.
  - simpl in Hlen.
    destruct (Save_ends fuel e b Hinj) as (err & e' & b1 & HS); [lia|].
    rewrite HS.
    destruct (Save_keeps_ids_distinct _ _ _ _ _ _ Hnd HS) as (Hnd1 & _).
    destruct (Save_length _ _ _ _ _ _ HS) as (Hl1 & new1 & Hn1).
    destruct (IH b1 Hnd1) as (b' & HA & Hnd' & new & Hn); [lia|].
    exists b'. split; [exact HA|]. split; [exact Hnd'|].
    exists (new1 ++ new). now rewrite Hn, Hn1, app_assoc.
Qed.

End SaveFacts.

(** ** A fact about lists *)
Section ListFacts.

Lemma drop_length_take {A} (n : nat) (l : list A) :
  drop (length (take n l)) l = drop n l.
Proof.
  rewrite length_take. destruct (Nat.le_ge_cases n (length l)) as [H|H].
  - now rewrite Nat.min_l.
  - rewrite Nat.min_r by exact H. now rewrite drop_all, drop_ge.
Qed.

End ListFacts.

(** ** The upload handler *)
Section UploadFacts.
Import Handler Router.
Variable NewObjectId : nat → Bson.ObjectId.
Variable DetectContentType : list byte → string.
Variable h : ShareXHandler.

Lemma backend_afterOutgoing s : backend (afterOutgoing h s) = backend s.
Proof.
  unfold afterOutgoing, outgoing. destruct (OutgoingFunction h) as [f|]; [|reflexivity].
  now destruct (f (w s) (req s)).
Qed.

Lemma chunkSize_pos : (0 < chunkSize)%nat.
Proof. unfold chunkSize. lia. Qed.

(** The copy loop ends: one round per byte left in the file, and one more,
    are enough. *)
Lemma uploadLoop_ends fuel file writer s :
  (length (Multipart.data file) - Multipart.off file < fuel)%nat →
  (uploadLoop fuel file writer s).1 ≠ Running.
Proof.
  revert file s. induction fuel as [|fuel IH]; intros file s Hlen; [lia|].
  cbn [uploadLoop]. unfold Multipart.Read.
  destruct (drop (Multipart.off file) (Multipart.data file)) as [|x rest] eqn:D.
  - simpl. discriminate.
  - pose proof chunkSize_pos as Hc.
    destruct chunkSize as [|n] eqn:Ec; [lia|].
    cbn [take length Nat.eqb]. unfold writerWrite. run_monad.
    match goal with |- (uploadLoop fuel ?f writer ?s').1 ≠ Running =>
      apply (IH f s') end.
    cbn [Multipart.data Multipart.off].
    assert (length (drop (Multipart.off file) (Multipart.data file)) = S (length rest))
      as Hd by now rewrite D.
    rewrite length_drop in Hd. lia.
Qed.

(** The sending loop ends as well. *)
Lemma sendLoop_ends fuel reader buf s :
  (length (Multipart.data reader) - Multipart.off reader < fuel)%nat →
  (sendLoop fuel reader buf s).1 ≠ Running.
Proof.
  revert reader buf s. induction fuel as [|fuel IH]; intros reader buf s Hlen; [lia|].
  cbn [sendLoop]. unfold Multipart.Read.
  destruct (drop (Multipart.off reader) (Multipart.data reader)) as [|x rest] eqn:D.
  - simpl. discriminate.
  - destruct (length buf) as [|n] eqn:Eb.
    + simpl. discriminate.
    + cbn [take length Nat.eqb]. run_monad. unfold write.
      destruct (Http.Write _ (w s)) as [e w']. destruct e; [simpl; discriminate|].
      match goal with |- (sendLoop fuel ?f ?b ?s').1 ≠ Running =>
        apply (IH f b s') end.
      cbn [Multipart.data Multipart.off].
      assert (length (drop (Multipart.off reader) (Multipart.data reader)) = S (length rest))
        as Hd by now rewrite D.
      rewrite length_drop in Hd. lia.
Qed.

Lemma setFiles_same b old writer :
  Storages.files b !! writer = Some old →
  Storages.setFiles (<[writer := old]> (Storages.files b)) b = b.
Proof. intros H. rewrite (insert_id _ _ _ H). now destruct b. Qed.

(** What the copy loop does: it returns, and the writer's file, which
    held [old], holds [old] followed by [writtenBy fuel rest]; the
    response writer and the request are untouched. *)
Lemma uploadLoop_writes fuel file writer s old :
  Storages.files (backend s) !! writer = Some old →
  (length (Multipart.data file) - Multipart.off file < fuel)%nat →
  ∃ t, uploadLoop fuel file writer s
       = (Ret tt,
          mkState
            (Storages.setFiles
               (<[writer := old ++ writtenBy fuel
                                     (drop (Multipart.off file) (Multipart.data file))]>
                  (Storages.files (backend s)))
               (backend s))
            (w s) (req s) (t ++ trace s)).
Proof.
  revert file s old. induction fuel as [|fuel IH]; intros file s old Hold Hlen; [lia|].
  cbn [uploadLoop writtenBy]. unfold Multipart.Read.
  destruct (drop (Multipart.off file) (Multipart.data file)) as [|x rest] eqn:D.
  - exists []. cbn. rewrite app_nil_r, (setFiles_same _ _ _ Hold). now destruct s.
  - pose proof chunkSize_pos as Hc.
    destruct chunkSize as [|n] eqn:Ec; [lia|].
    cbn [take length Nat.eqb drop]. unfold writerWrite. run_monad.
    set (buffer := Multipart.fill (Multipart.zeros (S n)) (x :: take n rest)).
    match goal with |- ∃ t, uploadLoop fuel ?f writer ?s1 = _ =>
      destruct (IH f s1 (old ++ buffer)) as (t & E) end.
    { cbn [backend]. unfold Storages.Writer_Write. cbn [Storages.files Storages.setFiles].
      rewrite lookup_insert_eq, Hold. reflexivity. }
    { cbn [Multipart.data Multipart.off].
      assert (length (drop (Multipart.off file) (Multipart.data file)) = S (length rest))
        as Hd by now rewrite D.
      rewrite length_drop in Hd. lia. }
    exists (t ++ [EvWriterWrite (length buffer)]). rewrite E.
    cbn [backend w req trace Multipart.data Multipart.off].
    unfold Storages.Writer_Write, Storages.setFiles.
    cbn [Storages.files Storages.collection Storages.reachable Storages.creatable
         Storages.issued Storages.clock].
    rewrite Hold. cbn [default]. unfold id. rewrite insert_insert_eq.
    replace (drop (Multipart.off file + S (length (take n rest))) (Multipart.data file))
      with (drop n rest).
    2:{ rewrite <- drop_drop, D. cbn [drop]. now rewrite drop_length_take. }
    rewrite <- !app_assoc. reflexivity.
Qed.

Lemma handleUploadRequest_unfold fuel s :
  handleUploadRequest NewObjectId DetectContentType h fuel s
  = handleUploadRequest2 NewObjectId DetectContentType (withoutOutgoingFunction h) fuel
      (afterOutgoing h (afterOutgoing h s)).
Proof.
  unfold handleUploadRequest, handleUploadRequest2, callOutgoingFunction, afterOutgoing.
  destruct h as [c [f|] bs ph wl]; reflexivity.
Qed.

(** C3, as amended.  When [req.ParseMultipartForm] returns an error (the
    declared content type is not multipart data, or the body does not
    parse), the handler answers with the status 500, the backend is left
    as it was (no document, no file), and the form parsing is the only
    call made: neither [NewStorageEntry] nor [Save] is called. *)
Theorem upload_of_unparseable_form_is_internal_error fuel s :
  let s2 := afterOutgoing h (afterOutgoing h s) in
  MultipartForm (req s2) = None →
  Http.wroteHeader (w s2) = None →
  ∃ s', handleUploadRequest NewObjectId DetectContentType h fuel s = (Ret tt, s')
        ∧ Http.status (w s') = Some Http.StatusInternalServerError
        ∧ backend s' = backend s
        ∧ trace s' = EvParseMultipartForm :: trace s2.
Proof.
  intros s2 Hf Hw. rewrite handleUploadRequest_unfold. fold s2.
  unfold handleUploadRequest2, callOutgoingFunction, ParseMultipartForm, internalError.
  cbn [withoutOutgoingFunction OutgoingFunction]. run_monad. rewrite Hf.
  eexists. split; [reflexivity|]. cbn [w backend trace].
  split; [now apply status_Error|]. split; [|reflexivity].
  subst s2. now rewrite !backend_afterOutgoing.
Qed.

Lemma writtenBy_cons fuel x (rest : list byte) :
  writtenBy (S fuel) (x :: rest)
  = Multipart.fill (Multipart.zeros chunkSize) (take chunkSize (x :: rest))
    ++ writtenBy fuel (drop chunkSize (x :: rest)).
Proof. reflexivity. Qed.

Lemma writtenBy_nil fuel : writtenBy fuel [] = [].
Proof. now destruct fuel. Qed.

(** A file of at most one buffer is stored as its bytes followed by
    zero bytes up to the size of the buffer. *)
Lemma writtenBy_short (d : list byte) :
  d ≠ [] → (length d ≤ chunkSize)%nat →
  writtenBy (S (length d)) d = d ++ replicate (chunkSize - length d) x00
  ∧ length (writtenBy (S (length d)) d) = chunkSize.
Proof.
  intros Hne Hlen. destruct d as [|x d]; [congruence|].
  rewrite writtenBy_cons, (take_ge _ _ Hlen), (drop_ge _ _ Hlen), writtenBy_nil.
  rewrite app_nil_r. unfold Multipart.fill, Multipart.zeros.
  rewrite drop_replicate. split; [reflexivity|].
  rewrite length_app, length_replicate.
  generalize dependent chunkSize. intros. lia.
Qed.

Lemma Save_loop_shape fuel b err id b1 :
  Storages.Save_loop NewObjectId fuel b = Some (err, id, b1) →
  (∃ n, b1 = Storages.setIssued n b)
  ∧ (err = None → Storages.reachable b = true ∧ (id ∉ Storages.ids b)).
Proof.
  revert b. induction fuel as [|fuel IH]; intros b; cbn [Storages.Save_loop]; [discriminate|].
  unfold Storages.FindId_Limit1_Count.
  cbn [Storages.reachable Storages.setIssued Storages.collection].
  destruct (Storages.reachable b) eqn:R.
  - match goal with |- context [(1 <=? ?n)%nat] => destruct (1 <=? n)%nat eqn:C end.
    + intros H. destruct (IH _ H) as ((n & ->) & I2). split.
      * exists n. now destruct b.
      * intros He. destruct (I2 He) as [_ I3]. split; [reflexivity|exact I3].
    + intros [= <- <- <-]. split; [eauto|]. intros _. split; [reflexivity|].
      now apply count_zero_not_in.
  - intros [= <- <- <-]. split; [eauto|discriminate].
Qed.

Lemma Save_shape fuel e b e' b' :
  Storages.Save NewObjectId fuel e b = Some (None, e', b') →
  ∃ id n, e' = Storages.SetId id e ∧ (id ∉ Storages.ids b)
          ∧ Storages.reachable b = true
          ∧ b' = Storages.setCollection (Storages.collection b ++ [e'])
                   (Storages.setIssued n b).
Proof.
  unfold Storages.Save.
  destruct (Storages.Save_loop NewObjectId fuel b) as [[[[err1|] id] b1]|] eqn:L;
    [discriminate| |discriminate].
  destruct (Save_loop_shape _ _ _ _ _ L) as ((n & ->) & H2).
  destruct (H2 eq_refl) as [R F]. unfold Storages.Insert.
  cbn [Storages.reachable Storages.setIssued]. rewrite R.
  intros [= <- <-]. exists id, n. auto.
Qed.

Lemma replace_first_last id doc (c : list Storages.MongoStorageEntry) e :
  id ∉ (Storages.Id <$> c) → Storages.Id e = id →
  Storages.replace_first id doc (c ++ [e]) = Some (c ++ [doc]).
Proof.
  intros Hn He. induction c as [|e' c IH]; cbn [app Storages.replace_first].
  - unfold Storages.has_id. now rewrite He, String.eqb_refl.
  - rewrite fmap_cons in Hn. apply not_elem_of_cons in Hn as [Hne Hn].
    unfold Storages.has_id at 1.
    destruct (String.eqb_spec (Storages.Id e') id) as [E|E]; [congruence|].
    now rewrite (IH Hn).
Qed.

(** What [handleUploadRequest] does with a file that is kept in memory
    and not empty, whose name ends in [.ext], when the entry is saved and
    its file can be created: it answers 200 with the URL made of
    [ProtocolHost], the id and the ending, the document holds the file
    name and the detected content type, and the entry's file holds what
    the copy loop wrote: every chunk read, each filled up to the size of
    the buffer. *)
Theorem upload_answers_url_and_stores_padded_file fuel s form fh fhs entry b1 stem ext :
  let s2 := afterOutgoing h (afterOutgoing h s) in
  let b := backend s in
  MultipartForm (req s2) = Some form →
  form !! "file" = Some (fh :: fhs) →
  Multipart.tmpfile fh = false →
  Multipart.content fh ≠ [] →
  Storages.Save NewObjectId fuel (Storages.NewStorageEntry b) b = Some (None, entry, b1) →
  Storages.creatable b = true →
  Http.wroteHeader (w s2) = None →
  Multipart.Filename fh = stem +:+ String Strings.dot ext →
  Strings.absent Strings.dot ext = true →
  ∃ s', handleUploadRequest NewObjectId DetectContentType h fuel s = (Ret tt, s')
        ∧ Http.status (w s') = Some Http.StatusOK
        ∧ Http.body (w s')
          = Http.body (w s2)
            ++ list_byte_of_string
                 (ProtocolHost h +:+ Storages.GetId entry +:+ String Strings.dot ext)
        ∧ Storages.files (backend s') !! Storages.path_of (Configuration h) entry
          = Some (writtenBy (S (length (Multipart.content fh))) (Multipart.content fh))
        ∧ Storages.collection (backend s')
          = Storages.collection b
            ++ [Storages.SetFilename (Multipart.Filename fh)
                  (Storages.SetContentType
                     (DetectContentType
                        (Multipart.fill (Multipart.zeros sniffLen)
                           (take sniffLen (Multipart.content fh))))
                     entry)].
Proof.
  intros s2 b Hform Hfile Htmp Hne HSave Hcre Hw Hname Hext.
  rewrite handleUploadRequest_unfold. fold s2.
  assert (backend s2 = b) as Hb by (subst s2 b; now rewrite !backend_afterOutgoing).
  unfold handleUploadRequest2, callOutgoingFunction, ParseMultipartForm.
  cbn [withoutOutgoingFunction OutgoingFunction Configuration ProtocolHost].
  run_monad. rewrite Hform. unfold FormFile. rewrite Hfile.
  unfold Multipart.Open, Multipart.Read. cbn [Multipart.data Multipart.off drop].
  destruct (Save_shape _ _ _ _ _ HSave) as (id & n & He & Hfresh & Hreach & Hb1).
  set (data := Multipart.content fh) in *.
  assert (drop 0 data = data) as D0 by reflexivity.
  destruct data as [|x rest] eqn:Hc; [congruence|].
  cbn [drop]. cbv iota beta.
  unfold Multipart.Size, Multipart.Seek0. cbn [Multipart.onDisk Multipart.data].
  rewrite Htmp. unfold NewStorageEntry, Save. run_monad. rewrite Hb, HSave.
  run_monad. unfold GetWriter. run_monad. unfold Storages.GetWriter.
  assert (Storages.creatable b1 = true) as Hcre1 by (rewrite Hb1; exact Hcre).
  rewrite Hcre1. run_monad. unfold defer.
  set (writer := Storages.path_of (Configuration h) entry).
  match goal with |- context [uploadLoop ?f ?file ?wr ?st] =>
    destruct (uploadLoop_writes f file wr st []) as (t & EL) end.
  { cbn [backend Storages.files Storages.setFiles]. apply lookup_insert_eq. }
  { cbn [Multipart.data Multipart.off]. lia. }
  rewrite EL. cbn [Multipart.data Multipart.off drop app].
  clear EL.
  unfold Update. run_monad. unfold Storages.Update, Storages.UpdateId.
  cbn [withoutOutgoingFunction Configuration ProtocolHost].
  cbn [Storages.reachable Storages.collection Storages.files Storages.setFiles
       Storages.SetFilename Storages.SetContentType Storages.Id].
  assert (Storages.reachable b1 = true) as Hr1 by (rewrite Hb1; exact Hreach).
  assert (Storages.collection b1 = Storages.collection b ++ [entry]) as Hc1
    by (rewrite Hb1; reflexivity).
  rewrite Hr1, Hc1.
  assert (Storages.Id entry ∉ Storages.Id <$> Storages.collection b) as Hf2
    by (rewrite He; exact Hfresh).
  rewrite (replace_first_last (Storages.Id entry) _ (Storages.collection b) entry Hf2 eq_refl).
  run_monad. cbn [Storages.GetFilename Storages.SetFilename Storages.Filename].
  assert (Strings.slice_from (Multipart.Filename fh)
            (Strings.LastIndex (Multipart.Filename fh) Strings.dot)
          = Some (String Strings.dot ext)) as Hsl.
  { rewrite Hname, LastIndex_app by exact Hext.
    unfold Strings.slice_from, Strings.len. rewrite length_app_str. cbn [String.length].
    rewrite Nat2Z.id, drop_str_app.
    destruct (0 <=? Z.of_nat (String.length stem)) eqn:E1; [|apply Z.leb_gt in E1; lia].
    destruct (Z.of_nat (String.length stem) <=?
              Z.of_nat (String.length stem + S (String.length ext))) eqn:E2;
      [reflexivity|apply Z.leb_gt in E2; lia]. }
  rewrite Hsl. unfold write. cbn [w].
  assert (Http.wroteHeader (Http.WriteHeader 200 (w s2)) = Some (200, Http.header (w s2)))
    as Hw2 by (unfold Http.WriteHeader; now rewrite Hw).
  unfold Http.Write.
  rewrite (WriteHeader_written Http.StatusOK _ _ Hw2), Hw2.
  cbn [Http.bodyAllowedForStatus]. 
  eexists. split; [reflexivity|]. unfold writerClose. cbn [w backend].
  split; [reflexivity|]. split.
  { cbn [Http.body]. now rewrite body_WriteHeader. }
  split.
  { cbn [Storages.files Storages.setCollection Storages.setFiles].
    apply lookup_insert_eq. }
  reflexivity.
Qed.



End UploadFacts.

(** ** Runs of the handlers on concrete requests *)
Section Runs.
Import Handler Examples.

(** C1 at a one-byte file.  The upload is answered 200 with the URL of
    the new entry, and the file stored under that id holds 8192 bytes: the
    uploaded byte followed by the zero bytes of the rest of the buffer. *)
Theorem upload_of_one_byte_stores_whole_buffer :
  statusOf (upload "a.txt" ["A"%byte]) = Some 200
  ∧ string_of_list_byte (bodyOf (upload "a.txt" ["A"%byte]))
    = "http://localhost:8080/000000000000000000000000.txt"
  ∧ blobOf firstId (backendOf (upload "a.txt" ["A"%byte]))
    = Some ("A"%byte :: Multipart.zeros (Router.chunkSize - 1))
  ∧ length <$> blobOf firstId (backendOf (upload "a.txt" ["A"%byte]))
    = Some Router.chunkSize.
Proof. vm_compute. repeat split; reflexivity. Qed.

(** C4 at the file name README.  The handler writes the status 200 and
    then panics on the slice expression: no body is written. *)
Theorem upload_of_name_without_dot_panics :
  (upload "README" ["A"%byte]).1 = Panic
  ∧ statusOf (upload "README" ["A"%byte]) = Some 200
  ∧ bodyOf (upload "README" ["A"%byte]) = [].
Proof. vm_compute. repeat split; reflexivity. Qed.

(** C5 at an empty file.  The first read returns io.EOF, the handler
    answers 500 and goes on: the entry is stored with an empty file, the
    URL is appended to the error text, and a GET of the entry is answered
    200 with an empty body. *)
Theorem upload_of_empty_file_is_answered_500 :
  (upload "a.txt" []).1 = Ret tt
  ∧ statusOf (upload "a.txt" []) = Some 500
  ∧ string_of_list_byte (bodyOf (upload "a.txt" []))
    = "500 an internal error occurred" +:+ Http.newline
      +:+ "http://localhost:8080/000000000000000000000000.txt"
  ∧ blobOf firstId (backendOf (upload "a.txt" [])) = Some []
  ∧ statusOf (get (firstId +:+ ".txt") EmptyString (backendOf (upload "a.txt" [])))
    = Some 200
  ∧ bodyOf (get (firstId +:+ ".txt") EmptyString (backendOf (upload "a.txt" []))) = [].
Proof. vm_compute. repeat split; reflexivity. Qed.

(** C2 fails at a bare id: the entry that [id.txt] resolves (status 200,
    the reader is opened) is not resolved by [id] alone (status 404, the
    storage is not asked). *)
Lemma get_of_bare_id_counterexample :
  statusOf (get (firstId +:+ ".txt") EmptyString stored) = Some 200
  ∧ trace (get (firstId +:+ ".txt") EmptyString stored).2
    = [EvGetReader; EvLoadStorageEntry firstId]
  ∧ statusOf (get firstId EmptyString stored) = Some 404
  ∧ trace (get firstId EmptyString stored).2 = []
  ∧ statusOf (get firstId EmptyString stored)
    ≠ statusOf (get (firstId +:+ ".txt") EmptyString stored).
Proof. vm_compute. repeat split; try reflexivity. discriminate. Qed.

(** C3 fails at a POST whose content type is text/plain, for which
    [req.ParseMultipartForm] returns an error: the status is 500, not 400
    (no entry is created, as stated). *)
Lemma upload_of_plain_post_counterexample :
  MultipartForm plainPost = None
  ∧ statusOf (Router.handleUploadRequest testId detect handler 5
                (start emptyBackend plainPost)) = Some 500
  ∧ statusOf (Router.handleUploadRequest testId detect handler 5
                (start emptyBackend plainPost)) ≠ Some Http.StatusBadRequest
  ∧ backendOf (Router.handleUploadRequest testId detect handler 5
                 (start emptyBackend plainPost)) = emptyBackend.
Proof. vm_compute. repeat split; try reflexivity. discriminate. Qed.

(** The header that the hook of [handlerWithHook] adds is there twice
    after an upload and once after a GET. *)
Example hook_header_is_added_twice_on_upload :
  Http.header (w (Router.handleUploadRequest testId detect handlerWithHook 5
                    (start emptyBackend (uploadOf "a.txt" ["A"%byte]))).2)
    !! "X-Served-By" = Some ["sharex"; "sharex"]
  ∧ Http.header (w (Router.handleGetRequest etag handlerWithHook
                      (start stored (getOf (firstId +:+ ".txt") EmptyString))).2)
      !! "X-Served-By" = Some ["sharex"].
Proof. vm_compute. split; reflexivity. Qed.

Lemma unaryId_inj i j : unaryId i = unaryId j → i = j.
Proof.
  unfold unaryId. intros E.
  assert (list_ascii_of_string (string_of_list_ascii (replicate i "a"%char))
          = list_ascii_of_string (string_of_list_ascii (replicate j "a"%char))) as E'
    by now rewrite E.
  rewrite !list_ascii_of_string_of_list_ascii in E'.
  apply (f_equal length) in E'. now rewrite !length_replicate in E'.
Qed.

(** The hook of [handlerWithHook] runs twice on an upload and once on a
    GET. *)
Lemma OutgoingFunction_twice_witness :
  Router.OutgoingFunction handlerWithHook = Some addHeader
  ∧ (Router.handleUploadRequest testId detect handlerWithHook 5
       (start emptyBackend (uploadOf "a.txt" ["A"%byte]))
     = Router.handleUploadRequest testId detect
         (Router.withoutOutgoingFunction handlerWithHook) 5
         (Router.outgoing addHeader
            (Router.outgoing addHeader (start emptyBackend (uploadOf "a.txt" ["A"%byte])))))
  ∧ Router.handleGetRequest etag handlerWithHook (start stored (getOf "x.txt" EmptyString))
    = Router.handleGetRequest etag (Router.withoutOutgoingFunction handlerWithHook)
        (Router.outgoing addHeader (start stored (getOf "x.txt" EmptyString))).
Proof.
  split; [reflexivity|].
  pose proof (OutgoingFunction_twice_on_upload_once_on_get testId detect etag
                handlerWithHook addHeader 5
                (start emptyBackend (uploadOf "a.txt" ["A"%byte])) eq_refl) as H1.
  pose proof (OutgoingFunction_twice_on_upload_once_on_get testId detect etag
                handlerWithHook addHeader 5
                (start stored (getOf "x.txt" EmptyString)) eq_refl) as H2.
  split; [apply H1|apply H2].
Defined.

(** A GET of an id that is a well-formed object id with no document. *)
Lemma get_of_unknown_id_witness :
  ∃ s', Router.handleGetRequest etag handler
          (start stored (getOf "000000000000000000000001.txt" EmptyString)) = (Ret tt, s')
        ∧ Http.status (w s') = Some Http.StatusNotFound
        ∧ backend s' = stored.
Proof.
  apply (get_of_unknown_id_is_not_found etag handler
           (start stored (getOf "000000000000000000000001.txt" EmptyString))).
  - intros key Hk. vm_compute in Hk. injection Hk as <-.
    unfold Storages.misses.
    change (Bson.ObjectIdHex "000000000000000000000001") with (Some (testId 1)).
    split; [reflexivity|].
    change (Storages.ids (backend (Router.afterOutgoing handler
              (start stored (getOf "000000000000000000000001.txt" EmptyString)))))
      with [testId 0].
    intros Hin. apply list_elem_of_singleton in Hin. discriminate.
  - reflexivity.
Defined.

(** A GET whose If-None-Match is the ETag value of the stored entry. *)
Lemma get_with_matching_etag_witness :
  ∃ s', Router.handleGetRequest etag handler
          (start stored (getOf (firstId +:+ ".txt") (etag storedEntry))) = (Ret tt, s')
        ∧ Http.status (w s') = Some Http.StatusNotModified
        ∧ Http.body (w s') = []
        ∧ trace s' = [EvLoadStorageEntry firstId]
        ∧ (EvGetReader ∉ [EvLoadStorageEntry firstId])
        ∧ backend s' = stored.
Proof.
  apply (get_with_matching_etag_is_not_modified etag handler
           (start stored (getOf (firstId +:+ ".txt") (etag storedEntry)))
           firstId storedEntry); reflexivity.
Defined.

(** A GET that delivers the stored entry as an attachment. *)
Lemma get_sets_disposition_witness :
  let w' := w (Router.handleGetRequest etag handler
                 (start stored (getOf (firstId +:+ ".txt") EmptyString))).2 in
  let hd := Http.header w' in
  (((∃ value, value ∈ ["image/png"]
              ∧ Strings.EqualFold value "application/octet-stream" = true)
    ∧ Http.Header_Get "Content-Disposition" hd = Router.dispositionValue "inline" "a.txt")
   ∨ ((∀ value, value ∈ ["image/png"] →
                Strings.EqualFold value "application/octet-stream" = false)
      ∧ Http.Header_Get "Content-Disposition" hd
        = Router.dispositionValue "attachment" "a.txt"))
  ∧ Http.Header_Get "Content-Type" hd = "application/octet-stream"
  ∧ Http.Header_Get "ETag" hd = etag storedEntry
  ∧ (Http.wroteHeader Http.newResponseWriter = None →
     Http.wroteHeader w' = Some (Http.StatusOK, hd)).
Proof.
  apply (get_sets_disposition_content_type_and_etag etag handler
           (start stored (getOf (firstId +:+ ".txt") EmptyString))
           firstId storedEntry
           (Multipart.mkFile ("A"%byte :: Multipart.zeros (Router.chunkSize - 1)) 0 true)).
  - reflexivity.
  - reflexivity.
  - vm_compute. discriminate.
  - reflexivity.
Defined.

(** Two saves into a collection that already holds the first id the
    generator hands out. *)
Lemma saves_keep_one_document_per_id_witness :
  ∃ b', Storages.SaveAll unaryId 3 [storedEntry; storedEntry]
          (Storages.mkBackend [Storages.SetId (unaryId 0) storedEntry] true ∅ true 0 1000)
        = Some b'
        ∧ NoDup (Storages.ids b')
        ∧ ∃ new, Storages.ids b' = [unaryId 0] ++ new.
Proof.
  apply (saves_keep_one_document_per_id unaryId 3 [storedEntry; storedEntry]
           (Storages.mkBackend [Storages.SetId (unaryId 0) storedEntry] true ∅ true 0 1000)).
  - exact unaryId_inj.
  - apply NoDup_singleton.
  - simpl. lia.
Defined.

(** A POST whose form does not parse. *)
Lemma upload_of_unparseable_form_witness :
  ∃ s', Router.handleUploadRequest testId detect handler 5 (start emptyBackend plainPost)
        = (Ret tt, s')
        ∧ Http.status (w s') = Some Http.StatusInternalServerError
        ∧ backend s' = emptyBackend
        ∧ trace s' = [EvParseMultipartForm].
Proof.
  apply (upload_of_unparseable_form_is_internal_error testId detect handler 5
           (start emptyBackend plainPost)); reflexivity.
Defined.

End Runs.

(** ** Object ids in hexadecimal *)
Section HexFacts.

Lemma hex_digits_of_byte (a : ascii) :
  Hex.fromHexChar (Hex.digit (N_of_ascii a / 16)) = Some (N_of_ascii a / 16)%N
  ∧ Hex.fromHexChar (Hex.digit (N_of_ascii a mod 16)) = Some (N_of_ascii a mod 16)%N
  ∧ ascii_of_N (N_of_ascii a / 16 * 16 + N_of_ascii a mod 16) = a.
Proof. destruct a as [[] [] [] [] [] [] [] []]; vm_compute; auto. Qed.

Lemma DecodeString_EncodeToString (s : string) :
  Hex.DecodeString (Hex.EncodeToString s) = Some s.
Proof.
  induction s as [|a s IH]; [reflexivity|].
  cbn [Hex.EncodeToString Hex.DecodeString].
  destruct (hex_digits_of_byte a) as (H1 & H2 & H3).
  now rewrite H1, H2, IH, H3.
Qed.

Lemma length_EncodeToString (s : string) :
  String.length (Hex.EncodeToString s) = (2 * String.length s)%nat.
Proof. induction s as [|a s IH]; simpl; [reflexivity|]. rewrite IH. lia. Qed.

(** The id an entry shows in its URL decodes to the entry's object id. *)
Lemma ObjectIdHex_GetId (e : Storages.MongoStorageEntry) :
  String.length (Storages.Id e) = 12%nat →
  Bson.ObjectIdHex (Storages.GetId e) = Some (Storages.Id e).
Proof.
  intros Hl. unfold Bson.ObjectIdHex, Bson.IsObjectIdHex, Storages.GetId, Bson.Hex,
    Strings.len.
  rewrite length_EncodeToString, Hl, DecodeString_EncodeToString. reflexivity.
Qed.

Lemma find_has_id_NoDup (c : list Storages.MongoStorageEntry) e :
  e ∈ c → NoDup (Storages.Id <$> c) →
  List.find (Storages.has_id (Storages.Id e)) c = Some e.
Proof.
  induction c as [|e' c IH]; intros Hin Hnd; [inversion Hin|].
  simpl. unfold Storages.has_id at 1.
  rewrite fmap_cons in Hnd. apply NoDup_cons in Hnd as [Hn Hnd].
  apply elem_of_cons in Hin as [->|Hin].
  - now rewrite String.eqb_refl.
  - destruct (String.eqb_spec (Storages.Id e') (Storages.Id e)) as [E|E].
    + exfalso. apply Hn. rewrite E. now apply list_elem_of_fmap_2.
    + now apply IH.
Qed.

(** A stored entry is found again under the id of its URL. *)
Lemma LoadStorageEntry_GetId (e : Storages.MongoStorageEntry) b :
  Storages.reachable b = true →
  e ∈ Storages.collection b →
  NoDup (Storages.ids b) →
  String.length (Storages.Id e) = 12%nat →
  Storages.LoadStorageEntry (Storages.GetId e) b = (true, None, e).
Proof.
  intros Hr Hin Hnd Hl. unfold Storages.LoadStorageEntry, Storages.FindId_One.
  rewrite (ObjectIdHex_GetId e Hl), Hr.
  now rewrite (find_has_id_NoDup _ _ Hin Hnd).
Qed.

End HexFacts.

(** ** The copy loop of the later revision *)
Section RevFacts.
Import Storages.

(** With a buffer of at least one byte, the copy loop of the later
    revision ends and appends to the writer's file exactly the bytes that
    were left in the uploaded file; nothing else in the backend changes. *)
Lemma RouterRev_uploadLoop_copies n fuel file b writer :
  (0 < n)%nat →
  (length (Multipart.data file) - Multipart.off file < fuel)%nat →
  ∃ b', RouterRev.uploadLoop n fuel file b writer = Some b'
        ∧ default [] (files b' !! writer)
          = default [] (files b !! writer)
            ++ drop (Multipart.off file) (Multipart.data file)
        ∧ (∀ p, p ≠ writer → files b' !! p = files b !! p)
        ∧ collection b' = collection b.
Proof.
  intros Hn. revert file b. induction fuel as [|fuel IH]; intros file b Hlen; [lia|].
  cbn [RouterRev.uploadLoop]. unfold Multipart.Read.
  destruct (drop (Multipart.off file) (Multipart.data file)) as [|x rest] eqn:D.
  - exists b. cbn. rewrite app_nil_r. auto.
  - destruct n as [|n]; [lia|]. cbn [take length Nat.eqb].
    set (chunk := x :: take n rest).
    assert (take (S (length (take n rest)))
              (Multipart.fill (Multipart.zeros (S n)) chunk) = chunk) as Ht.
    { unfold Multipart.fill. now rewrite (take_app_length' chunk). }
    rewrite Ht.
    match goal with |- ∃ b', RouterRev.uploadLoop _ fuel ?f ?b1 writer = _ ∧ _ =>
      destruct (IH f b1) as (b' & E & F1 & F2 & F3) end.
    { cbn [Multipart.data Multipart.off].
      assert (length (drop (Multipart.off file) (Multipart.data file)) = S (length rest))
        as Hd by now rewrite D.
      rewrite length_drop in Hd. lia. }
    exists b'. split; [exact E|].
    cbn [Multipart.data Multipart.off] in F1.
    unfold Writer_Write in F1, F2, F3. cbn [files setFiles collection setCollection] in *.
    rewrite lookup_insert_eq in F1. cbn [default] in F1.
    split; [|split; [|exact F3]].
    + rewrite F1. unfold id. rewrite <- app_assoc. f_equal.
      rewrite <- drop_drop, D. subst chunk. cbn [drop app]. f_equal.
      rewrite drop_length_take. apply take_drop.
    + intros p Hp. rewrite (F2 p Hp). now rewrite lookup_insert_ne.
Qed.

(** The later revision gives a file name without a dot an empty ending
    and strips nothing from a segment without a dot. *)
Lemma RouterRev_without_dot (name : string) :
  Strings.absent Strings.dot name = true →
  RouterRev.fileEnding name = Some EmptyString
  ∧ RouterRev.strippedId name = Some name.
Proof.
  intros Ha. apply LastIndex_absent in Ha.
  unfold RouterRev.fileEnding, RouterRev.strippedId. rewrite Ha. simpl.
  split; [reflexivity|]. unfold Strings.slice_to, Strings.len.
  rewrite Nat2Z.id, Z.leb_refl.
  destruct (0 <=? Z.of_nat (String.length name)) eqn:E; [|apply Z.leb_gt in E; lia].
  simpl. f_equal. clear. induction name as [|a name IH]; simpl; [reflexivity|].
  now rewrite IH.
Qed.

End RevFacts.

(** ** The storage: saving, loading, updating and deleting entries *)
Section StorageRoundTrips.
Import Storages.
Variable NewObjectId : nat → Bson.ObjectId.

Lemma ObjectIdHex_GetId_inv (e : MongoStorageEntry) oid :
  Bson.ObjectIdHex (GetId e) = Some oid → oid = Id e.
Proof.
  unfold Bson.ObjectIdHex, GetId, Bson.Hex.
  destruct (Bson.IsObjectIdHex _); [|discriminate].
  rewrite DecodeString_EncodeToString. now intros [= <-].
Qed.

Lemma replace_first_present id doc (c : list MongoStorageEntry) :
  Id doc = id → id ∈ (Id <$> c) →
  ∃ c', replace_first id doc c = Some c' ∧ Id <$> c' = Id <$> c ∧ doc ∈ c'.
Proof.
  intros Hd. induction c as [|x c IH]; intros Hin; [inversion Hin|].
  cbn [replace_first]. unfold has_id at 1.
  destruct (String.eqb_spec (Id x) id) as [E|E].
  - exists (doc :: c). split; [reflexivity|]. split; [|left].
    rewrite !fmap_cons. congruence.
  - rewrite fmap_cons in Hin. apply elem_of_cons in Hin as [Hin|Hin]; [congruence|].
    destruct (IH Hin) as (c' & -> & Hids & Hdoc). exists (x :: c').
    split; [reflexivity|]. split; [|now right]. rewrite !fmap_cons. congruence.
Qed.

Lemma replace_first_absent id doc (c : list MongoStorageEntry) :
  id ∉ (Id <$> c) → replace_first id doc c = None.
Proof.
  induction c as [|x c IH]; intros Hn; [reflexivity|].
  rewrite fmap_cons in Hn. apply not_elem_of_cons in Hn as [Hne Hn].
  cbn [replace_first]. unfold has_id at 1.
  destruct (String.eqb_spec (Id x) id) as [E|E]; [congruence|].
  now rewrite (IH Hn).
Qed.

Lemma remove_first_present id (c : list MongoStorageEntry) :
  id ∈ (Id <$> c) → NoDup (Id <$> c) →
  ∃ c', remove_first id c = Some c'
        ∧ (id ∉ (Id <$> c'))
        ∧ NoDup (Id <$> c')
        ∧ (∀ x, x ∈ c' ↔ x ∈ c ∧ Id x ≠ id).
Proof.
  induction c as [|y c IH]; intros Hin Hnd; [inversion Hin|].
  rewrite fmap_cons in Hin, Hnd. apply NoDup_cons in Hnd as [Hy Hnd].
  cbn [remove_first]. unfold has_id at 1.
  destruct (String.eqb_spec (Id y) id) as [E|E].
  - exists c. split; [reflexivity|]. subst id. split; [exact Hy|]. split; [exact Hnd|].
    intros x. rewrite elem_of_cons. split.
    + intros Hx. split; [now right|]. intros Ex. apply Hy. rewrite <- Ex.
      now apply list_elem_of_fmap_2.
    + intros [[->|Hx] Hne]; [congruence|exact Hx].
  - apply elem_of_cons in Hin as [Hin|Hin]; [congruence|].
    destruct (IH Hin Hnd) as (c' & -> & Hn' & Hnd' & Hiff). exists (y :: c').
    split; [reflexivity|]. rewrite !fmap_cons.
    assert (Id y ∉ Id <$> c') as Hy'.
    { intros H'. apply list_elem_of_fmap in H' as (z & Ez & Hz).
      apply Hiff in Hz as [Hz _]. apply Hy. rewrite Ez.
      now apply list_elem_of_fmap_2. }
    split; [|split].
    + apply not_elem_of_cons. split; [congruence|exact Hn'].
    + apply NoDup_cons. split; assumption.
    + intros x. rewrite !elem_of_cons, Hiff. split.
      * intros [->|[Hx Hne]]; [split; [now left|exact E]|split; [now right|exact Hne]].
      * intros [[->|Hx] Hne]; [now left|right; split; assumption].
Qed.

Lemma remove_first_absent id (c : list MongoStorageEntry) :
  id ∉ (Id <$> c) → remove_first id c = None.
Proof.
  induction c as [|x c IH]; intros Hn; [reflexivity|].
  rewrite fmap_cons in Hn. apply not_elem_of_cons in Hn as [Hne Hn].
  cbn [remove_first]. unfold has_id at 1.
  destruct (String.eqb_spec (Id x) id) as [E|E]; [congruence|].
  now rewrite (IH Hn).
Qed.

(** X1.  An entry that [Save] has stored is found again under the id it
    shows ([GetId], the hexadecimal form of its twelve-byte object id):
    [LoadStorageEntry] returns it with success and no error, and every
    entry stored before is still found under its own id. *)
Theorem saved_entry_is_loaded_under_its_id fuel e b e' b' :
  NoDup (ids b) →
  Save NewObjectId fuel e b = Some (None, e', b') →
  String.length (Id e') = 12%nat →
  LoadStorageEntry (GetId e') b' = (true, None, e')
  ∧ (∀ x, x ∈ collection b → String.length (Id x) = 12%nat →
          LoadStorageEntry (GetId x) b' = (true, None, x)).
Proof.
  intros Hnd HS Hl.
  destruct (Save_keeps_ids_distinct _ _ _ _ _ _ _ Hnd HS) as (Hnd' & _).
  destruct (Save_shape _ _ _ _ _ _ HS) as (id & n & He & Hfresh & Hr & Hb').
  assert (reachable b' = true) as Hr' by (rewrite Hb'; exact Hr).
  assert (collection b' = collection b ++ [e']) as Hc by (rewrite Hb'; reflexivity).
  split.
  - apply LoadStorageEntry_GetId; [exact Hr'| |exact Hnd'|exact Hl].
    rewrite Hc. apply elem_of_app. right. left.
  - intros x Hx Hlx. apply LoadStorageEntry_GetId; [exact Hr'| |exact Hnd'|exact Hlx].
    rewrite Hc. apply elem_of_app. now left.
Qed.

(** X2.  [Update] on a reachable database replaces the stored document
    that has the entry's id: the ids of the collection and the files stay
    as they are, and the entry is what [LoadStorageEntry] then returns
    under its id.  When no document has the id, [Update] returns
    mgo.ErrNotFound and changes nothing. *)
Theorem Update_replaces_the_stored_document e b :
  reachable b = true →
  NoDup (ids b) →
  (Id e ∈ ids b →
     ∃ b', Update e b = (None, b')
           ∧ ids b' = ids b
           ∧ files b' = files b
           ∧ (String.length (Id e) = 12%nat →
              LoadStorageEntry (GetId e) b' = (true, None, e)))
  ∧ (Id e ∉ ids b → Update e b = (Some ErrNotFound, b)).
Proof.
  intros Hr Hnd. unfold Update, UpdateId. rewrite Hr. split.
  - intros Hin.
    destruct (replace_first_present (Id e) e (collection b) eq_refl Hin)
      as (c' & -> & Hids & Hdoc).
    eexists. split; [reflexivity|]. split; [exact Hids|]. split; [reflexivity|].
    intros Hl. apply LoadStorageEntry_GetId; [exact Hr|exact Hdoc| |exact Hl].
    unfold ids. cbn [collection setCollection]. rewrite Hids. exact Hnd.
  - intros Hn. now rewrite (replace_first_absent _ _ _ Hn).
Qed.

(** X3.  [Delete] on a reachable database removes the stored document
    that has the entry's id and no other: afterwards the id is reported
    as not found (false, nil), the other documents are all still there,
    and the entry's file is left in the file folder ([Delete] removes the
    document only).  When no document has the id, [Delete] returns
    mgo.ErrNotFound and changes nothing. *)
Theorem Delete_removes_the_document_only e b :
  reachable b = true →
  NoDup (ids b) →
  (Id e ∈ ids b →
     ∃ b', Delete e b = (None, b')
           ∧ LoadStorageEntry (GetId e) b' = (false, None, emptyEntry)
           ∧ (∀ x, x ∈ collection b' ↔ x ∈ collection b ∧ Id x ≠ Id e)
           ∧ NoDup (ids b')
           ∧ files b' = files b)
  ∧ (Id e ∉ ids b → Delete e b = (Some ErrNotFound, b)).
Proof.
  intros Hr Hnd. unfold Delete, RemoveId. rewrite Hr. split.
  - intros Hin.
    destruct (remove_first_present (Id e) (collection b) Hin Hnd)
      as (c' & -> & Hn' & Hnd' & Hiff).
    eexists. split; [reflexivity|]. split; [|split; [exact Hiff|split; [exact Hnd'|reflexivity]]].
    apply LoadStorageEntry_misses. unfold misses.
    destruct (Bson.ObjectIdHex (GetId e)) as [oid|] eqn:Ho; [|exact I].
    apply ObjectIdHex_GetId_inv in Ho. subst oid. split; [exact Hr|exact Hn'].
  - intros Hn. now rewrite (remove_first_absent _ _ Hn).
Qed.

Lemma files_after_writes writer old ps b :
  files b !! writer = Some old →
  files (foldl (λ b p, Writer_Write writer p b) b ps) !! writer = Some (old ++ concat ps)
  ∧ collection (foldl (λ b p, Writer_Write writer p b) b ps) = collection b.
Proof.
  revert old b. induction ps as [|p ps IH]; intros old b Hold; cbn [foldl concat].
  - now rewrite app_nil_r.
  - destruct (IH (old ++ p) (Writer_Write writer p b)) as [I1 I2].
    { unfold Writer_Write. cbn [files setFiles]. rewrite lookup_insert_eq, Hold.
      reflexivity. }
    rewrite I1, I2, app_assoc. split; reflexivity.
Qed.

(** X4.  What is written through the writer of an entry is what its
    reader reads: [GetWriter] leaves the entry's file empty whatever it
    held, each [Write] appends, and [GetReadSeeker] then opens a reader at
    offset 0 over the bytes written, in order.  The collection is not
    touched. *)
Theorem written_bytes_are_read_back configuration e b ps :
  creatable b = true →
  ∃ writer b1,
    GetWriter configuration e b = (inr writer, b1)
    ∧ GetReadSeeker configuration e (foldl (λ b p, Writer_Write writer p b) b1 ps)
      = inr (Multipart.mkFile (concat ps) 0 true)
    ∧ collection (foldl (λ b p, Writer_Write writer p b) b1 ps) = collection b.
Proof.
  intros Hc. unfold GetWriter. rewrite Hc. eexists _, _. split; [reflexivity|].
  match goal with |- context [foldl ?f ?b1 ps] =>
    destruct (files_after_writes (path_of configuration e) [] ps b1) as [F C] end.
  { cbn [files setFiles]. apply lookup_insert_eq. }
  unfold GetReadSeeker. rewrite F, C. split; reflexivity.
Qed.

(** What [Save] does on a database that answers, in full: it returns nil,
    and the id it gives the entry is the first one, counted from the
    generator's current call, that no stored document has; the ids before
    it were all taken and are used up; the entry is appended under that
    id and nothing else changes. *)
Lemma Save_loop_first_free fuel b err id b1 :
  reachable b = true →
  Save_loop NewObjectId fuel b = Some (err, id, b1) →
  err = None
  ∧ ∃ k, (k < fuel)%nat
         ∧ id = NewObjectId (issued b + k)
         ∧ (id ∉ ids b)
         ∧ (∀ j, (j < k)%nat → NewObjectId (issued b + j) ∈ ids b)
         ∧ b1 = setIssued (S (issued b + k)) b.
Proof.
  intros Hr. revert b Hr. induction fuel as [|fuel IH]; intros b Hr;
    cbn [Save_loop]; [discriminate|].
  unfold FindId_Limit1_Count. cbn [reachable setIssued collection]. rewrite Hr.
  match goal with |- context [(1 <=? ?n)%nat] => destruct (1 <=? n)%nat eqn:C end.
  - intros H. apply IH in H; [|exact Hr].
    destruct H as (-> & k & Hk & Hid & Hn & Hall & Hb). split; [reflexivity|].
    cbn [issued setIssued] in Hid, Hall, Hb. exists (S k).
    split; [lia|]. split; [now rewrite Nat.add_succ_r|]. split; [exact Hn|].
    split.
    + intros [|j] Hj.
      * rewrite Nat.add_0_r. now apply count_pos_in.
      * rewrite Nat.add_succ_r. apply (Hall j). lia.
    + rewrite Hb, Nat.add_succ_r. now destruct b.
  - intros [= <- <- <-]. split; [reflexivity|]. exists 0%nat.
    rewrite Nat.add_0_r. split; [lia|]. split; [reflexivity|].
    split; [now apply count_zero_not_in|]. split; [intros j Hj; lia|reflexivity].
Qed.

(** X5.  On a database that answers, [Save] returns nil and gives the
    entry the first id, counted from the generator's current call, that
    no stored document has: the ids handed out before it were all taken
    (one retry each).  The entry is appended under that id; the files and
    the stored documents are as before. *)
Theorem Save_assigns_the_first_free_id fuel e b err e' b' :
  reachable b = true →
  Save NewObjectId fuel e b = Some (err, e', b') →
  err = None
  ∧ ∃ k, (k < fuel)%nat
         ∧ e' = SetId (NewObjectId (issued b + k)) e
         ∧ (NewObjectId (issued b + k) ∉ ids b)
         ∧ (∀ j, (j < k)%nat → NewObjectId (issued b + j) ∈ ids b)
         ∧ b' = setCollection (collection b ++ [e']) (setIssued (S (issued b + k)) b).
Proof.
  intros Hr. unfold Save.
  destruct (Save_loop NewObjectId fuel b) as [[[err1 id] b1]|] eqn:L; [|discriminate].
  destruct (Save_loop_first_free _ _ _ _ _ Hr L) as (-> & k & Hk & -> & Hn & Hall & ->).
  unfold Insert. cbn [reachable setIssued]. rewrite Hr.
  intros [= <- <- <-]. split; [reflexivity|]. exists k. auto 10.
Qed.

(** On a database that does not answer, [Save] returns the error of its
    first query at once: the entry carries the id that was generated, one
    id is used up, and nothing is stored. *)
Lemma Save_on_unreachable_database fuel e b :
  reachable b = false →
  Save NewObjectId (S fuel) e b
  = Some (Some ErrBackend, SetId (NewObjectId (issued b)) e, setIssued (S (issued b)) b).
Proof.
  intros Hr. unfold Save. cbn [Save_loop]. unfold FindId_Limit1_Count.
  cbn [reachable setIssued]. now rewrite Hr.
Qed.

End StorageRoundTrips.

(** ** Which id strings resolve to an entry *)
Section LoadCase.
Import Storages.

Lemma string_pair_ind (P : string → Prop) :
  P EmptyString →
  (∀ a, P (String a EmptyString)) →
  (∀ a b s, P s → P (String a (String b s))) →
  ∀ s, P s.
Proof.
  intros H0 H1 H2 s.
  assert (P s ∧ ∀ a, P (String a s)) as [H _]; [|exact H].
  induction s as [|c s [IH1 IH2]]; split; auto.
Qed.

Lemma fromHexChar_to_lower (a : ascii) :
  Hex.fromHexChar (Strings.to_lower a) = Hex.fromHexChar a.
Proof. destruct a as [[] [] [] [] [] [] [] []]; reflexivity. Qed.

Lemma fromHexChar_fold (a b : ascii) :
  Ascii.eqb (Strings.to_lower a) (Strings.to_lower b) = true →
  Hex.fromHexChar a = Hex.fromHexChar b.
Proof.
  intros E. apply Ascii.eqb_eq in E.
  now rewrite <- (fromHexChar_to_lower a), E, fromHexChar_to_lower.
Qed.

Lemma EqualFold_length (s t : string) :
  Strings.EqualFold s t = true → String.length s = String.length t.
Proof.
  revert t. induction s as [|a s IH]; intros [|b t]; simpl; try discriminate; [reflexivity|].
  intros [_ E]%andb_true_iff. now rewrite (IH t E).
Qed.

Lemma EqualFold_DecodeString (s t : string) :
  Strings.EqualFold s t = true → Hex.DecodeString s = Hex.DecodeString t.
Proof.
  revert t. induction s as [|a|a b s IH] using string_pair_ind; intros t.
  - destruct t; [reflexivity|discriminate].
  - destruct t as [|c [|d t]]; simpl; try discriminate; [reflexivity|].
    now rewrite andb_false_r.
  - destruct t as [|c [|d t]]; try discriminate.
    + simpl. now rewrite andb_false_r.
    + cbn [Strings.EqualFold].
      intros [Ea [Eb E]%andb_true_iff]%andb_true_iff.
      cbn [Hex.DecodeString].
      now rewrite (fromHexChar_fold _ _ Ea), (fromHexChar_fold _ _ Eb), (IH t E).
Qed.

(** X6.  The letter case of an id does not matter to [LoadStorageEntry]:
    two id strings that are equal up to the case of their letters give
    the same result. *)
Theorem LoadStorageEntry_ignores_letter_case id id' b :
  Strings.EqualFold id id' = true →
  LoadStorageEntry id b = LoadStorageEntry id' b.
Proof.
  intros E. unfold LoadStorageEntry, Bson.ObjectIdHex, Bson.IsObjectIdHex, Strings.len.
  now rewrite (EqualFold_length _ _ E), (EqualFold_DecodeString _ _ E).
Qed.

Lemma fromHexChar_digit_check (a : ascii) :
  match Hex.fromHexChar a with
  | Some hi => (hi <? 16)%N
               && Ascii.eqb (Strings.to_lower a) (Strings.to_lower (Hex.digit hi))
  | None => true
  end = true.
Proof. destruct a as [[] [] [] [] [] [] [] []]; reflexivity. Qed.

Lemma fromHexChar_digit (a : ascii) hi :
  Hex.fromHexChar a = Some hi →
  (hi < 16)%N ∧ Strings.to_lower a = Strings.to_lower (Hex.digit hi).
Proof.
  intros H. pose proof (fromHexChar_digit_check a) as C. rewrite H in C.
  apply andb_true_iff in C as [C1 C2].
  split; [now apply N.ltb_lt|now apply Ascii.eqb_eq].
Qed.

Lemma byte_of_digits (hi lo : N) :
  (hi < 16)%N → (lo < 16)%N →
  (N_of_ascii (ascii_of_N (hi * 16 + lo)) / 16 = hi
   ∧ N_of_ascii (ascii_of_N (hi * 16 + lo)) mod 16 = lo)%N.
Proof.
  intros Hh Hl. rewrite N_ascii_embedding by lia. split.
  - symmetry. apply (N.div_unique _ _ hi lo); lia.
  - symmetry. apply (N.mod_unique _ _ hi lo); lia.
Qed.

Lemma DecodeString_fold (s d : string) :
  Hex.DecodeString s = Some d → Strings.EqualFold s (Hex.EncodeToString d) = true.
Proof.
  revert d. induction s as [|a|a b s IH] using string_pair_ind; intros d.
  - now intros [= <-].
  - discriminate.
  - cbn [Hex.DecodeString].
    destruct (Hex.fromHexChar a) as [hi|] eqn:Ea; [|discriminate].
    destruct (Hex.fromHexChar b) as [lo|] eqn:Eb; [|discriminate].
    destruct (Hex.DecodeString s) as [r|] eqn:Er; [|discriminate].
    intros [= <-]. cbn [Hex.EncodeToString].
    destruct (fromHexChar_digit _ _ Ea) as [Hh Fa].
    destruct (fromHexChar_digit _ _ Eb) as [Hl Fb].
    destruct (byte_of_digits hi lo Hh Hl) as [-> ->].
    cbn [Strings.EqualFold]. rewrite Fa, Fb, !Ascii.eqb_refl. now apply IH.
Qed.

(** X7.  A hit of [LoadStorageEntry] is a stored document: the database
    answers, the entry returned is in the collection, and the id string
    has 24 characters and is the entry's own id ([GetId]) up to the case
    of its letters.  So no string other than an entry's id, in either
    case, resolves to it. *)
Theorem LoadStorageEntry_hit_is_the_entry_of_that_id id b e :
  LoadStorageEntry id b = (true, None, e) →
  reachable b = true
  ∧ e ∈ collection b
  ∧ String.length id = 24%nat
  ∧ Strings.EqualFold id (GetId e) = true.
Proof.
  intros H. destruct (LoadStorageEntry_hit _ _ _ H) as (oid & Ho & Hin & Hid).
  split; [|split; [exact Hin|]].
  - unfold LoadStorageEntry, FindId_One in H. rewrite Ho in H.
    destruct (reachable b); [reflexivity|discriminate].
  - unfold Bson.ObjectIdHex, Bson.IsObjectIdHex, Strings.len in Ho.
    destruct (Z.of_nat (String.length id) =? 24) eqn:E; [|discriminate].
    apply Z.eqb_eq in E. simpl in Ho.
    destruct (Hex.DecodeString id) as [d|] eqn:D; [|discriminate].
    injection Ho as ->. split; [lia|].
    unfold GetId, Bson.Hex. rewrite Hid. now apply DecodeString_fold.
Qed.

End LoadCase.

(** ** The upload handler of router.go: the other ways it ends *)
Section UploadPaths.
Import Handler Router.
Variable NewObjectId : nat → Bson.ObjectId.
Variable DetectContentType : list byte → string.
Variable h : ShareXHandler.

(** X8.  A file that the form parser has spilled to disk (a part larger
    than the memory limit of ParseMultipartForm) makes the handler panic
    on the type assertion for [Size()], which [*os.File] does not have:
    the run ends in a panic before any call on the storage, so no
    document and no file is created for it. *)
Theorem upload_of_file_spilled_to_disk_panics fuel s form fh fhs :
  let s2 := afterOutgoing h (afterOutgoing h s) in
  MultipartForm (req s2) = Some form →
  form !! "file" = Some (fh :: fhs) →
  Multipart.tmpfile fh = true →
  ∃ s', handleUploadRequest NewObjectId DetectContentType h fuel s = (Panic, s')
        ∧ backend s' = backend s
        ∧ trace s' = EvParseMultipartForm :: trace s2.
Proof.
  intros s2 Hform Hfile Htmp. rewrite handleUploadRequest_unfold. fold s2.
  assert (backend s2 = backend s) as Hb by (subst s2; now rewrite !backend_afterOutgoing).
  unfold handleUploadRequest2, callOutgoingFunction, ParseMultipartForm.
  cbn [withoutOutgoingFunction OutgoingFunction]. run_monad.
  rewrite Hform. unfold FormFile. rewrite Hfile.
  unfold Multipart.Open, Multipart.Read. cbn [Multipart.data Multipart.off drop].
  destruct (Multipart.content fh) as [|x rest]; cbv iota beta;
    unfold Multipart.Size, Multipart.Seek0; cbn [Multipart.onDisk]; rewrite Htmp;
    unfold internalError; run_monad; eexists; (split; [reflexivity|]);
    cbn [backend trace]; split; (exact Hb || reflexivity).
Qed.

(** X9.  A form that parses but has no file in the field "file" is
    answered 500; the form parsing is the only call made and the backend is
    as before. *)
Theorem upload_without_file_field_is_internal_error fuel s form :
  let s2 := afterOutgoing h (afterOutgoing h s) in
  MultipartForm (req s2) = Some form →
  (form !! "file" = None ∨ form !! "file" = Some []) →
  Http.wroteHeader (w s2) = None →
  ∃ s', handleUploadRequest NewObjectId DetectContentType h fuel s = (Ret tt, s')
        ∧ Http.status (w s') = Some Http.StatusInternalServerError
        ∧ backend s' = backend s
        ∧ trace s' = EvParseMultipartForm :: trace s2.
Proof.
  intros s2 Hform Hfile Hw. rewrite handleUploadRequest_unfold. fold s2.
  assert (backend s2 = backend s) as Hb by (subst s2; now rewrite !backend_afterOutgoing).
  unfold handleUploadRequest2, callOutgoingFunction, ParseMultipartForm, internalError.
  cbn [withoutOutgoingFunction OutgoingFunction]. run_monad.
  rewrite Hform. unfold FormFile.
  destruct Hfile as [-> | ->]; run_monad; eexists; (split; [reflexivity|]);
    cbn [w backend trace]; (split; [now apply status_Error|]); split;
    (exact Hb || reflexivity).
Qed.

Lemma status_Error_any msg code w :
  Http.status (Http.Error msg code w)
  = Some (match Http.status w with Some c => c | None => code end).
Proof.
  unfold Http.status at 2. destruct (Http.wroteHeader w) as [[c hd]|] eqn:Hw.
  - unfold Http.Error, Http.status.
    set (w3 := Http.setHeader _ (Http.setHeader _ (Http.setHeader _ w))).
    assert (Http.wroteHeader w3 = Some (c, hd)) as H3 by exact Hw.
    rewrite (WriteHeader_written _ _ _ H3).
    now rewrite (wroteHeader_Write _ _ _ H3).
  - now apply status_Error.
Qed.

(** X10.  When the database does not answer, an upload of a file kept in
    memory is answered 500 after the failed [Save]: no document is
    stored, no file is created, and [GetWriter] and [Update] are not
    called. *)
Theorem upload_with_database_down_stores_nothing fuel s form fh fhs :
  let s2 := afterOutgoing h (afterOutgoing h s) in
  MultipartForm (req s2) = Some form →
  form !! "file" = Some (fh :: fhs) →
  Multipart.tmpfile fh = false →
  Storages.reachable (backend s) = false →
  Http.wroteHeader (w s2) = None →
  ∃ s', handleUploadRequest NewObjectId DetectContentType h (S fuel) s = (Ret tt, s')
        ∧ Http.status (w s') = Some Http.StatusInternalServerError
        ∧ Storages.collection (backend s') = Storages.collection (backend s)
        ∧ Storages.files (backend s') = Storages.files (backend s)
        ∧ trace s' = [EvSave; EvNewStorageEntry; EvParseMultipartForm] ++ trace s2.
Proof.
  intros s2 Hform Hfile Htmp Hr Hw. rewrite handleUploadRequest_unfold. fold s2.
  assert (backend s2 = backend s) as Hb by (subst s2; now rewrite !backend_afterOutgoing).
  unfold handleUploadRequest2, callOutgoingFunction, ParseMultipartForm.
  cbn [withoutOutgoingFunction OutgoingFunction]. run_monad.
  rewrite Hform. unfold FormFile. rewrite Hfile.
  unfold Multipart.Open, Multipart.Read. cbn [Multipart.data Multipart.off].
  destruct (Multipart.content fh) as [|x rest]; cbn [drop]; cbv iota beta;
    unfold Multipart.Size, Multipart.Seek0; cbn [Multipart.onDisk]; rewrite Htmp;
    unfold internalError, NewStorageEntry, Save; run_monad;
    rewrite Hb, (Save_on_unreachable_database NewObjectId fuel _ _ Hr); run_monad;
    eexists; (split; [reflexivity|]); cbn [w backend trace];
    (split; [rewrite ?status_Error_any; unfold Http.status; now rewrite ?Hw|]);
    repeat split.
Qed.

(** X11.  When the entry's file cannot be created, the upload is answered
    500, but the document that [Save] has inserted stays in the
    collection: it has the new id and neither file name nor content type,
    and no file belongs to it. *)
Theorem upload_into_unwritable_folder_leaves_the_document fuel s form fh fhs entry b1 :
  let s2 := afterOutgoing h (afterOutgoing h s) in
  MultipartForm (req s2) = Some form →
  form !! "file" = Some (fh :: fhs) →
  Multipart.tmpfile fh = false →
  Storages.Save NewObjectId fuel (Storages.NewStorageEntry (backend s)) (backend s)
    = Some (None, entry, b1) →
  Storages.creatable (backend s) = false →
  Http.wroteHeader (w s2) = None →
  ∃ s', handleUploadRequest NewObjectId DetectContentType h fuel s = (Ret tt, s')
        ∧ Http.status (w s') = Some Http.StatusInternalServerError
        ∧ Storages.collection (backend s') = Storages.collection (backend s) ++ [entry]
        ∧ Storages.Filename entry = EmptyString
        ∧ Storages.ContentType entry = EmptyString
        ∧ Storages.files (backend s') = Storages.files (backend s)
        ∧ trace s' = [EvGetWriter; EvSave; EvNewStorageEntry; EvParseMultipartForm]
                     ++ trace s2.
Proof.
  intros s2 Hform Hfile Htmp HSave Hcre Hw. rewrite handleUploadRequest_unfold. fold s2.
  assert (backend s2 = backend s) as Hb by (subst s2; now rewrite !backend_afterOutgoing).
  destruct (Save_shape _ _ _ _ _ _ HSave) as (id & n & He & Hfresh & Hreach & Hb1).
  assert (Storages.creatable b1 = false) as Hcre1 by (rewrite Hb1; exact Hcre).
  unfold handleUploadRequest2, callOutgoingFunction, ParseMultipartForm.
  cbn [withoutOutgoingFunction OutgoingFunction]. run_monad.
  rewrite Hform. unfold FormFile. rewrite Hfile.
  unfold Multipart.Open, Multipart.Read. cbn [Multipart.data Multipart.off].
  destruct (Multipart.content fh) as [|x rest]; cbn [drop]; cbv iota beta;
    unfold Multipart.Size, Multipart.Seek0; cbn [Multipart.onDisk]; rewrite Htmp;
    unfold internalError, NewStorageEntry, Save; run_monad;
    rewrite Hb, HSave; run_monad; unfold GetWriter; run_monad;
    unfold Storages.GetWriter; rewrite Hcre1; run_monad;
    eexists; (split; [reflexivity|]); cbn [w backend trace];
    (split; [rewrite ?status_Error_any; unfold Http.status; now rewrite ?Hw|]);
    (split; [rewrite Hb1; reflexivity|]);
    (split; [rewrite He; reflexivity|]);
    (split; [rewrite He; reflexivity|]);
    (split; [rewrite Hb1; reflexivity|reflexivity]).
Qed.

Lemma pad_small (c n : nat) :
  (0 < n)%nat → (n ≤ c)%nat → ((c - n mod c) mod c = c - n)%nat.
Proof.
  intros Hn Hc. destruct (Nat.eq_dec n c) as [->|Hne].
  - rewrite Nat.Div0.mod_same, Nat.sub_0_r, Nat.Div0.mod_same. lia.
  - rewrite (Nat.mod_small n c) by lia. apply Nat.mod_small. lia.
Qed.

Lemma pad_step (c n : nat) :
  (c ≤ n)%nat → ((n - c) mod c = n mod c)%nat.
Proof.
  intros Hc. replace n with ((n - c) + 1 * c)%nat at 2 by lia.
  now rewrite Nat.Div0.mod_add.
Qed.

(** What the copy loop stores for the bytes [d]: the bytes themselves,
    followed by zero bytes up to the next multiple of the buffer size. *)
Lemma writtenBy_pads fuel (d : list byte) :
  (length d < fuel)%nat →
  writtenBy fuel d
  = d ++ replicate ((chunkSize - length d mod chunkSize) mod chunkSize) x00.
Proof.
  revert d. induction fuel as [|fuel IH]; intros d Hlen; [lia|].
  destruct d as [|x d].
  - rewrite writtenBy_nil. cbn [length app].
    now rewrite Nat.Div0.mod_0_l, Nat.sub_0_r, Nat.Div0.mod_same.
  - rewrite writtenBy_cons. set (l := x :: d) in *.
    pose proof chunkSize_pos as Hc.
    destruct (Nat.le_gt_cases (length l) chunkSize) as [Hle|Hgt].
    + rewrite (take_ge _ _ Hle), (drop_ge _ _ Hle), writtenBy_nil, app_nil_r.
      unfold Multipart.fill, Multipart.zeros. rewrite drop_replicate.
      rewrite pad_small; [reflexivity| |exact Hle]. subst l. cbn [length]. lia.
    + assert (length (take chunkSize l) = chunkSize) as Ht.
      { rewrite length_take. apply Nat.min_l. clear -Hgt.
        generalize dependent chunkSize. intros. lia. }
      unfold Multipart.fill, Multipart.zeros. rewrite Ht, drop_replicate, Nat.sub_diag.
      cbn [replicate]. rewrite app_nil_r, IH.
      2:{ rewrite length_drop. clear -Hlen Hc Hgt. generalize dependent chunkSize.
          intros. lia. }
      rewrite length_drop, pad_step by (clear -Hgt; generalize dependent chunkSize;
                                        intros; lia).
      now rewrite app_assoc, take_drop.
Qed.

(** X12.  An upload that succeeds: for a file that is kept in memory and
    not empty, whose name ends in [.ext], when [Save] stores the entry and
    its file can be created, the handler answers 200 with the URL
    [ProtocolHost + id + .ext]; the document then holds the file name and
    the content type detected from the first 512 bytes; and the entry's
    file holds the uploaded bytes followed by zero bytes up to the next
    multiple of 8192, the size of the copy buffer. *)
Theorem upload_stores_the_file_zero_padded_and_answers_its_url
    fuel s form fh fhs entry b1 stem ext :
  let s2 := afterOutgoing h (afterOutgoing h s) in
  let b := backend s in
  MultipartForm (req s2) = Some form →
  form !! "file" = Some (fh :: fhs) →
  Multipart.tmpfile fh = false →
  Multipart.content fh ≠ [] →
  Storages.Save NewObjectId fuel (Storages.NewStorageEntry b) b = Some (None, entry, b1) →
  Storages.creatable b = true →
  Http.wroteHeader (w s2) = None →
  Multipart.Filename fh = stem +:+ String Strings.dot ext →
  Strings.absent Strings.dot ext = true →
  ∃ s', handleUploadRequest NewObjectId DetectContentType h fuel s = (Ret tt, s')
        ∧ Http.status (w s') = Some Http.StatusOK
        ∧ Http.body (w s')
          = Http.body (w s2)
            ++ list_byte_of_string
                 (ProtocolHost h +:+ Storages.GetId entry +:+ String Strings.dot ext)
        ∧ Storages.files (backend s') !! Storages.path_of (Configuration h) entry
          = Some (Multipart.content fh
                  ++ replicate ((chunkSize - length (Multipart.content fh) mod chunkSize)
                                mod chunkSize) x00)
        ∧ Storages.collection (backend s')
          = Storages.collection b
            ++ [Storages.SetFilename (Multipart.Filename fh)
                  (Storages.SetContentType
                     (DetectContentType
                        (Multipart.fill (Multipart.zeros sniffLen)
                           (take sniffLen (Multipart.content fh))))
                     entry)].
Proof.
  intros s2 b Hform Hfile Htmp Hne HSave Hcre Hw Hname Hext.
  destruct (upload_answers_url_and_stores_padded_file NewObjectId DetectContentType h
              fuel s form fh fhs entry b1 stem ext
              Hform Hfile Htmp Hne HSave Hcre Hw Hname Hext)
    as (s' & E & Hst & Hbody & Hfiles & Hcoll).
  exists s'. split; [exact E|]. split; [exact Hst|]. split; [exact Hbody|].
  split; [|exact Hcoll].
  rewrite Hfiles. f_equal. apply writtenBy_pads. lia.
Qed.

End UploadPaths.

(** ** The delivery handler of router.go: what it sends and how it ends *)
Section GetPaths.
Import Handler Router.
Variable GetETagValue : Storages.MongoStorageEntry → string.
Variable h : ShareXHandler.

Lemma Write_allowed p w code hd :
  Http.wroteHeader w = Some (code, hd) →
  Http.bodyAllowedForStatus code = true →
  Http.Write p w
  = (false, Http.mkResponseWriter (Http.header w) (Http.wroteHeader w) (Http.body w ++ p)).
Proof.
  intros Hw Ha. unfold Http.Write. rewrite (WriteHeader_written _ _ _ Hw), Hw, Ha.
  reflexivity.
Qed.

Lemma length_fill (buf chunk : list byte) :
  (length chunk ≤ length buf)%nat →
  length (Multipart.fill buf chunk) = length buf.
Proof.
  intros H. unfold Multipart.fill. rewrite length_app, length_drop. lia.
Qed.

(** What the sending loop writes: with a buffer of [n > 0] bytes and a
    response that may carry a body, it returns after appending to the
    body the bytes left in the file, followed by what the buffer still
    held behind the last, shorter chunk; the padding fills the body up to
    the next multiple of [n]. *)
Lemma sendLoop_sends fuel reader buf s code hd :
  Http.wroteHeader (w s) = Some (code, hd) →
  Http.bodyAllowedForStatus code = true →
  (0 < length buf)%nat →
  (length (Multipart.data reader) - Multipart.off reader < fuel)%nat →
  ∃ pad,
    sendLoop fuel reader buf s
    = (Ret tt,
       mkState (backend s)
         (Http.mkResponseWriter (Http.header (w s)) (Http.wroteHeader (w s))
            (Http.body (w s)
             ++ drop (Multipart.off reader) (Multipart.data reader) ++ pad))
         (req s) (trace s))
    ∧ length pad
      = ((length buf
          - length (drop (Multipart.off reader) (Multipart.data reader)) mod length buf)
         mod length buf)%nat.
Proof.
  intros Hw Ha. revert reader buf s Hw.
  induction fuel as [|fuel IH]; intros reader buf s Hw Hn Hlen; [lia|].
  cbn [sendLoop]. unfold Multipart.Read.
  destruct (drop (Multipart.off reader) (Multipart.data reader)) as [|x rest] eqn:D.
  - exists []. cbn [length Nat.eqb app]. rewrite app_nil_r.
    rewrite Nat.Div0.mod_0_l, Nat.sub_0_r, Nat.Div0.mod_same.
    split; [|reflexivity]. destruct s as [b [hd0 wh bd] r t]. reflexivity.
  - set (l := x :: rest) in *.
    assert (length l = S (length rest)) as Hl by reflexivity.
    set (chunk := take (length buf) l).
    assert (length chunk = Nat.min (length buf) (length l)) as Hc
      by (subst chunk; apply length_take).
    destruct (length chunk) as [|m] eqn:Em; [lia|]. cbn [Nat.eqb].
    run_monad. unfold write. cbn [w].
    rewrite (Write_allowed _ _ _ _ Hw Ha). cbn [backend w req trace].
    set (buf' := Multipart.fill buf chunk).
    assert (length buf' = length buf) as Hb'
      by (subst buf'; apply length_fill; lia).
    match goal with |- ∃ pad, sendLoop fuel ?rd buf' ?st = _ ∧ _ =>
      destruct (IH rd buf' st) as (pad & E & Hp) end.
    { exact Hw. }
    { lia. }
    { cbn [Multipart.data Multipart.off].
      assert (length (drop (Multipart.off reader) (Multipart.data reader)) = length l)
        as Hd by now rewrite D.
      rewrite length_drop in Hd. lia. }
    cbn [Multipart.data Multipart.off backend w req trace Http.header Http.wroteHeader
         Http.body] in E, Hp.
    rewrite <- drop_drop, D in E, Hp. fold l in E, Hp.
    rewrite Hb' in Hp.
    destruct (Nat.le_gt_cases (length buf) (length l)) as [Hle|Hgt].
    + (* a full chunk: the buffer holds the chunk and nothing else *)
      assert (S m = length buf) as Hm by lia.
      assert (buf' = chunk) as Hbc.
      { subst buf'. unfold Multipart.fill. rewrite Em, Hm, drop_all. apply app_nil_r. }
      exists pad. split.
      * rewrite E. do 2 f_equal. f_equal. rewrite Hbc, <- !app_assoc. f_equal.
        rewrite app_assoc. f_equal. rewrite Hm. subst chunk. apply take_drop.
      * rewrite Hp, length_drop, Hm. now rewrite pad_step.
    + (* the last, shorter chunk: the rest of the buffer goes out too *)
      assert (S m = length l) as Hm by lia.
      assert (chunk = l) as Hcl by (subst chunk; apply take_ge; lia).
      rewrite Hm in E, Hp |- *. rewrite drop_all in E, Hp. cbn [length app] in E, Hp.
      rewrite Nat.Div0.mod_0_l, Nat.sub_0_r, Nat.Div0.mod_same in Hp.
      apply nil_length_inv in Hp. subst pad.
      exists (drop (length l) buf). split.
      * rewrite E. do 2 f_equal. f_equal. rewrite app_nil_r. f_equal.
        subst buf'. unfold Multipart.fill. now rewrite Hcl.
      * rewrite length_drop. symmetry. apply pad_small; lia.
Qed.

Lemma GetReadSeeker_of_file configuration entry b bytes :
  Storages.files b !! Storages.path_of configuration entry = Some bytes →
  Storages.GetReadSeeker configuration entry b = inr (Multipart.mkFile bytes 0 true).
Proof. intros H. unfold Storages.GetReadSeeker. now rewrite H. Qed.

(** What a delivery sends: the file and, behind it, what fills the last
    buffer. *)
Lemma get_delivers s key entry bytes :
  let s1 := afterOutgoing h s in
  let seg := default EmptyString (Vars (req s1) !! "id") in
  let n := Z.to_nat (BufferSize h) in
  Strings.slice_to seg (Strings.LastIndex seg Strings.dot) = Some key →
  Storages.LoadStorageEntry key (backend s1) = (true, None, entry) →
  Http.Header_Get "If-None-Match" (Header (req s1)) ≠ GetETagValue entry →
  Storages.files (backend s1) !! Storages.path_of (Configuration h) entry = Some bytes →
  0 < BufferSize h →
  Http.wroteHeader (w s1) = None →
  ∃ s' pad,
    handleGetRequest GetETagValue h s = (Ret tt, s')
    ∧ Http.status (w s') = Some Http.StatusOK
    ∧ Http.body (w s') = Http.body (w s1) ++ bytes ++ pad
    ∧ length pad = ((n - length bytes mod n) mod n)%nat
    ∧ backend s' = backend s1
    ∧ trace s' = [EvGetReader; EvLoadStorageEntry key] ++ trace s1.
Proof.
  intros s1 seg n Hk Hl He Hf Hpos Hw.
  rewrite handleGetRequest_unfold. fold s1. cbv zeta. fold seg.
  rewrite (slice_to_Some_nonneg _ _ _ Hk), Hk.
  rewrite (serveEntry_delivers GetETagValue h _ _ _ _ _ Hl He
             (GetReadSeeker_of_file _ _ _ _ Hf)).
  destruct (BufferSize h <? 0) eqn:Eb; [apply Z.ltb_lt in Eb; lia|].
  set (w3 := Http.setHeader (Http.Header_Set "ETag" _) _).
  assert (Http.wroteHeader (Http.WriteHeader Http.StatusOK w3)
          = Some (Http.StatusOK, Http.header w3)) as Hw2.
  { unfold Http.WriteHeader. subst w3. cbn [Http.setHeader Http.wroteHeader].
    now rewrite Hw. }
  match goal with |- ∃ s' pad, sendLoop ?f ?rd ?buf ?st = _ ∧ _ =>
    destruct (sendLoop_sends f rd buf st Http.StatusOK (Http.header w3))
      as (pad & E & Hp) end.
  { exact Hw2. }
  { reflexivity. }
  { unfold Multipart.zeros. rewrite length_replicate. lia. }
  { cbn [Multipart.data Multipart.off]. lia. }
  unfold Multipart.zeros in Hp. rewrite length_replicate in Hp.
  cbn [Multipart.data Multipart.off drop] in E, Hp.
  eexists _, pad. split; [exact E|]. cbn [w backend trace Http.body].
  split; [unfold Http.status; cbn [Http.wroteHeader]; now rewrite Hw2|].
  split; [now rewrite body_WriteHeader|]. split; [exact Hp|]. split; reflexivity.
Qed.

(** X13.  What a GET delivers: for an entry whose file holds [bytes],
    with a send buffer of [n > 0] bytes, the handler answers 200 and
    returns, and the body is [bytes] followed by a padding that fills it
    up to the next multiple of [n]: the whole buffer is written every
    round, so behind the last, shorter chunk the client also receives what
    the buffer still held.  The body is exactly the file if and only if
    its length is a multiple of [n]. *)
Theorem get_sends_the_file_in_whole_buffers s key entry bytes :
  let s1 := afterOutgoing h s in
  let seg := default EmptyString (Vars (req s1) !! "id") in
  let n := Z.to_nat (BufferSize h) in
  Strings.slice_to seg (Strings.LastIndex seg Strings.dot) = Some key →
  Storages.LoadStorageEntry key (backend s1) = (true, None, entry) →
  Http.Header_Get "If-None-Match" (Header (req s1)) ≠ GetETagValue entry →
  Storages.files (backend s1) !! Storages.path_of (Configuration h) entry = Some bytes →
  0 < BufferSize h →
  Http.wroteHeader (w s1) = None →
  ∃ s' pad,
    handleGetRequest GetETagValue h s = (Ret tt, s')
    ∧ Http.status (w s') = Some Http.StatusOK
    ∧ Http.body (w s') = Http.body (w s1) ++ bytes ++ pad
    ∧ length pad = ((n - length bytes mod n) mod n)%nat
    ∧ (pad = [] ↔ (length bytes mod n = 0)%nat)
    ∧ backend s' = backend s1
    ∧ trace s' = [EvGetReader; EvLoadStorageEntry key] ++ trace s1.
Proof.
  intros s1 seg n Hk Hl He Hf Hpos Hw.
  destruct (get_delivers s key entry bytes Hk Hl He Hf Hpos Hw)
    as (s' & pad & E & Hst & Hbody & Hp & Hb & Ht).
  exists s', pad. fold n in Hp. repeat (split; [assumption|]).
  split; [|split; assumption].
  assert (0 < n)%nat as Hn by (subst n; lia).
  pose proof (Nat.mod_upper_bound (length bytes) n ltac:(lia)) as Hr.
  destruct (Nat.eq_dec (length bytes mod n)%nat 0%nat) as [E0|E0].
  - rewrite E0, Nat.sub_0_r, Nat.Div0.mod_same in Hp.
    apply nil_length_inv in Hp. tauto.
  - rewrite Nat.mod_small in Hp by lia. split; [|tauto].
    intros ->. cbn [length] in Hp. lia.
Qed.

Lemma sendLoop_empty_buffer fuel reader s :
  sendLoop (S fuel) reader [] s = (Ret tt, s).
Proof.
  cbn [sendLoop length]. unfold Multipart.Read.
  destruct (drop (Multipart.off reader) (Multipart.data reader)); reflexivity.
Qed.

(** X14.  The bounds of the send buffer: with [BufferSize] 0 the handler
    answers 200 and returns without a single byte of the file in the body,
    whatever the file holds; with a negative [BufferSize] it panics on
    [make] after the status 200 is written. *)
Theorem get_with_no_send_buffer_sends_no_byte s key entry bytes :
  let s1 := afterOutgoing h s in
  let seg := default EmptyString (Vars (req s1) !! "id") in
  Strings.slice_to seg (Strings.LastIndex seg Strings.dot) = Some key →
  Storages.LoadStorageEntry key (backend s1) = (true, None, entry) →
  Http.Header_Get "If-None-Match" (Header (req s1)) ≠ GetETagValue entry →
  Storages.files (backend s1) !! Storages.path_of (Configuration h) entry = Some bytes →
  BufferSize h <= 0 →
  Http.wroteHeader (w s1) = None →
  ∃ s',
    handleGetRequest GetETagValue h s
    = (if BufferSize h <? 0 then Panic else Ret tt, s')
    ∧ Http.status (w s') = Some Http.StatusOK
    ∧ Http.body (w s') = Http.body (w s1).
Proof.
  intros s1 seg Hk Hl He Hf Hle Hw.
  rewrite handleGetRequest_unfold. fold s1. cbv zeta. fold seg.
  rewrite (slice_to_Some_nonneg _ _ _ Hk), Hk.
  rewrite (serveEntry_delivers GetETagValue h _ _ _ _ _ Hl He
             (GetReadSeeker_of_file _ _ _ _ Hf)).
  set (w3 := Http.setHeader (Http.Header_Set "ETag" _) _).
  assert (Http.status (Http.WriteHeader Http.StatusOK w3) = Some Http.StatusOK) as Hst
    by (apply status_WriteHeader; exact Hw).
  destruct (BufferSize h <? 0) eqn:Eb.
  - eexists. split; [reflexivity|]. cbn [w]. split; [exact Hst|].
    now rewrite body_WriteHeader.
  - apply Z.ltb_ge in Eb. replace (BufferSize h) with 0 by lia.
    cbn [Z.to_nat Multipart.zeros replicate]. rewrite sendLoop_empty_buffer.
    eexists. split; [reflexivity|]. cbn [w]. split; [exact Hst|].
    now rewrite body_WriteHeader.
Qed.

(** X15.  The failures of a GET: when the id is a well-formed object id
    and the database does not answer, and when the entry is found but its
    file cannot be opened, the handler answers 500 and then panics; in
    the first case the lookup is the only call made on the storage. *)
Theorem get_failures_answer_500_and_panic s key :
  let s1 := afterOutgoing h s in
  let seg := default EmptyString (Vars (req s1) !! "id") in
  Strings.slice_to seg (Strings.LastIndex seg Strings.dot) = Some key →
  Http.wroteHeader (w s1) = None →
  (∀ oid, Bson.ObjectIdHex key = Some oid →
          Storages.reachable (backend s1) = false →
          ∃ s', handleGetRequest GetETagValue h s = (Panic, s')
                ∧ Http.status (w s') = Some Http.StatusInternalServerError
                ∧ trace s' = [EvLoadStorageEntry key] ++ trace s1)
  ∧ (∀ entry,
       Storages.LoadStorageEntry key (backend s1) = (true, None, entry) →
       Http.Header_Get "If-None-Match" (Header (req s1)) ≠ GetETagValue entry →
       Storages.files (backend s1) !! Storages.path_of (Configuration h) entry = None →
       ∃ s', handleGetRequest GetETagValue h s = (Panic, s')
             ∧ Http.status (w s') = Some Http.StatusInternalServerError
             ∧ trace s' = [EvGetReader; EvLoadStorageEntry key] ++ trace s1).
Proof.
  intros s1 seg Hk Hw. split.
  - intros oid Ho Hr. rewrite handleGetRequest_unfold. fold s1. cbv zeta. fold seg.
    rewrite (slice_to_Some_nonneg _ _ _ Hk), Hk.
    unfold serveEntry, LoadStorageEntry, internalError. run_monad.
    rewrite (LoadStorageEntry_unreachable _ _ _ Ho Hr). run_monad.
    eexists. split; [reflexivity|]. cbn [w trace].
    split; [now apply status_Error|reflexivity].
  - intros entry Hl He Hf. rewrite handleGetRequest_unfold. fold s1. cbv zeta. fold seg.
    rewrite (slice_to_Some_nonneg _ _ _ Hk), Hk.
    unfold serveEntry, LoadStorageEntry, GetReader, internalError. run_monad.
    rewrite Hl. cbv beta iota. apply String.eqb_neq in He. rewrite He.
    cbn [negb]. run_monad. unfold Storages.GetReadSeeker. rewrite Hf. run_monad.
    eexists. split; [reflexivity|]. cbn [w trace].
    split; [now apply status_Error|reflexivity].
Qed.

(** X16.  [handleGetRequest] always ends: it returns or panics, its
    sending loop never runs on, whatever the request, the backend and
    the configuration. *)
Theorem handleGetRequest_ends s :
  (handleGetRequest GetETagValue h s).1 ≠ Running.
Proof.
  rewrite handleGetRequest_unfold. cbv zeta.
  set (s1 := afterOutgoing h s).
  set (seg := default EmptyString (Vars (req s1) !! "id")).
  destruct (Strings.LastIndex seg Strings.dot =? -1); [discriminate|].
  destruct (Strings.slice_to seg (Strings.LastIndex seg Strings.dot)) as [key|];
    [|discriminate].
  unfold serveEntry, LoadStorageEntry, GetReader, internalError. run_monad.
  destruct (Storages.LoadStorageEntry key (backend s1)) as [[success err] entry].
  destruct err as [err|]; [discriminate|].
  destruct success; cbn [negb]; [|discriminate].
  destruct (String.eqb _ _); [discriminate|]. run_monad.
  destruct (Storages.GetReadSeeker (Configuration h) entry (backend s1)) as [e|reader];
    [discriminate|].
  destruct (whitelisted _ _); run_monad;
    (destruct (BufferSize h <? 0); [discriminate|]; apply sendLoop_ends;
     cbn [Multipart.data]; lia).
Qed.

(** X17.  A GET never writes to the storage: however the run ends, the
    documents, the files and the id counter are as before, and the calls
    it makes on the storage are at most the lookup of the entry and the
    opening of its file. *)
Theorem get_leaves_the_storage_as_it_is s :
  let s1 := afterOutgoing h s in
  let s' := (handleGetRequest GetETagValue h s).2 in
  backend s' = backend s
  ∧ ∃ t, trace s' = t ++ trace s1
         ∧ (t = [] ∨ ∃ key, t = [EvLoadStorageEntry key]
                             ∨ t = [EvGetReader; EvLoadStorageEntry key]).
Proof.
  cbv zeta. rewrite handleGetRequest_unfold. cbv zeta.
  rewrite <- (backend_afterOutgoing h s).
  set (s1 := afterOutgoing h s).
  set (seg := default EmptyString (Vars (req s1) !! "id")).
  destruct (Strings.LastIndex seg Strings.dot =? -1);
    [split; [reflexivity|exists []; auto]|].
  destruct (Strings.slice_to seg (Strings.LastIndex seg Strings.dot)) as [key|];
    [|split; [reflexivity|exists []; auto]].
  unfold serveEntry, LoadStorageEntry, GetReader, internalError. run_monad.
  destruct (Storages.LoadStorageEntry key (backend s1)) as [[success err] entry].
  destruct err as [err|]; [split; [reflexivity|exists [EvLoadStorageEntry key]; eauto]|].
  destruct success; cbn [negb];
    [|split; [reflexivity|exists [EvLoadStorageEntry key]; eauto]].
  destruct (String.eqb _ _);
    [split; [reflexivity|exists [EvLoadStorageEntry key]; eauto]|]. run_monad.
  destruct (Storages.GetReadSeeker (Configuration h) entry (backend s1)) as [e|reader];
    [split; [reflexivity|exists [EvGetReader; EvLoadStorageEntry key]; eauto]|].
  destruct (whitelisted _ _); run_monad;
    (destruct (BufferSize h <? 0);
     [split; [reflexivity|exists [EvGetReader; EvLoadStorageEntry key]; eauto]|];
     match goal with |- context [sendLoop ?f ?rd ?buf ?st] =>
       destruct (sendLoop_keeps f rd buf st) as (_ & _ & K3 & K4) end;
     rewrite K3, K4; split; [reflexivity|];
     exists [EvGetReader; EvLoadStorageEntry key]; eauto).
Qed.

End GetPaths.

(** ** What an upload leaves of the storage *)
Section UploadInvariant.
Import Handler Router.

Variable NewObjectId : nat → Bson.ObjectId.
Variable DetectContentType : list byte → string.
Variable h : ShareXHandler.

(** The copy loop, however it ends, touches the writer's file only. *)
Lemma uploadLoop_backend fuel file writer s :
  Storages.collection (backend (uploadLoop fuel file writer s).2)
  = Storages.collection (backend s)
  ∧ Storages.reachable (backend (uploadLoop fuel file writer s).2)
    = Storages.reachable (backend s)
  ∧ ∀ p, p ≠ writer →
         Storages.files (backend (uploadLoop fuel file writer s).2) !! p
         = Storages.files (backend s) !! p.
Proof.
  revert file s. induction fuel as [|fuel IH]; intros file s; cbn [uploadLoop].
  - cbn. auto.
  - destruct (Multipart.Read chunkSize file) as [[chunk err] file'].
    destruct (length chunk =? 0)%nat; [cbn; auto|].
    destruct err.
    + unfold internalError. run_monad.
      match goal with |- context [uploadLoop fuel file' writer ?s1] =>
        destruct (IH file' s1) as (I1 & I2 & I3) end.
      cbn [backend] in I1, I2, I3. auto.
    + unfold writerWrite. run_monad.
      match goal with |- context [uploadLoop fuel file' writer ?s1] =>
        destruct (IH file' s1) as (I1 & I2 & I3) end.
      cbn [backend] in I1, I2, I3. rewrite I1, I2.
      split; [reflexivity|]. split; [reflexivity|].
      intros p Hp. rewrite (I3 p Hp). unfold Storages.Writer_Write.
      cbn [Storages.files Storages.setFiles]. now apply lookup_insert_ne.
Qed.

Lemma Save_error_shape fuel e b err e' b' :
  Storages.Save NewObjectId fuel e b = Some (Some err, e', b') →
  ∃ n, b' = Storages.setIssued n b.
Proof.
  unfold Storages.Save.
  destruct (Storages.Save_loop NewObjectId fuel b) as [[[[err1|] id] b1]|] eqn:L;
    [| |discriminate].
  - intros [= <- <- <-]. now destruct (Save_loop_shape _ _ _ _ _ _ L) as [Hn _].
  - destruct (Save_loop_shape _ _ _ _ _ _ L) as ((n & ->) & H2).
    destruct (H2 eq_refl) as [R F]. unfold Storages.Insert.
    cbn [Storages.reachable Storages.setIssued]. rewrite R. discriminate.
Qed.

(** What a run of [handleUploadRequest] leaves of the backend, however
    it ends. *)
Lemma upload_backend fuel s :
  let s' := (handleUploadRequest NewObjectId DetectContentType h fuel s).2 in
  Storages.reachable (backend s') = Storages.reachable (backend s)
  ∧ ∃ new,
      Storages.collection (backend s') = Storages.collection (backend s) ++ new
      ∧ (length new ≤ 1)%nat
      ∧ (∀ e, e ∈ new → Storages.Id e ∉ Storages.ids (backend s))
      ∧ ∀ p, (∀ e, e ∈ new → p ≠ Storages.path_of (Configuration h) e) →
             Storages.files (backend s') !! p = Storages.files (backend s) !! p.
Proof.
  cbv zeta. rewrite handleUploadRequest_unfold.
  rewrite <- (backend_afterOutgoing h s), <- (backend_afterOutgoing h (afterOutgoing h s)).
  generalize (afterOutgoing h (afterOutgoing h s)). clear s. intros s.
  pose (Q := λ s0 : State,
    Storages.reachable (backend s0) = Storages.reachable (backend s)
    ∧ ∃ new,
        Storages.collection (backend s0) = Storages.collection (backend s) ++ new
        ∧ (length new ≤ 1)%nat
        ∧ (∀ e, e ∈ new → Storages.Id e ∉ Storages.ids (backend s))
        ∧ ∀ p, (∀ e, e ∈ new → p ≠ Storages.path_of (Configuration h) e) →
               Storages.files (backend s0) !! p = Storages.files (backend s) !! p).
  change (Q (handleUploadRequest2 NewObjectId DetectContentType
               (withoutOutgoingFunction h) fuel s).2).
  assert (∀ s0 : State,
            Storages.reachable (backend s0) = Storages.reachable (backend s) →
            Storages.collection (backend s0) = Storages.collection (backend s) →
            Storages.files (backend s0) = Storages.files (backend s) →
            Q s0) as Same.
  { intros s0 E1 E2 E3. unfold Q. rewrite E1, E2, E3. split; [reflexivity|]. exists [].
    rewrite app_nil_r.
    split; [reflexivity|]. split; [cbn; lia|]. split; [|reflexivity].
    intros e He. inversion He. }
  assert (∀ (s0 : State) (entry : Storages.MongoStorageEntry),
            Storages.reachable (backend s0) = Storages.reachable (backend s) →
            Storages.Id entry ∉ Storages.ids (backend s) →
            (∃ doc, Storages.Id doc = Storages.Id entry
                    ∧ Storages.collection (backend s0)
                      = Storages.collection (backend s) ++ [doc]) →
            (∀ p, p ≠ Storages.path_of (Configuration h) entry →
                  Storages.files (backend s0) !! p = Storages.files (backend s) !! p) →
            Q s0) as One.
  { intros s0 entry Hr Hf (doc & Hid & Hc) Hfl. unfold Q. split; [exact Hr|].
    exists [doc]. split; [exact Hc|]. split; [cbn; lia|]. split.
    - intros e Hin. apply list_elem_of_singleton in Hin. subst e. now rewrite Hid.
    - intros p Hp. apply Hfl. intros ->. apply (Hp doc).
      + now apply list_elem_of_singleton.
      + unfold Storages.path_of, Storages.GetId. now rewrite Hid. }
  clearbody Q.
  unfold handleUploadRequest2, callOutgoingFunction, ParseMultipartForm.
  cbn [withoutOutgoingFunction OutgoingFunction Configuration ProtocolHost].
  run_monad.
  destruct (MultipartForm (req s)) as [form|];
    [|unfold internalError; run_monad; apply Same; reflexivity].
  destruct (FormFile "file" form) as [[file fh]|];
    [|unfold internalError; run_monad; apply Same; reflexivity].
  destruct (Multipart.Read sniffLen file) as [[chunk err] file'].
  match goal with |- context [(if err then internalError else ?f) ?st] =>
    assert (∃ w1, (if err then internalError else f) st
                  = (Ret tt, mkState (backend s) w1 (req s)
                               (EvParseMultipartForm :: trace s)))
      as (w1 & ->) by (destruct err; eexists; reflexivity) end.
  destruct (Multipart.Size (Multipart.Seek0 file')) as [size|];
    [|run_monad; apply Same; reflexivity].
  unfold NewStorageEntry, Save. run_monad.
  destruct (Storages.Save NewObjectId fuel (Storages.NewStorageEntry (backend s)) (backend s))
    as [[[err1 entry] b1]|] eqn:HS; [|run_monad; apply Same; reflexivity].
  run_monad. destruct err1 as [e1|].
  - unfold internalError. run_monad.
    destruct (Save_error_shape _ _ _ _ _ _ HS) as (n & ->).
    apply Same; reflexivity.
  - destruct (Save_shape _ _ _ _ _ _ HS) as (id & n & He & Hfresh & Hreach & Hb1).
    assert (Storages.Id entry ∉ Storages.ids (backend s)) as Hf2
      by (rewrite He; exact Hfresh).
    unfold GetWriter. run_monad. unfold Storages.GetWriter.
    assert (Storages.reachable b1 = true) as Hr1 by (rewrite Hb1; exact Hreach).
    assert (Storages.collection b1 = Storages.collection (backend s) ++ [entry]) as Hc1
      by (rewrite Hb1; reflexivity).
    assert (Storages.files b1 = Storages.files (backend s)) as Hfl1
      by (rewrite Hb1; reflexivity).
    destruct (Storages.creatable b1); run_monad.
    2:{ unfold internalError. run_monad. apply (One _ entry);
          cbn [snd backend Storages.reachable Storages.collection Storages.files
               Storages.setCollection].
        - congruence.
        - exact Hf2.
        - exists entry. auto.
        - intros p _. now rewrite Hfl1. }
    unfold defer.
    match goal with |- context [uploadLoop ?f ?fl ?wr ?st] =>
      pose proof (uploadLoop_backend f fl wr st) as (L1 & L2 & L3);
      destruct (uploadLoop f fl wr st) as [o sl] end.
    cbn [snd backend Storages.collection Storages.reachable Storages.files
         Storages.setFiles withoutOutgoingFunction Configuration] in L1, L2, L3.
    assert (∀ p, p ≠ Storages.path_of (Configuration h) entry →
                 Storages.files (backend sl) !! p = Storages.files (backend s) !! p)
      as Hfiles.
    { intros p Hp. rewrite (L3 p Hp), lookup_insert_ne by congruence.
      now rewrite Hfl1. }
    destruct o as [[]| |].
    + unfold Update. run_monad. unfold Storages.Update, Storages.UpdateId.
      cbn [Storages.SetFilename Storages.SetContentType Storages.Id].
      rewrite L2, Hr1, L1, Hc1.
      rewrite (replace_first_last (Storages.Id entry) _
                 (Storages.collection (backend s)) entry Hf2 eq_refl).
      run_monad.
      match goal with |- context [Strings.slice_from ?a ?b] =>
        destruct (Strings.slice_from a b) as [ending|] end.
      * unfold write. cbn [w].
        match goal with |- context [Http.Write ?a ?b] =>
          destruct (Http.Write a b) as [e2 w2] end.
        unfold writerClose. cbn [fst snd backend].
        apply (One _ entry);
          cbn [snd backend Storages.reachable Storages.collection Storages.files
               Storages.setCollection].
        -- congruence.
        -- exact Hf2.
        -- eexists. split; [|reflexivity]. reflexivity.
        -- exact Hfiles.
      * unfold writerClose. cbn [fst snd backend].
        apply (One _ entry);
          cbn [snd backend Storages.reachable Storages.collection Storages.files
               Storages.setCollection].
        -- congruence.
        -- exact Hf2.
        -- eexists. split; [|reflexivity]. reflexivity.
        -- exact Hfiles.
    + unfold writerClose. apply (One _ entry);
          cbn [snd backend Storages.reachable Storages.collection Storages.files
               Storages.setCollection].
      * congruence.
      * exact Hf2.
      * exists entry. split; [reflexivity|congruence].
      * exact Hfiles.
    + unfold writerClose. apply (One _ entry);
          cbn [snd backend Storages.reachable Storages.collection Storages.files
               Storages.setCollection].
      * congruence.
      * exact Hf2.
      * exists entry. split; [reflexivity|congruence].
      * exact Hfiles.
Qed.

(** X18.  An upload, however it ends, leaves the stored documents as
    they were and in their order, and adds at most one document, under an
    id that no stored document had; and it leaves every file as it was
    except the file of that new document. *)
Theorem upload_leaves_the_other_documents_and_files fuel s :
  let s' := (handleUploadRequest NewObjectId DetectContentType h fuel s).2 in
  ∃ new,
    Storages.collection (backend s') = Storages.collection (backend s) ++ new
    ∧ (length new ≤ 1)%nat
    ∧ (∀ e, e ∈ new → Storages.Id e ∉ Storages.ids (backend s))
    ∧ ∀ p, (∀ e, e ∈ new → p ≠ Storages.path_of (Configuration h) e) →
           Storages.files (backend s') !! p = Storages.files (backend s) !! p.
Proof. exact (proj2 (upload_backend fuel s)). Qed.

(** X19.  [handleUploadRequest] ends, by a return or a panic, once the
    loop of [Save] does: with an id generator that does not repeat itself
    and more rounds of fuel than there are stored documents, no run is
    left in a loop; the copy loop ends for every file. *)
Theorem handleUploadRequest_ends fuel s :
  (∀ i j, NewObjectId i = NewObjectId j → i = j) →
  (length (Storages.collection (backend s)) < fuel)%nat →
  (handleUploadRequest NewObjectId DetectContentType h fuel s).1 ≠ Running.
Proof.
  intros Hinj Hfuel. rewrite handleUploadRequest_unfold.
  rewrite <- (backend_afterOutgoing h s), <- (backend_afterOutgoing h (afterOutgoing h s))
    in Hfuel.
  revert Hfuel. generalize (afterOutgoing h (afterOutgoing h s)). clear s.
  intros s Hfuel.
  unfold handleUploadRequest2, callOutgoingFunction, ParseMultipartForm.
  cbn [withoutOutgoingFunction OutgoingFunction Configuration ProtocolHost].
  run_monad.
  destruct (MultipartForm (req s)) as [form|];
    [|unfold internalError; run_monad; discriminate].
  destruct (FormFile "file" form) as [[file fh]|];
    [|unfold internalError; run_monad; discriminate].
  destruct (Multipart.Read sniffLen file) as [[chunk err] file'].
  match goal with |- context [(if err then internalError else ?f) ?st] =>
    assert (∃ w1, (if err then internalError else f) st
                  = (Ret tt, mkState (backend s) w1 (req s)
                               (EvParseMultipartForm :: trace s)))
      as (w1 & ->) by (destruct err; eexists; reflexivity) end.
  destruct (Multipart.Size (Multipart.Seek0 file')) as [size|];
    [|run_monad; discriminate].
  unfold NewStorageEntry, Save. run_monad.
  destruct (Save_ends NewObjectId fuel (Storages.NewStorageEntry (backend s)) (backend s)
              Hinj Hfuel) as (err1 & entry & b1 & ->).
  run_monad. destruct err1 as [e1|]; [unfold internalError; run_monad; discriminate|].
  unfold GetWriter. run_monad.
  destruct (Storages.GetWriter _ entry b1) as [[e2|writer] b2]; run_monad;
    [unfold internalError; run_monad; discriminate|].
  unfold defer.
  match goal with |- context [uploadLoop ?f ?fl ?wr ?st] =>
    pose proof (uploadLoop_ends f fl wr st) as Hends;
    destruct (uploadLoop f fl wr st) as [o sl] end.
  cbn [fst Multipart.Seek0 Multipart.data Multipart.off] in Hends.
  destruct o as [[]| |]; [|discriminate|exfalso; apply Hends; [lia|reflexivity]].
  unfold Update. run_monad.
  match goal with |- context [Storages.Update ?e ?b] =>
    destruct (Storages.Update e b) as [[e3|] b3] end; run_monad;
    [unfold internalError; run_monad; discriminate|].
  match goal with |- context [Strings.slice_from ?a ?b] =>
    destruct (Strings.slice_from a b) as [ending|] end; [|discriminate].
  unfold write. cbn [w].
  match goal with |- context [Http.Write ?a ?b] =>
    destruct (Http.Write a b) as [e4 w4] end.
  discriminate.
Qed.

End UploadInvariant.

(** ** From the upload to the delivery *)
Section RoundTrip.
Import Handler Router.

Variable NewObjectId : nat → Bson.ObjectId.
Variable DetectContentType : list byte → string.
Variable GetETagValue : Storages.MongoStorageEntry → string.
Variable h : ShareXHandler.

(** X20.  The URL an upload answers with leads to the uploaded file:
    after an upload that succeeds (a file kept in memory, not empty, named
    [stem.ext]; ids pairwise different before; an object id of twelve
    bytes), a GET of the segment [id.ext] on the backend the upload left
    finds the entry, answers 200 and sends the uploaded bytes, followed by
    the zero bytes the upload stored behind them and by what fills the
    last send buffer. *)
Theorem uploaded_file_is_served_under_its_url
    fuel s form fh fhs entry b1 stem ext wg rg tg :
  let s2 := afterOutgoing h (afterOutgoing h s) in
  let b := backend s in
  let up := handleUploadRequest NewObjectId DetectContentType h fuel s in
  let g := mkState (backend up.2) wg rg tg in
  let g1 := afterOutgoing h g in
  let doc := Storages.SetFilename (Multipart.Filename fh)
               (Storages.SetContentType
                  (DetectContentType
                     (Multipart.fill (Multipart.zeros sniffLen)
                        (take sniffLen (Multipart.content fh))))
                  entry) in
  let n := Z.to_nat (BufferSize h) in
  let stored := Multipart.content fh
                ++ replicate ((chunkSize - length (Multipart.content fh) mod chunkSize)
                              mod chunkSize) x00 in
  MultipartForm (req s2) = Some form →
  form !! "file" = Some (fh :: fhs) →
  Multipart.tmpfile fh = false →
  Multipart.content fh ≠ [] →
  Storages.Save NewObjectId fuel (Storages.NewStorageEntry b) b = Some (None, entry, b1) →
  Storages.creatable b = true →
  Http.wroteHeader (w s2) = None →
  Multipart.Filename fh = stem +:+ String Strings.dot ext →
  Strings.absent Strings.dot ext = true →
  NoDup (Storages.ids b) →
  String.length (Storages.Id entry) = 12%nat →
  Vars (req g1) !! "id" = Some (Storages.GetId entry +:+ String Strings.dot ext) →
  Http.Header_Get "If-None-Match" (Header (req g1)) ≠ GetETagValue doc →
  0 < BufferSize h →
  Http.wroteHeader (w g1) = None →
  ∃ g' pad,
    handleGetRequest GetETagValue h g = (Ret tt, g')
    ∧ Http.status (w g') = Some Http.StatusOK
    ∧ Http.body (w g') = Http.body (w g1) ++ stored ++ pad
    ∧ length pad = ((n - length stored mod n) mod n)%nat.
Proof.
  intros s2 b up g g1 doc n stored Hform Hfile Htmp Hne HSave Hcre Hw Hname Hext
    Hnd Hlen Hvars Hinm Hpos Hwg.
  assert (backend g = backend up.2) as Hg by reflexivity.
  destruct (upload_answers_url_and_stores_padded_file NewObjectId DetectContentType h
              fuel s form fh fhs entry b1 stem ext
              Hform Hfile Htmp Hne HSave Hcre Hw Hname Hext)
    as (s' & E & _ & _ & Hfiles & Hcoll).
  pose proof (upload_backend NewObjectId DetectContentType h fuel s) as [Hr _].
  unfold up in Hg. rewrite E in Hr, Hg. cbn [snd] in Hr, Hg.
  destruct (Save_shape _ _ _ _ _ _ HSave) as (id & k & He & Hfresh & Hreach & _).
  assert (backend g1 = backend s') as Hb1
    by (subst g1; now rewrite backend_afterOutgoing).
  fold doc in Hcoll.
  assert (Storages.LoadStorageEntry (Storages.GetId entry) (backend g1)
          = (true, None, doc)) as Hload.
  { apply (LoadStorageEntry_GetId doc).
    - rewrite Hb1, Hr. exact Hreach.
    - rewrite Hb1, Hcoll. apply elem_of_app. right. now apply list_elem_of_singleton.
    - rewrite Hb1. unfold Storages.ids. rewrite Hcoll, fmap_app.
      apply NoDup_app. split; [exact Hnd|]. split; [|apply NoDup_singleton].
      intros x Hx Hx'. cbn in Hx'. apply list_elem_of_singleton in Hx'. subst x.
      apply Hfresh. rewrite He in Hx. exact Hx.
    - exact Hlen. }
  destruct (get_delivers GetETagValue h g (Storages.GetId entry) doc stored)
    as (g' & pad & G1 & G2 & G3 & G4 & _).
  - fold g1. rewrite Hvars. cbn [default]. now apply slice_to_LastIndex_app.
  - exact Hload.
  - exact Hinm.
  - fold g1. rewrite Hb1.
    change (Storages.path_of (Configuration h) doc)
      with (Storages.path_of (Configuration h) entry).
    rewrite Hfiles. f_equal. apply writtenBy_pads. lia.
  - exact Hpos.
  - exact Hwg.
  - exists g', pad. auto.
Qed.

End RoundTrip.

(** ** The upload handler of the later revision *)
Section RevUpload.
Import Handler.

Variable NewObjectId : nat → Bson.ObjectId.
Variable DetectContentType : list byte → string.
Variable h : RouterRev.ShareXHandler.

Lemma RouterRev_backend_afterOutgoing s :
  backend (RouterRev.afterOutgoing h s) = backend s.
Proof.
  unfold RouterRev.afterOutgoing, Router.outgoing.
  destruct (RouterRev.OutgoingFunction h) as [f|]; [|reflexivity].
  now destruct (f (w s) (req s)).
Qed.

Lemma length_zeros n : length (Multipart.zeros n) = n.
Proof. apply length_replicate. Qed.

Lemma RouterRev_callOutgoingFunction_run s :
  RouterRev.callOutgoingFunction h s = (Ret tt, RouterRev.afterOutgoing h s).
Proof.
  unfold RouterRev.callOutgoingFunction, RouterRev.afterOutgoing.
  now destruct (RouterRev.OutgoingFunction h).
Qed.

(** With a buffer of at least one byte the copy loop returns, and the
    writer's file, which held [old], holds [old] followed by the bytes
    that were left in the uploaded file. *)
Lemma receiveLoop_copies fuel file writer s old :
  0 < RouterRev.ReceiveBufferSize h →
  Storages.files (backend s) !! writer = Some old →
  (length (Multipart.data file) - Multipart.off file < fuel)%nat →
  ∃ t, RouterRev.receiveLoop h fuel file writer s
       = (Ret tt,
          mkState
            (Storages.setFiles
               (<[writer := old ++ drop (Multipart.off file) (Multipart.data file)]>
                  (Storages.files (backend s)))
               (backend s))
            (w s) (req s) (t ++ trace s)).
Proof.
  intros Hpos. revert file s old.
  induction fuel as [|fuel IH]; intros file s old Hold Hlen; [lia|].
  cbn [RouterRev.receiveLoop].
  destruct (RouterRev.ReceiveBufferSize h <? 0) eqn:Eb; [apply Z.ltb_lt in Eb; lia|].
  rewrite length_zeros. unfold Multipart.Read.
  destruct (drop (Multipart.off file) (Multipart.data file)) as [|x rest] eqn:D.
  - exists []. cbn. rewrite app_nil_r, (setFiles_same _ _ _ Hold). now destruct s.
  - destruct (Z.to_nat (RouterRev.ReceiveBufferSize h)) as [|n] eqn:En; [lia|].
    cbn [take length Nat.eqb]. unfold Router.writerWrite. run_monad.
    set (chunk := x :: take n rest).
    assert (take (S (length (take n rest)))
              (Multipart.fill (Multipart.zeros (S n)) chunk) = chunk) as Ht.
    { unfold Multipart.fill. now rewrite (take_app_length' chunk). }
    rewrite Ht.
    match goal with |- ∃ t, RouterRev.receiveLoop h fuel ?f writer ?s1 = _ =>
      destruct (IH f s1 (old ++ chunk)) as (t & E) end.
    { cbn [backend]. unfold Storages.Writer_Write. cbn [Storages.files Storages.setFiles].
      rewrite lookup_insert_eq, Hold. reflexivity. }
    { cbn [Multipart.data Multipart.off].
      assert (length (drop (Multipart.off file) (Multipart.data file)) = S (length rest))
        as Hd by now rewrite D.
      rewrite length_drop in Hd. lia. }
    exists (t ++ [EvWriterWrite (length chunk)]). rewrite E.
    cbn [backend w req trace Multipart.data Multipart.off].
    unfold Storages.Writer_Write, Storages.setFiles.
    cbn [Storages.files Storages.collection Storages.reachable Storages.creatable
         Storages.issued Storages.clock].
    rewrite Hold. cbn [default]. unfold id. rewrite insert_insert_eq.
    replace (drop (Multipart.off file + S (length (take n rest))) (Multipart.data file))
      with (drop n rest).
    2:{ rewrite <- drop_drop, D. cbn [drop]. now rewrite drop_length_take. }
    rewrite <- !app_assoc. subst chunk. cbn [app].
    now rewrite (take_drop n rest).
Qed.

(** With a buffer of no byte the copy loop returns at once. *)
Lemma receiveLoop_no_buffer fuel file writer s :
  RouterRev.ReceiveBufferSize h = 0 →
  RouterRev.receiveLoop h (S fuel) file writer s = (Ret tt, s).
Proof.
  intros Hz. cbn [RouterRev.receiveLoop]. rewrite Hz. cbn [Z.ltb Z.compare Z.to_nat].
  unfold Multipart.Read. cbn [Multipart.zeros replicate length].
  destruct (drop (Multipart.off file) (Multipart.data file)); reflexivity.
Qed.

(** The copy loop with a buffer of no negative size. *)
Lemma receiveLoop_stores fuel file writer s :
  0 <= RouterRev.ReceiveBufferSize h →
  Storages.files (backend s) !! writer = Some [] →
  Multipart.off file = 0%nat →
  (length (Multipart.data file) < fuel)%nat →
  ∃ t, RouterRev.receiveLoop h fuel file writer s
       = (Ret tt,
          mkState
            (Storages.setFiles
               (<[writer := if RouterRev.ReceiveBufferSize h =? 0 then []
                            else Multipart.data file]>
                  (Storages.files (backend s)))
               (backend s))
            (w s) (req s) (t ++ trace s)).
Proof.
  intros Hnn Hold Hoff Hlen.
  destruct (RouterRev.ReceiveBufferSize h =? 0) eqn:Ez.
  - apply Z.eqb_eq in Ez. destruct fuel as [|fuel]; [lia|].
    rewrite (receiveLoop_no_buffer _ _ _ _ Ez). exists [].
    rewrite (setFiles_same _ _ _ Hold). now destruct s.
  - apply Z.eqb_neq in Ez.
    destruct (receiveLoop_copies fuel file writer s []) as (t & E);
      [lia|exact Hold|lia|].
    exists t. rewrite E, Hoff. reflexivity.
Qed.

(** The file ending is defined for every file name. *)
Lemma fileEnding_Some (name : string) :
  ∃ ending, RouterRev.fileEnding name = Some ending.
Proof.
  unfold RouterRev.fileEnding.
  pose proof (LastIndex_ge name Strings.dot) as H1.
  pose proof (LastIndex_lt name Strings.dot) as H2.
  destruct (Strings.LastIndex name Strings.dot =? -1) eqn:E; [eauto|].
  apply Z.eqb_neq in E. unfold Strings.slice_from.
  destruct (0 <=? Strings.LastIndex name Strings.dot) eqn:E1;
    [|apply Z.leb_gt in E1; lia].
  destruct (Strings.LastIndex name Strings.dot <=? Strings.len name) eqn:E2;
    [|apply Z.leb_gt in E2; lia].
  cbn [andb]. eauto.
Qed.

(** What [handleUploadRequest] of the later revision does with a file
    that is not empty when the entry is saved and its file can be
    created. *)
Lemma RouterRev_upload_run fuel s form fh fhs entry b1 :
  let s1 := RouterRev.afterOutgoing h s in
  let b := backend s in
  MultipartForm (req s1) = Some form →
  form !! "file" = Some (fh :: fhs) →
  Multipart.content fh ≠ [] →
  Storages.Save NewObjectId fuel (Storages.NewStorageEntry b) b = Some (None, entry, b1) →
  Storages.creatable b = true →
  Http.wroteHeader (w s1) = None →
  0 <= RouterRev.ReceiveBufferSize h →
  ∃ s' ending,
    RouterRev.handleUploadRequest NewObjectId DetectContentType h fuel s = (Ret tt, s')
    ∧ RouterRev.fileEnding (Multipart.Filename fh) = Some ending
    ∧ Http.status (w s') = Some Http.StatusOK
    ∧ Http.body (w s')
      = Http.body (w s1)
        ++ list_byte_of_string
             (RouterRev.ProtocolHost h +:+ Storages.GetId entry +:+ ending)
    ∧ Storages.files (backend s') !! Storages.path_of (RouterRev.Configuration h) entry
      = Some (if RouterRev.ReceiveBufferSize h =? 0 then [] else Multipart.content fh)
    ∧ Storages.collection (backend s')
      = Storages.collection b
        ++ [Storages.SetFilename (Multipart.Filename fh)
              (Storages.SetContentType
                 (DetectContentType
                    (Multipart.fill (Multipart.zeros Router.sniffLen)
                       (take Router.sniffLen (Multipart.content fh))))
                 entry)]
    ∧ Storages.reachable (backend s') = true.
Proof.
  intros s1 b Hform Hfile Hne HSave Hcre Hw Hnn.
  assert (backend s1 = b) as Hb by (subst s1 b; apply RouterRev_backend_afterOutgoing).
  unfold RouterRev.handleUploadRequest, Router.ParseMultipartForm.
  run_monad. rewrite RouterRev_callOutgoingFunction_run. fold s1.
  cbn [backend w req trace]. rewrite Hform. unfold Router.FormFile. rewrite Hfile.
  unfold Multipart.Open, Multipart.Read. cbn [Multipart.data Multipart.off drop].
  destruct (Save_shape _ _ _ _ _ _ HSave) as (id & n & He & Hfresh & Hreach & Hb1).
  destruct (fileEnding_Some (Multipart.Filename fh)) as [ending Hending].
  set (data := Multipart.content fh) in *.
  destruct data as [|x rest] eqn:Hc; [congruence|].
  cbn [drop]. cbv iota beta.
  unfold Multipart.Seek0. cbn [Multipart.onDisk Multipart.data].
  unfold Router.NewStorageEntry, Router.Save. run_monad. rewrite Hb, HSave.
  run_monad. unfold RouterRev.GetWriter. run_monad. unfold Storages.GetWriter.
  cbn [RouterRev.Configuration].
  assert (Storages.creatable b1 = true) as Hcre1 by (rewrite Hb1; exact Hcre).
  rewrite Hcre1. run_monad. unfold defer.
  set (writer := Storages.path_of (RouterRev.Configuration h) entry).
  match goal with |- context [RouterRev.receiveLoop h ?f ?file ?wr ?st] =>
    destruct (receiveLoop_stores f file wr st) as (t & EL) end.
  { exact Hnn. }
  { cbn [backend Storages.files Storages.setFiles]. apply lookup_insert_eq. }
  { reflexivity. }
  { cbn [Multipart.data]. lia. }
  rewrite EL. cbn [Multipart.data RouterRev.ReceiveBufferSize].
  clear EL.
  unfold Router.Update. run_monad. unfold Storages.Update, Storages.UpdateId.
  cbn [Storages.reachable Storages.collection Storages.files Storages.setFiles
       Storages.SetFilename Storages.SetContentType Storages.Id].
  assert (Storages.reachable b1 = true) as Hr1 by (rewrite Hb1; exact Hreach).
  assert (Storages.collection b1 = Storages.collection b ++ [entry]) as Hc1
    by (rewrite Hb1; reflexivity).
  rewrite Hr1, Hc1.
  assert (Storages.Id entry ∉ Storages.Id <$> Storages.collection b) as Hf2
    by (rewrite He; exact Hfresh).
  rewrite (replace_first_last (Storages.Id entry) _ (Storages.collection b) entry Hf2 eq_refl).
  run_monad. cbn [Storages.GetFilename Storages.SetFilename Storages.Filename].
  rewrite Hending. unfold write. cbn [w].
  assert (Http.wroteHeader (Http.WriteHeader Http.StatusOK (w s1))
          = Some (Http.StatusOK, Http.header (w s1)))
    as Hw2 by (unfold Http.WriteHeader; now rewrite Hw).
  unfold Http.Write.
  rewrite (WriteHeader_written Http.StatusOK _ _ Hw2), Hw2.
  cbn [Http.bodyAllowedForStatus].
  eexists _, ending. split; [reflexivity|]. unfold Router.writerClose. cbn [w backend].
  split; [reflexivity|]. split; [reflexivity|]. split.
  { cbn [Http.body]. now rewrite body_WriteHeader. }
  split.
  { cbn [Storages.files Storages.setCollection Storages.setFiles].
    apply lookup_insert_eq. }
  split; [reflexivity|]. exact Hr1.
Qed.

(** With a negative [ReceiveBufferSize] the run panics in the first round
    of the copy loop, after the entry is saved and its file created. *)
Lemma RouterRev_upload_negative_buffer fuel s form fh fhs entry b1 :
  let s1 := RouterRev.afterOutgoing h s in
  let b := backend s in
  MultipartForm (req s1) = Some form →
  form !! "file" = Some (fh :: fhs) →
  Multipart.content fh ≠ [] →
  Storages.Save NewObjectId fuel (Storages.NewStorageEntry b) b = Some (None, entry, b1) →
  Storages.creatable b = true →
  RouterRev.ReceiveBufferSize h < 0 →
  ∃ s',
    RouterRev.handleUploadRequest NewObjectId DetectContentType h fuel s = (Panic, s')
    ∧ w s' = w s1
    ∧ Storages.files (backend s') !! Storages.path_of (RouterRev.Configuration h) entry
      = Some []
    ∧ Storages.collection (backend s') = Storages.collection b ++ [entry]
    ∧ trace s' = [EvWriterClose; EvGetWriter; EvSave; EvNewStorageEntry;
                  EvParseMultipartForm] ++ trace s1.
Proof.
  intros s1 b Hform Hfile Hne HSave Hcre Hneg.
  assert (backend s1 = b) as Hb by (subst s1 b; apply RouterRev_backend_afterOutgoing).
  unfold RouterRev.handleUploadRequest, Router.ParseMultipartForm.
  run_monad. rewrite RouterRev_callOutgoingFunction_run. fold s1.
  cbn [backend w req trace]. rewrite Hform. unfold Router.FormFile. rewrite Hfile.
  unfold Multipart.Open, Multipart.Read. cbn [Multipart.data Multipart.off drop].
  destruct (Save_shape _ _ _ _ _ _ HSave) as (id & n & He & Hfresh & Hreach & Hb1).
  set (data := Multipart.content fh) in *.
  destruct data as [|x rest] eqn:Hc; [congruence|].
  cbn [drop]. cbv iota beta.
  unfold Multipart.Seek0. cbn [Multipart.onDisk Multipart.data].
  unfold Router.NewStorageEntry, Router.Save. run_monad. rewrite Hb, HSave.
  run_monad. unfold RouterRev.GetWriter. run_monad. unfold Storages.GetWriter.
  assert (Storages.creatable b1 = true) as Hcre1 by (rewrite Hb1; exact Hcre).
  rewrite Hcre1. run_monad. unfold defer.
  cbn [RouterRev.receiveLoop]. apply Z.ltb_lt in Hneg. rewrite Hneg. run_monad.
  eexists. split; [reflexivity|]. unfold Router.writerClose. cbn [w backend trace].
  split; [reflexivity|]. split.
  { cbn [Storages.files Storages.setFiles]. apply lookup_insert_eq. }
  split; [|reflexivity]. rewrite Hb1. reflexivity.
Qed.

(** X21.  The upload of the later revision stores the file as it is: for
    a file that is not empty, whatever its name and whether it is kept in
    memory or on disk, with a receive buffer of at least one byte, when
    [Save] stores the entry and its file can be created, the handler
    answers 200 with the URL [ProtocolHost + id + ending], where the
    ending is empty for a name without a dot; the entry's file holds
    exactly the uploaded bytes; and the document holds the file name and
    the detected content type. *)
Theorem RouterRev_upload_stores_exactly_the_uploaded_bytes
    fuel s form fh fhs entry b1 :
  let s1 := RouterRev.afterOutgoing h s in
  let b := backend s in
  MultipartForm (req s1) = Some form →
  form !! "file" = Some (fh :: fhs) →
  Multipart.content fh ≠ [] →
  Storages.Save NewObjectId fuel (Storages.NewStorageEntry b) b = Some (None, entry, b1) →
  Storages.creatable b = true →
  Http.wroteHeader (w s1) = None →
  0 < RouterRev.ReceiveBufferSize h →
  ∃ s' ending,
    RouterRev.handleUploadRequest NewObjectId DetectContentType h fuel s = (Ret tt, s')
    ∧ RouterRev.fileEnding (Multipart.Filename fh) = Some ending
    ∧ (Strings.absent Strings.dot (Multipart.Filename fh) = true → ending = EmptyString)
    ∧ Http.status (w s') = Some Http.StatusOK
    ∧ Http.body (w s')
      = Http.body (w s1)
        ++ list_byte_of_string
             (RouterRev.ProtocolHost h +:+ Storages.GetId entry +:+ ending)
    ∧ Storages.files (backend s') !! Storages.path_of (RouterRev.Configuration h) entry
      = Some (Multipart.content fh)
    ∧ Storages.collection (backend s')
      = Storages.collection b
        ++ [Storages.SetFilename (Multipart.Filename fh)
              (Storages.SetContentType
                 (DetectContentType
                    (Multipart.fill (Multipart.zeros Router.sniffLen)
                       (take Router.sniffLen (Multipart.content fh))))
                 entry)].
Proof.
  intros s1 b Hform Hfile Hne HSave Hcre Hw Hpos.
  destruct (RouterRev_upload_run fuel s form fh fhs entry b1
              Hform Hfile Hne HSave Hcre Hw ltac:(lia))
    as (s' & ending & E & Hend & Hst & Hbody & Hfiles & Hcoll & _).
  exists s', ending. split; [exact E|]. split; [exact Hend|]. split.
  { intros Ha. destruct (RouterRev_without_dot _ Ha) as [Hempty _]. congruence. }
  split; [exact Hst|]. split; [exact Hbody|]. split; [|exact Hcoll].
  rewrite Hfiles. destruct (RouterRev.ReceiveBufferSize h =? 0) eqn:Ez; [|reflexivity].
  apply Z.eqb_eq in Ez. lia.
Qed.

(** X22.  The bounds of the receive buffer in the later revision.  With
    [ReceiveBufferSize] 0 the copy loop ends at once: the handler answers
    200 with the URL although the file it stored is empty.  With a negative
    [ReceiveBufferSize] the run panics on [make] in the first round of the
    loop: nothing is written to the response, while the saved document and
    its empty file stay behind and the writer is closed. *)
Theorem RouterRev_upload_without_receive_buffer fuel s form fh fhs entry b1 :
  let s1 := RouterRev.afterOutgoing h s in
  let b := backend s in
  MultipartForm (req s1) = Some form →
  form !! "file" = Some (fh :: fhs) →
  Multipart.content fh ≠ [] →
  Storages.Save NewObjectId fuel (Storages.NewStorageEntry b) b = Some (None, entry, b1) →
  Storages.creatable b = true →
  Http.wroteHeader (w s1) = None →
  (RouterRev.ReceiveBufferSize h = 0 →
   ∃ s' ending,
     RouterRev.handleUploadRequest NewObjectId DetectContentType h fuel s = (Ret tt, s')
     ∧ Http.status (w s') = Some Http.StatusOK
     ∧ Http.body (w s')
       = Http.body (w s1)
         ++ list_byte_of_string
              (RouterRev.ProtocolHost h +:+ Storages.GetId entry +:+ ending)
     ∧ Storages.files (backend s') !! Storages.path_of (RouterRev.Configuration h) entry
       = Some [])
  ∧ (RouterRev.ReceiveBufferSize h < 0 →
     ∃ s',
       RouterRev.handleUploadRequest NewObjectId DetectContentType h fuel s = (Panic, s')
       ∧ w s' = w s1
       ∧ Storages.files (backend s') !! Storages.path_of (RouterRev.Configuration h) entry
         = Some []
       ∧ Storages.collection (backend s') = Storages.collection b ++ [entry]
       ∧ trace s' = [EvWriterClose; EvGetWriter; EvSave; EvNewStorageEntry;
                     EvParseMultipartForm] ++ trace s1).
Proof.
  intros s1 b Hform Hfile Hne HSave Hcre Hw. split.
  - intros Ez.
    destruct (RouterRev_upload_run fuel s form fh fhs entry b1
                Hform Hfile Hne HSave Hcre Hw ltac:(lia))
      as (s' & ending & E & _ & Hst & Hbody & Hfiles & _).
    exists s', ending. split; [exact E|]. split; [exact Hst|]. split; [exact Hbody|].
    rewrite Hfiles, Ez. reflexivity.
  - intros Hneg.
    exact (RouterRev_upload_negative_buffer fuel s form fh fhs entry b1
             Hform Hfile Hne HSave Hcre Hneg).
Qed.

End RevUpload.

(** ** The delivery handler of the later revision *)
Section RevGet.
Import Handler.

Variable ServeContent :
  Http.ResponseWriter → Request → string → Z → Multipart.File → Http.ResponseWriter.
Variable h : RouterRev.ShareXHandler.

(** The response writer that [handleGetRequest] hands to
    [http.ServeContent] for the entry [entry]. *)
Lemma RouterRev_get_run s key entry bytes :
  let s1 := RouterRev.afterOutgoing h s in
  let seg := default EmptyString (Vars (req s1) !! "id") in
  RouterRev.strippedId seg = Some key →
  Storages.LoadStorageEntry key (backend s1) = (true, None, entry) →
  Storages.files (backend s1) !! Storages.path_of (RouterRev.Configuration h) entry
  = Some bytes →
  ∃ w2,
    RouterRev.handleGetRequest ServeContent h s
    = (Ret tt,
       mkState (backend s1)
         (ServeContent w2 (req s1) EmptyString (Storages.LastModified entry)
            (Multipart.mkFile bytes 0 true))
         (req s1) ([EvGetReader; EvLoadStorageEntry key] ++ trace s1))
    ∧ Http.wroteHeader w2 = Http.wroteHeader (w s1)
    ∧ Http.body w2 = Http.body (w s1)
    ∧ Http.Header_Get "Content-Disposition" (Http.header w2)
      = Router.dispositionValue
          (if Router.whitelisted (RouterRev.WhitelistedContentTypes h)
                (Storages.GetContentType entry)
           then "inline" else "attachment")
          (Storages.GetFilename entry)
    ∧ Http.Header_Get "Content-Type" (Http.header w2)
      = (if Router.whitelisted (RouterRev.WhitelistedContentTypes h)
              (Storages.GetContentType entry)
         then Http.Header_Get "Content-Type" (Http.header (w s1))
         else Storages.GetContentType entry)
    ∧ Http.Header_Get "ETag" (Http.header w2)
      = Http.Header_Get "ETag" (Http.header (w s1)).
Proof.
  intros s1 seg Hk Hl Hf.
  unfold RouterRev.handleGetRequest. run_monad.
  rewrite RouterRev_callOutgoingFunction_run. fold s1. cbn [req]. fold seg.
  rewrite Hk. unfold Router.LoadStorageEntry, RouterRev.GetReadSeeker. run_monad.
  rewrite Hl. cbv beta iota. cbn [negb]. run_monad.
  rewrite (GetReadSeeker_of_file _ _ _ _ Hf).
  destruct (Router.whitelisted (RouterRev.WhitelistedContentTypes h)
              (Storages.GetContentType entry)); run_monad.
  - eexists. split; [reflexivity|]. cbn [Http.setHeader Http.wroteHeader Http.body
      Http.header].
    split; [reflexivity|]. split; [reflexivity|].
    split; [apply Header_Get_Set|].
    split; apply Header_Get_Set_ne; vm_compute; discriminate.
  - eexists. split; [reflexivity|]. cbn [Http.setHeader Http.wroteHeader Http.body
      Http.header].
    split; [reflexivity|]. split; [reflexivity|].
    split; [rewrite Header_Get_Set_ne by (vm_compute; discriminate);
            apply Header_Get_Set|].
    split; [apply Header_Get_Set|].
    rewrite !Header_Get_Set_ne by (vm_compute; discriminate). reflexivity.
Qed.

(** X23.  What the later revision delivers: for a stored entry whose
    file holds [bytes], the answer is the one of [http.ServeContent],
    called with the request, the entry's modification time and a reader
    over exactly [bytes] from its start.  Before the call the handler has
    only set headers: Content-Disposition, inline for a whitelisted
    content type and attachment otherwise; Content-Type to the stored
    content type for attachments only, leaving it to [ServeContent] for
    inline files; and no ETag. *)
Theorem RouterRev_get_hands_the_stored_file_to_ServeContent s key entry bytes :
  let s1 := RouterRev.afterOutgoing h s in
  let seg := default EmptyString (Vars (req s1) !! "id") in
  RouterRev.strippedId seg = Some key →
  Storages.LoadStorageEntry key (backend s1) = (true, None, entry) →
  Storages.files (backend s1) !! Storages.path_of (RouterRev.Configuration h) entry
  = Some bytes →
  ∃ w2,
    RouterRev.handleGetRequest ServeContent h s
    = (Ret tt,
       mkState (backend s1)
         (ServeContent w2 (req s1) EmptyString (Storages.LastModified entry)
            (Multipart.mkFile bytes 0 true))
         (req s1) ([EvGetReader; EvLoadStorageEntry key] ++ trace s1))
    ∧ Http.wroteHeader w2 = Http.wroteHeader (w s1)
    ∧ Http.body w2 = Http.body (w s1)
    ∧ Http.Header_Get "Content-Disposition" (Http.header w2)
      = Router.dispositionValue
          (if Router.whitelisted (RouterRev.WhitelistedContentTypes h)
                (Storages.GetContentType entry)
           then "inline" else "attachment")
          (Storages.GetFilename entry)
    ∧ Http.Header_Get "Content-Type" (Http.header w2)
      = (if Router.whitelisted (RouterRev.WhitelistedContentTypes h)
              (Storages.GetContentType entry)
         then Http.Header_Get "Content-Type" (Http.header (w s1))
         else Storages.GetContentType entry)
    ∧ Http.Header_Get "ETag" (Http.header w2)
      = Http.Header_Get "ETag" (Http.header (w s1)).
Proof. exact (RouterRev_get_run s key entry bytes). Qed.

(** X24.  The failures of a GET in the later revision.  A database that
    does not answer and a file that cannot be opened are answered 500 and
    the handler returns: it does not panic.  An id that names no document
    is left to [router.NotFoundHandler]: the answer is the one of that
    handler, and the run panics, with nothing written, when the handler
    was never bound to a router or the router has no [NotFoundHandler]. *)
Theorem RouterRev_get_failures s key :
  let s1 := RouterRev.afterOutgoing h s in
  let seg := default EmptyString (Vars (req s1) !! "id") in
  RouterRev.strippedId seg = Some key →
  Http.wroteHeader (w s1) = None →
  (∀ oid, Bson.ObjectIdHex key = Some oid →
          Storages.reachable (backend s1) = false →
          ∃ s', RouterRev.handleGetRequest ServeContent h s = (Ret tt, s')
                ∧ Http.status (w s') = Some Http.StatusInternalServerError
                ∧ trace s' = [EvLoadStorageEntry key] ++ trace s1)
  ∧ (∀ entry,
       Storages.LoadStorageEntry key (backend s1) = (true, None, entry) →
       Storages.files (backend s1) !! Storages.path_of (RouterRev.Configuration h) entry
       = None →
       ∃ s', RouterRev.handleGetRequest ServeContent h s = (Ret tt, s')
             ∧ Http.status (w s') = Some Http.StatusInternalServerError
             ∧ trace s' = [EvGetReader; EvLoadStorageEntry key] ++ trace s1)
  ∧ (Storages.misses key (backend s1) →
     RouterRev.handleGetRequest ServeContent h s
     = match RouterRev.router h with
       | Some (RouterRev.mkMuxRouter (Some ServeHTTP)) =>
           (Ret tt, mkState (backend s1) (ServeHTTP (w s1) (req s1)) (req s1)
                      ([EvLoadStorageEntry key] ++ trace s1))
       | _ => (Panic, mkState (backend s1) (w s1) (req s1)
                        ([EvLoadStorageEntry key] ++ trace s1))
       end).
Proof.
  intros s1 seg Hk Hw.
  split; [|split].
  - intros oid Ho Hr. unfold RouterRev.handleGetRequest. run_monad.
    rewrite RouterRev_callOutgoingFunction_run. fold s1. cbn [req]. fold seg.
    rewrite Hk. unfold Router.LoadStorageEntry, Router.internalError. run_monad.
    rewrite (LoadStorageEntry_unreachable _ _ _ Ho Hr). run_monad.
    eexists. split; [reflexivity|]. cbn [w trace].
    split; [now apply status_Error|reflexivity].
  - intros entry Hl Hf. unfold RouterRev.handleGetRequest. run_monad.
    rewrite RouterRev_callOutgoingFunction_run. fold s1. cbn [req]. fold seg.
    rewrite Hk.
    unfold Router.LoadStorageEntry, RouterRev.GetReadSeeker, Router.internalError.
    run_monad. rewrite Hl. cbv beta iota. cbn [negb]. run_monad.
    unfold Storages.GetReadSeeker. rewrite Hf. run_monad.
    eexists. split; [reflexivity|]. cbn [w trace].
    split; [now apply status_Error|reflexivity].
  - intros Hm. unfold RouterRev.handleGetRequest. run_monad.
    rewrite RouterRev_callOutgoingFunction_run. fold s1. cbn [req]. fold seg.
    rewrite Hk. unfold Router.LoadStorageEntry, RouterRev.serveNotFound. run_monad.
    rewrite (LoadStorageEntry_misses _ _ Hm). cbv beta iota. cbn [negb].
    destruct (RouterRev.router h) as [[[ServeHTTP|]]|]; reflexivity.
Qed.


End RevGet.

(** ** From the upload to the delivery in the later revision *)
Section RevRoundTrip.
Import Handler.

Variable NewObjectId : nat → Bson.ObjectId.
Variable DetectContentType : list byte → string.
Variable ServeContent :
  Http.ResponseWriter → Request → string → Z → Multipart.File → Http.ResponseWriter.
Variable h : RouterRev.ShareXHandler.

Lemma append_empty (s : string) : s +:+ EmptyString = s.
Proof.
  induction s as [|a s IH]; [reflexivity|].
  change (String a (s +:+ EmptyString) = String a s). now rewrite IH.
Qed.

Lemma digits_are_no_dot (a : ascii) :
  negb (Ascii.eqb (Hex.digit (N_of_ascii a / 16)) Strings.dot)
  && negb (Ascii.eqb (Hex.digit (N_of_ascii a mod 16)) Strings.dot) = true.
Proof. destruct a as [[] [] [] [] [] [] [] []]; reflexivity. Qed.

(** An id in hexadecimal holds no dot. *)
Lemma absent_dot_EncodeToString (s : string) :
  Strings.absent Strings.dot (Hex.EncodeToString s) = true.
Proof.
  induction s as [|a s IH]; [reflexivity|].
  cbn [Hex.EncodeToString Strings.absent]. rewrite IH, andb_true_r.
  apply digits_are_no_dot.
Qed.

(** From its last occurrence of [c] on, a string is [c] followed by a
    string without [c]. *)
Lemma drop_str_LastIndex (s : string) (c : ascii) :
  0 <= Strings.LastIndex s c →
  ∃ ext, Strings.drop_str (Z.to_nat (Strings.LastIndex s c)) s = String c ext
         ∧ Strings.absent c ext = true.
Proof.
  induction s as [|a s IH]; cbn [Strings.LastIndex]; [lia|].
  pose proof (LastIndex_ge s c) as Hge.
  destruct (0 <=? Strings.LastIndex s c) eqn:E.
  - apply Z.leb_le in E. intros _. destruct (IH E) as (ext & H1 & H2).
    exists ext. split; [|exact H2].
    replace (Z.to_nat (Strings.LastIndex s c + 1))
      with (S (Z.to_nat (Strings.LastIndex s c))) by lia.
    exact H1.
  - apply Z.leb_gt in E. assert (Strings.LastIndex s c = -1) as Hm by lia.
    apply LastIndex_absent in Hm.
    destruct (Ascii.eqb_spec a c) as [->|Hne]; [|lia].
    intros _. exists s. split; [reflexivity|exact Hm].
Qed.

(** The file ending is empty or a dot followed by a string without dot. *)
Lemma fileEnding_shape (name ending : string) :
  RouterRev.fileEnding name = Some ending →
  ending = EmptyString
  ∨ ∃ ext, ending = String Strings.dot ext ∧ Strings.absent Strings.dot ext = true.
Proof.
  unfold RouterRev.fileEnding.
  pose proof (LastIndex_ge name Strings.dot) as H1.
  destruct (Strings.LastIndex name Strings.dot =? -1) eqn:E.
  - intros [= <-]. now left.
  - apply Z.eqb_neq in E. unfold Strings.slice_from.
    destruct ((0 <=? Strings.LastIndex name Strings.dot)
              && (Strings.LastIndex name Strings.dot <=? Strings.len name));
      [|discriminate].
    intros [= <-]. right. apply drop_str_LastIndex. lia.
Qed.

(** The id is cut out of the last segment of the URL of an upload. *)
Lemma strippedId_of_url (key ending : string) :
  Strings.absent Strings.dot key = true →
  (ending = EmptyString
   ∨ ∃ ext, ending = String Strings.dot ext ∧ Strings.absent Strings.dot ext = true) →
  RouterRev.strippedId (key +:+ ending) = Some key.
Proof.
  intros Hkey [->|(ext & -> & Hext)].
  - rewrite append_empty. now apply RouterRev_without_dot.
  - unfold RouterRev.strippedId.
    pose proof (LastIndex_app key ext Strings.dot Hext) as Hl.
    destruct (Strings.LastIndex (key +:+ String Strings.dot ext) Strings.dot =? -1) eqn:E.
    + apply Z.eqb_eq in E. unfold Strings.len in Hl. lia.
    + now apply slice_to_LastIndex_app.
Qed.

(** X25.  In the later revision the URL an upload answers with leads to
    the uploaded file, whatever the file name: after an upload that
    succeeds (a file that is not empty, a receive buffer of at least one
    byte, ids pairwise different before, an object id of twelve bytes), a
    GET of the URL's last segment [id + ending] on the backend the upload
    left finds the entry and hands [http.ServeContent] a reader over
    exactly the uploaded bytes, with the uploaded file name in the
    Content-Disposition header. *)
Theorem RouterRev_uploaded_file_is_served_under_its_url
    fuel s form fh fhs entry b1 ending wg rg tg :
  let s1 := RouterRev.afterOutgoing h s in
  let b := backend s in
  let up := RouterRev.handleUploadRequest NewObjectId DetectContentType h fuel s in
  let g := mkState (backend up.2) wg rg tg in
  let g1 := RouterRev.afterOutgoing h g in
  let contentType :=
    DetectContentType (Multipart.fill (Multipart.zeros Router.sniffLen)
                         (take Router.sniffLen (Multipart.content fh))) in
  MultipartForm (req s1) = Some form →
  form !! "file" = Some (fh :: fhs) →
  Multipart.content fh ≠ [] →
  Storages.Save NewObjectId fuel (Storages.NewStorageEntry b) b = Some (None, entry, b1) →
  Storages.creatable b = true →
  Http.wroteHeader (w s1) = None →
  0 < RouterRev.ReceiveBufferSize h →
  NoDup (Storages.ids b) →
  String.length (Storages.Id entry) = 12%nat →
  RouterRev.fileEnding (Multipart.Filename fh) = Some ending →
  Vars (req g1) !! "id" = Some (Storages.GetId entry +:+ ending) →
  ∃ w2,
    RouterRev.handleGetRequest ServeContent h g
    = (Ret tt,
       mkState (backend g1)
         (ServeContent w2 (req g1) EmptyString (Storages.LastModified entry)
            (Multipart.mkFile (Multipart.content fh) 0 true))
         (req g1)
         ([EvGetReader; EvLoadStorageEntry (Storages.GetId entry)] ++ trace g1))
    ∧ Http.wroteHeader w2 = Http.wroteHeader (w g1)
    ∧ Http.body w2 = Http.body (w g1)
    ∧ Http.Header_Get "Content-Disposition" (Http.header w2)
      = Router.dispositionValue
          (if Router.whitelisted (RouterRev.WhitelistedContentTypes h) contentType
           then "inline" else "attachment")
          (Multipart.Filename fh).
Proof.
  intros s1 b up g g1 contentType Hform Hfile Hne HSave Hcre Hw Hpos Hnd Hlen Hend Hvars.
  assert (backend g = backend up.2) as Hg by reflexivity.
  destruct (RouterRev_upload_run NewObjectId DetectContentType h fuel s form fh fhs
              entry b1 Hform Hfile Hne HSave Hcre Hw ltac:(lia))
    as (s' & ending' & E & _ & _ & _ & Hfiles & Hcoll & Hr).
  unfold up in Hg. rewrite E in Hg. cbn [snd] in Hg.
  destruct (Save_shape _ _ _ _ _ _ HSave) as (id & k & He & Hfresh & _ & _).
  assert (backend g1 = backend s') as Hb1
    by (subst g1; now rewrite RouterRev_backend_afterOutgoing).
  fold contentType in Hcoll.
  set (doc := Storages.SetFilename (Multipart.Filename fh)
                (Storages.SetContentType contentType entry)) in *.
  assert (Storages.LoadStorageEntry (Storages.GetId entry) (backend g1)
          = (true, None, doc)) as Hload.
  { apply (LoadStorageEntry_GetId doc).
    - rewrite Hb1. exact Hr.
    - rewrite Hb1, Hcoll. apply elem_of_app. right. now apply list_elem_of_singleton.
    - rewrite Hb1. unfold Storages.ids. rewrite Hcoll, fmap_app.
      apply NoDup_app. split; [exact Hnd|]. split; [|apply NoDup_singleton].
      intros x Hx Hx'. cbn in Hx'. apply list_elem_of_singleton in Hx'. subst x.
      apply Hfresh. rewrite He in Hx. exact Hx.
    - exact Hlen. }
  destruct (RouterRev_get_run ServeContent h g (Storages.GetId entry) doc
              (Multipart.content fh))
    as (w2 & G1 & G2 & G3 & G4 & _).
  - fold g1. rewrite Hvars. cbn [default]. apply strippedId_of_url.
    + apply absent_dot_EncodeToString.
    + exact (fileEnding_shape _ _ Hend).
  - exact Hload.
  - fold g1. rewrite Hb1.
    change (Storages.path_of (RouterRev.Configuration h) doc)
      with (Storages.path_of (RouterRev.Configuration h) entry).
    rewrite Hfiles. destruct (RouterRev.ReceiveBufferSize h =? 0) eqn:Ez; [|reflexivity].
    apply Z.eqb_eq in Ez. lia.
  - exists w2. split; [exact G1|]. split; [exact G2|]. split; [exact G3|exact G4].
Qed.

End RevRoundTrip.

(** ** The delivery handler of the first revision *)
Section OldGet.
Import Handler.

Variable h : RouterOld.ShareXHandler.

Lemma RouterOld_callOutgoingFunction_run s :
  RouterOld.callOutgoingFunction h s = (Ret tt, RouterOld.afterOutgoing h s).
Proof.
  unfold RouterOld.callOutgoingFunction, RouterOld.afterOutgoing.
  now destruct (RouterOld.OutgoingFunction h).
Qed.

Lemma RouterOld_backend_afterOutgoing s :
  backend (RouterOld.afterOutgoing h s) = backend s.
Proof.
  unfold RouterOld.afterOutgoing, Router.outgoing.
  destruct (RouterOld.OutgoingFunction h) as [f|]; [|reflexivity].
  now destruct (f (w s) (req s)).
Qed.

(** What the sending loop of the first revision writes: with a buffer of
    at least one byte and a response that may carry a body, it returns
    after appending to the body the bytes left in the file, and nothing
    else. *)
Lemma RouterOld_sendLoop_sends fuel reader buf s code hd :
  Http.wroteHeader (w s) = Some (code, hd) →
  Http.bodyAllowedForStatus code = true →
  (0 < length buf)%nat →
  (length (Multipart.data reader) - Multipart.off reader < fuel)%nat →
  RouterOld.sendLoop fuel reader buf s
  = (Ret tt,
     mkState (backend s)
       (Http.mkResponseWriter (Http.header (w s)) (Http.wroteHeader (w s))
          (Http.body (w s) ++ drop (Multipart.off reader) (Multipart.data reader)))
       (req s) (trace s)).
Proof.
  intros Hw Ha. revert reader buf s Hw.
  induction fuel as [|fuel IH]; intros reader buf s Hw Hn Hlen; [lia|].
  cbn [RouterOld.sendLoop]. unfold Multipart.Read.
  destruct (drop (Multipart.off reader) (Multipart.data reader)) as [|x rest] eqn:D.
  - cbn [length Nat.eqb]. rewrite app_nil_r.
    destruct s as [b [hd0 wh bd] r t]. reflexivity.
  - set (l := x :: rest) in *.
    assert (length l = S (length rest)) as Hl by reflexivity.
    set (chunk := take (length buf) l).
    assert (length chunk = Nat.min (length buf) (length l)) as Hc
      by (subst chunk; apply length_take).
    assert (take (length chunk) (Multipart.fill buf chunk) = chunk) as Ht.
    { unfold Multipart.fill. now rewrite (take_app_length' chunk). }
    rewrite Ht.
    destruct (length chunk) as [|m] eqn:Em; [lia|]. cbn [Nat.eqb].
    run_monad. unfold write. cbn [w].
    rewrite (Write_allowed _ _ _ _ Hw Ha). cbn [backend w req trace].
    set (buf' := Multipart.fill buf chunk).
    assert (length buf' = length buf) as Hb'
      by (subst buf'; apply length_fill; lia).
    rewrite IH.
    + cbn [Multipart.data Multipart.off backend w req trace Http.header Http.wroteHeader
           Http.body].
      do 2 f_equal. f_equal. rewrite <- app_assoc. f_equal.
      rewrite <- drop_drop, D. fold l. subst chunk.
      destruct (Nat.le_gt_cases (length buf) (length l)) as [Hle|Hgt].
      * replace (S m) with (length buf) by lia. apply take_drop.
      * replace (S m) with (length l) by lia. rewrite drop_all, app_nil_r.
        apply take_ge. lia.
    + exact Hw.
    + lia.
    + cbn [Multipart.data Multipart.off].
      assert (length (drop (Multipart.off reader) (Multipart.data reader)) = length l)
        as Hd by now rewrite D.
      rewrite length_drop in Hd. lia.
Qed.

(** A decoded string held hexadecimal digits only, so no dot. *)
Lemma DecodeString_absent_dot (s : string) :
  ∀ r, Hex.DecodeString s = Some r → Strings.absent Strings.dot s = true.
Proof.
  induction s as [| |a b s IH] using string_pair_ind; intros r;
    cbn [Hex.DecodeString Strings.absent].
  - reflexivity.
  - discriminate.
  - destruct (Hex.fromHexChar a) as [hi|] eqn:Ea; [|discriminate].
    destruct (Hex.fromHexChar b) as [lo|] eqn:Eb; [|discriminate].
    destruct (Hex.DecodeString s) as [r'|]; [|discriminate]. intros _.
    rewrite (IH r' eq_refl), andb_true_r.
    destruct (Ascii.eqb_spec a Strings.dot) as [->|_]; [discriminate Ea|].
    destruct (Ascii.eqb_spec b Strings.dot) as [->|_]; [discriminate Eb|].
    reflexivity.
Qed.

(** X26.  What the first revision delivers: for a stored entry whose
    file holds [bytes], with a send buffer of at least one byte, the
    handler answers 200 and the body is exactly [bytes].  The stored
    content type is set on the header map only after the status line was
    written: the headers that go out are the ones from before. *)
Theorem RouterOld_get_sends_exactly_the_file s entry bytes :
  let s1 := RouterOld.afterOutgoing h s in
  let seg := default EmptyString (Vars (req s1) !! "id") in
  Storages.LoadStorageEntry seg (backend s1) = (true, None, entry) →
  Storages.files (backend s1) !! Storages.path_of (RouterOld.Configuration h) entry
  = Some bytes →
  0 < RouterOld.BufferSize h →
  Http.wroteHeader (w s1) = None →
  ∃ s',
    RouterOld.handleGetRequest h s = (Ret tt, s')
    ∧ Http.status (w s') = Some Http.StatusOK
    ∧ Http.body (w s') = Http.body (w s1) ++ bytes
    ∧ Http.sentHeader (w s') = Some (Http.header (w s1))
    ∧ Http.Header_Get "Content-Type" (Http.header (w s')) = Storages.GetContentType entry
    ∧ backend s' = backend s1.
Proof.
  intros s1 seg Hl Hf Hpos Hw.
  unfold RouterOld.handleGetRequest. run_monad.
  rewrite RouterOld_callOutgoingFunction_run. fold s1. cbn [req]. fold seg.
  unfold Router.LoadStorageEntry, RouterOld.GetReader. run_monad.
  rewrite Hl. cbv beta iota. cbn [negb]. run_monad.
  rewrite (GetReadSeeker_of_file _ _ _ _ Hf).
  destruct (RouterOld.BufferSize h <? 0) eqn:Eb; [apply Z.ltb_lt in Eb; lia|].
  run_monad.
  set (w2 := Http.setHeader _ (Http.WriteHeader Http.StatusOK (w s1))).
  assert (Http.wroteHeader w2 = Some (Http.StatusOK, Http.header (w s1))) as Hw2.
  { subst w2. cbn [Http.setHeader Http.wroteHeader]. unfold Http.WriteHeader.
    now rewrite Hw. }
  rewrite (RouterOld_sendLoop_sends _ _ _ _ Http.StatusOK (Http.header (w s1)));
    [|exact Hw2|reflexivity|rewrite length_zeros; lia|cbn [Multipart.data Multipart.off]; lia].
  eexists. split; [reflexivity|]. cbn [w backend Http.body Http.header Http.wroteHeader
    Multipart.data Multipart.off drop].
  unfold Http.status, Http.sentHeader. cbn [Http.wroteHeader]. rewrite Hw2.
  split; [reflexivity|]. split.
  { subst w2. cbn [Http.setHeader Http.body]. now rewrite body_WriteHeader. }
  split; [reflexivity|]. split; [|reflexivity].
  subst w2. cbn [Http.setHeader Http.header]. apply Header_Get_Set.
Qed.

(** X27.  The first revision looks the path segment up as it is: a
    segment that holds a dot, such as an id followed by a file ending, is
    no object id and is answered 404 without a query of the database. *)
Theorem RouterOld_get_of_segment_with_dot_is_not_found s :
  let s1 := RouterOld.afterOutgoing h s in
  let seg := default EmptyString (Vars (req s1) !! "id") in
  Strings.absent Strings.dot seg = false →
  Http.wroteHeader (w s1) = None →
  Bson.IsObjectIdHex seg = false
  ∧ ∃ s',
      RouterOld.handleGetRequest h s = (Ret tt, s')
      ∧ Http.status (w s') = Some Http.StatusNotFound
      ∧ backend s' = backend s1
      ∧ trace s' = [EvLoadStorageEntry seg] ++ trace s1.
Proof.
  intros s1 seg Hdot Hw.
  assert (Bson.IsObjectIdHex seg = false) as Hno.
  { unfold Bson.IsObjectIdHex. destruct (negb (Strings.len seg =? 24)); [reflexivity|].
    destruct (Hex.DecodeString seg) as [r|] eqn:Ed; [|reflexivity].
    apply DecodeString_absent_dot in Ed. congruence. }
  split; [exact Hno|].
  unfold RouterOld.handleGetRequest. run_monad.
  rewrite RouterOld_callOutgoingFunction_run. fold s1. cbn [req]. fold seg.
  unfold Router.LoadStorageEntry. run_monad.
  assert (Storages.LoadStorageEntry seg (backend s1)
          = (false, None, Storages.emptyEntry)) as ->.
  { unfold Storages.LoadStorageEntry, Bson.ObjectIdHex. now rewrite Hno. }
  cbv beta iota. cbn [negb]. run_monad.
  eexists. split; [reflexivity|]. cbn [w backend trace].
  split; [|split; reflexivity]. unfold Http.NotFound. now apply status_Error.
Qed.

End OldGet.

(** ** The upload handler of the first revision *)
Section OldUpload.
Import Handler.

Variable NewObjectId : nat → Bson.ObjectId.
Variable ParseMediaType : string → option (gmap string string).
Variable NewReader : Request → string → list RouterOld.NextPartResult.
Variable h : RouterOld.ShareXHandler.

(** When every part can be read, the loop over the parts returns, and
    the writer's file, which held [old], holds [old] followed by the
    bytes of the parts, one after the other. *)
Lemma copyParts_writes part parts writer s old :
  Storages.files (backend s) !! writer = Some old →
  Forall (λ part, is_Some (RouterOld.partBody part)) (part :: parts) →
  ∃ t, RouterOld.copyParts part (RouterOld.PartOk <$> parts) writer s
       = (Ret tt,
          mkState
            (Storages.setFiles
               (<[writer := old ++ concat (RouterOld.bodies (part :: parts))]>
                  (Storages.files (backend s)))
               (backend s))
            (w s) (req s) (t ++ trace s)).
Proof.
  revert part s old. induction parts as [|part' parts IH]; intros part s old Hold Hall;
    apply Forall_cons in Hall as [[bytes Hb] Hall];
    cbn [RouterOld.copyParts fmap list_fmap]; rewrite Hb;
    unfold Router.writerWrite; run_monad.
  - exists [EvWriterWrite (length bytes)]. unfold RouterOld.bodies. cbn [fmap list_fmap concat].
    rewrite Hb. cbn [default]. unfold Storages.Writer_Write. rewrite Hold.
    cbn [default]. now rewrite app_nil_r.
  - match goal with |- ∃ t, RouterOld.copyParts part' _ writer ?s1 = _ =>
      destruct (IH part' s1 (old ++ bytes)) as (t & E) end.
    { cbn [backend]. unfold Storages.Writer_Write. cbn [Storages.files Storages.setFiles].
      rewrite lookup_insert_eq, Hold. reflexivity. }
    { exact Hall. }
    exists (t ++ [EvWriterWrite (length bytes)]). rewrite E.
    cbn [backend w req trace]. unfold Storages.Writer_Write, Storages.setFiles.
    cbn [Storages.files Storages.collection Storages.reachable Storages.creatable
         Storages.issued Storages.clock].
    rewrite Hold. cbn [default]. unfold id. rewrite insert_insert_eq.
    unfold RouterOld.bodies. cbn [fmap list_fmap concat]. rewrite Hb. cbn [default].
    rewrite <- !app_assoc. reflexivity.
Qed.

(** X28.  In the first revision a POST whose Content-Type does not parse
    as a media type is answered 400, and the storage is not touched: no
    entry is made or saved, no call on the storage is made. *)
Theorem RouterOld_upload_of_unparseable_content_type_is_bad_request fuel s :
  let s1 := RouterOld.afterOutgoing h s in
  ParseMediaType (Http.Header_Get "Content-Type" (Header (req s1))) = None →
  Http.wroteHeader (w s1) = None →
  ∃ s',
    RouterOld.handleUploadRequest NewObjectId ParseMediaType NewReader h fuel s
    = (Ret tt, s')
    ∧ Http.status (w s') = Some Http.StatusBadRequest
    ∧ backend s' = backend s
    ∧ trace s' = trace s1.
Proof.
  intros s1 Hp Hw. unfold RouterOld.handleUploadRequest. run_monad.
  rewrite RouterOld_callOutgoingFunction_run. fold s1. cbn [req]. rewrite Hp.
  run_monad. eexists. split; [reflexivity|]. cbn [w backend trace].
  split; [now apply status_Error|]. split; [|reflexivity].
  subst s1. apply RouterOld_backend_afterOutgoing.
Qed.

(** X29.  An upload that succeeds in the first revision: when the
    Content-Type parses, every part of the body can be read, [Save]
    stores the entry and its file can be created, the handler answers
    200; the entry's file holds the bytes of all parts one after the
    other; the document holds the file name and the content type of the
    first part; and the URL in the body is
    http://localhost:8080/sharex/ followed by the id, whatever the
    handler is configured with. *)
Theorem RouterOld_upload_stores_the_parts_one_after_the_other
    fuel s params part parts entry b1 :
  let s1 := RouterOld.afterOutgoing h s in
  let b := backend s in
  ParseMediaType (Http.Header_Get "Content-Type" (Header (req s1))) = Some params →
  NewReader (req s1) (default EmptyString (params !! "boundary"))
  = RouterOld.PartOk <$> (part :: parts) →
  Forall (λ part, is_Some (RouterOld.partBody part)) (part :: parts) →
  Storages.Save NewObjectId fuel (Storages.NewStorageEntry b) b = Some (None, entry, b1) →
  Storages.creatable b = true →
  Http.wroteHeader (w s1) = None →
  ∃ s',
    RouterOld.handleUploadRequest NewObjectId ParseMediaType NewReader h fuel s
    = (Ret tt, s')
    ∧ Http.status (w s') = Some Http.StatusOK
    ∧ Http.body (w s')
      = Http.body (w s1)
        ++ list_byte_of_string ("http://localhost:8080/sharex/" +:+ Storages.GetId entry)
    ∧ Storages.files (backend s') !! Storages.path_of (RouterOld.Configuration h) entry
      = Some (concat (RouterOld.bodies (part :: parts)))
    ∧ Storages.collection (backend s')
      = Storages.collection b
        ++ [Storages.SetFilename (RouterOld.FileName part)
              (Storages.SetContentType (RouterOld.partContentType part) entry)].
Proof.
  intros s1 b Hp Hparts Hall HSave Hcre Hw.
  assert (backend s1 = b) as Hb by (subst s1 b; apply RouterOld_backend_afterOutgoing).
  unfold RouterOld.handleUploadRequest. run_monad.
  rewrite RouterOld_callOutgoingFunction_run. fold s1. cbn [req]. rewrite Hp, Hparts.
  destruct (Save_shape _ _ _ _ _ _ HSave) as (id & n & He & Hfresh & Hreach & Hb1).
  unfold Router.NewStorageEntry, Router.Save. run_monad. rewrite Hb, HSave.
  run_monad. unfold RouterOld.GetWriter. run_monad. unfold Storages.GetWriter.
  assert (Storages.creatable b1 = true) as Hcre1 by (rewrite Hb1; exact Hcre).
  rewrite Hcre1. run_monad. unfold defer. cbn [fmap list_fmap].
  set (writer := Storages.path_of (RouterOld.Configuration h) entry).
  match goal with |- context [RouterOld.copyParts part ?rest writer ?st] =>
    destruct (copyParts_writes part parts writer st []) as (t & EL) end.
  { cbn [backend Storages.files Storages.setFiles]. apply lookup_insert_eq. }
  { exact Hall. }
  change (list_fmap RouterOld.Part RouterOld.NextPartResult RouterOld.PartOk parts)
    with (RouterOld.PartOk <$> parts).
  rewrite EL. clear EL. cbn [app].
  unfold Router.Update. run_monad. unfold Storages.Update, Storages.UpdateId.
  cbn [Storages.reachable Storages.collection Storages.files Storages.setFiles
       Storages.SetFilename Storages.SetContentType Storages.Id].
  assert (Storages.reachable b1 = true) as Hr1 by (rewrite Hb1; exact Hreach).
  assert (Storages.collection b1 = Storages.collection b ++ [entry]) as Hc1
    by (rewrite Hb1; reflexivity).
  rewrite Hr1, Hc1.
  assert (Storages.Id entry ∉ Storages.Id <$> Storages.collection b) as Hf2
    by (rewrite He; exact Hfresh).
  rewrite (replace_first_last (Storages.Id entry) _ (Storages.collection b) entry Hf2 eq_refl).
  run_monad. unfold write. cbn [w].
  assert (Http.wroteHeader (Http.WriteHeader 200 (w s1)) = Some (200, Http.header (w s1)))
    as Hw2 by (unfold Http.WriteHeader; now rewrite Hw).
  unfold Http.Write.
  rewrite (WriteHeader_written Http.StatusOK _ _ Hw2), Hw2.
  cbn [Http.bodyAllowedForStatus].
  eexists. split; [reflexivity|]. unfold Router.writerClose. cbn [w backend].
  split; [reflexivity|]. split.
  { cbn [Http.body]. now rewrite body_WriteHeader. }
  split; [|reflexivity].
  cbn [Storages.files Storages.setCollection Storages.setFiles].
  apply lookup_insert_eq.
Qed.

End OldUpload.

(** ** Runs of the storage and of the handlers on concrete data *)
Section MoreRuns.
Import Handler Examples.

(** A save into the database that holds [storedEntry]. *)
Lemma saved_entry_is_loaded_witness :
  let e' := Storages.SetId (testId 1) (Storages.NewStorageEntry oneDocument) in
  let b' := Storages.mkBackend [storedEntry; e'] true ∅ true 2 1000 in
  Storages.LoadStorageEntry (Storages.GetId e') b' = (true, None, e')
  ∧ (∀ x, x ∈ Storages.collection oneDocument → String.length (Storages.Id x) = 12%nat →
          Storages.LoadStorageEntry (Storages.GetId x) b' = (true, None, x)).
Proof.
  apply (saved_entry_is_loaded_under_its_id testId 5
           (Storages.NewStorageEntry oneDocument) oneDocument).
  - apply NoDup_singleton.
  - reflexivity.
  - reflexivity.
Defined.

(** An update of the stored document with another file name. *)
Lemma Update_replaces_witness :
  let e := Storages.SetFilename "b.txt" storedEntry in
  (Storages.Id e ∈ Storages.ids oneDocument →
     ∃ b', Storages.Update e oneDocument = (None, b')
           ∧ Storages.ids b' = Storages.ids oneDocument
           ∧ Storages.files b' = Storages.files oneDocument
           ∧ (String.length (Storages.Id e) = 12%nat →
              Storages.LoadStorageEntry (Storages.GetId e) b' = (true, None, e)))
  ∧ (Storages.Id e ∉ Storages.ids oneDocument →
     Storages.Update e oneDocument = (Some Storages.ErrNotFound, oneDocument)).
Proof.
  apply (Update_replaces_the_stored_document (Storages.SetFilename "b.txt" storedEntry)
           oneDocument).
  - reflexivity.
  - apply NoDup_singleton.
Defined.

(** The deletion of the stored document, whose file stays. *)
Lemma Delete_removes_witness :
  (Storages.Id storedEntry ∈ Storages.ids oneFile →
     ∃ b', Storages.Delete storedEntry oneFile = (None, b')
           ∧ Storages.LoadStorageEntry (Storages.GetId storedEntry) b'
             = (false, None, Storages.emptyEntry)
           ∧ (∀ x, x ∈ Storages.collection b'
                   ↔ x ∈ Storages.collection oneFile ∧ Storages.Id x ≠ Storages.Id storedEntry)
           ∧ NoDup (Storages.ids b')
           ∧ Storages.files b' = Storages.files oneFile)
  ∧ (Storages.Id storedEntry ∉ Storages.ids oneFile →
     Storages.Delete storedEntry oneFile = (Some Storages.ErrNotFound, oneFile)).
Proof.
  apply (Delete_removes_the_document_only storedEntry oneFile).
  - reflexivity.
  - apply NoDup_singleton.
Defined.

(** Two writes into the file of the stored entry, which held three bytes. *)
Lemma written_bytes_are_read_back_witness :
  let ps := [["X"%byte]; ["Y"%byte; "Z"%byte]] in
  ∃ writer b1,
    Storages.GetWriter configuration storedEntry oneFile = (inr writer, b1)
    ∧ Storages.GetReadSeeker configuration storedEntry
        (foldl (λ b p, Storages.Writer_Write writer p b) b1 ps)
      = inr (Multipart.mkFile (concat ps) 0 true)
    ∧ Storages.collection (foldl (λ b p, Storages.Writer_Write writer p b) b1 ps)
      = Storages.collection oneFile.
Proof.
  apply (written_bytes_are_read_back configuration storedEntry oneFile
           [["X"%byte]; ["Y"%byte; "Z"%byte]]).
  reflexivity.
Defined.

(** A save whose first id is taken: the second one is assigned. *)
Lemma Save_assigns_the_first_free_id_witness :
  let b := Storages.mkBackend [Storages.SetId (unaryId 0) storedEntry] true ∅ true 0 1000 in
  let e' := Storages.SetId (unaryId 1) storedEntry in
  let b' := Storages.mkBackend [Storages.SetId (unaryId 0) storedEntry; e'] true ∅ true 2 1000 in
  @None Storages.error = None
  ∧ ∃ k, (k < 3)%nat
         ∧ e' = Storages.SetId (unaryId (Storages.issued b + k)) storedEntry
         ∧ (unaryId (Storages.issued b + k) ∉ Storages.ids b)
         ∧ (∀ j, (j < k)%nat → unaryId (Storages.issued b + j) ∈ Storages.ids b)
         ∧ b' = Storages.setCollection (Storages.collection b ++ [e'])
                  (Storages.setIssued (S (Storages.issued b + k)) b).
Proof.
  apply (Save_assigns_the_first_free_id unaryId 3 storedEntry
           (Storages.mkBackend [Storages.SetId (unaryId 0) storedEntry] true ∅ true 0 1000)).
  - reflexivity.
  - reflexivity.
Defined.

(** The id of the stored entry, written with a capital digit. *)
Lemma LoadStorageEntry_ignores_letter_case_witness :
  Storages.LoadStorageEntry "0a0000000000000000000000" oneDocument
  = Storages.LoadStorageEntry "0A0000000000000000000000" oneDocument.
Proof.
  apply (LoadStorageEntry_ignores_letter_case "0a0000000000000000000000"
           "0A0000000000000000000000" oneDocument).
  reflexivity.
Defined.

(** The hit of the stored entry. *)
Lemma LoadStorageEntry_hit_witness :
  Storages.reachable oneDocument = true
  ∧ storedEntry ∈ Storages.collection oneDocument
  ∧ String.length firstId = 24%nat
  ∧ Strings.EqualFold firstId (Storages.GetId storedEntry) = true.
Proof.
  apply (LoadStorageEntry_hit_is_the_entry_of_that_id firstId oneDocument storedEntry).
  reflexivity.
Defined.

(** An upload whose file was spilled to disk. *)
Lemma upload_of_file_spilled_to_disk_witness :
  let s := start emptyBackend (uploadFromDisk "a.txt" ["A"%byte]) in
  let s2 := Router.afterOutgoing handler (Router.afterOutgoing handler s) in
  ∃ s', Router.handleUploadRequest testId detect handler 5 s = (Panic, s')
        ∧ backend s' = backend s
        ∧ trace s' = EvParseMultipartForm :: trace s2.
Proof.
  apply (upload_of_file_spilled_to_disk_panics testId detect handler 5
           (start emptyBackend (uploadFromDisk "a.txt" ["A"%byte]))
           {[ "file" := [Multipart.mkFileHeader "a.txt" ["A"%byte] true] ]}
           (Multipart.mkFileHeader "a.txt" ["A"%byte] true) []); reflexivity.
Defined.

(** An upload whose form has no file. *)
Lemma upload_without_file_field_witness :
  let s := start emptyBackend emptyForm in
  let s2 := Router.afterOutgoing handler (Router.afterOutgoing handler s) in
  ∃ s', Router.handleUploadRequest testId detect handler 5 s = (Ret tt, s')
        ∧ Http.status (w s') = Some Http.StatusInternalServerError
        ∧ backend s' = backend s
        ∧ trace s' = EvParseMultipartForm :: trace s2.
Proof.
  apply (upload_without_file_field_is_internal_error testId detect handler 5
           (start emptyBackend emptyForm) ∅).
  - reflexivity.
  - left. reflexivity.
  - reflexivity.
Defined.

(** An upload while the database does not answer. *)
Lemma upload_with_database_down_witness :
  let s := start downBackend (uploadOf "a.txt" ["A"%byte]) in
  let s2 := Router.afterOutgoing handler (Router.afterOutgoing handler s) in
  ∃ s', Router.handleUploadRequest testId detect handler 5 s = (Ret tt, s')
        ∧ Http.status (w s') = Some Http.StatusInternalServerError
        ∧ Storages.collection (backend s') = Storages.collection (backend s)
        ∧ Storages.files (backend s') = Storages.files (backend s)
        ∧ trace s' = [EvSave; EvNewStorageEntry; EvParseMultipartForm] ++ trace s2.
Proof.
  apply (upload_with_database_down_stores_nothing testId detect handler 4
           (start downBackend (uploadOf "a.txt" ["A"%byte]))
           {[ "file" := [Multipart.mkFileHeader "a.txt" ["A"%byte] false] ]}
           (Multipart.mkFileHeader "a.txt" ["A"%byte] false) []); reflexivity.
Defined.

(** An upload into a file folder that cannot be written. *)
Lemma upload_into_unwritable_folder_witness :
  let s := start readOnlyBackend (uploadOf "a.txt" ["A"%byte]) in
  let s2 := Router.afterOutgoing handler (Router.afterOutgoing handler s) in
  let entry := Storages.SetId (testId 0) (Storages.NewStorageEntry readOnlyBackend) in
  ∃ s', Router.handleUploadRequest testId detect handler 5 s = (Ret tt, s')
        ∧ Http.status (w s') = Some Http.StatusInternalServerError
        ∧ Storages.collection (backend s') = Storages.collection (backend s) ++ [entry]
        ∧ Storages.Filename entry = EmptyString
        ∧ Storages.ContentType entry = EmptyString
        ∧ Storages.files (backend s') = Storages.files (backend s)
        ∧ trace s' = [EvGetWriter; EvSave; EvNewStorageEntry; EvParseMultipartForm]
                     ++ trace s2.
Proof.
  apply (upload_into_unwritable_folder_leaves_the_document testId detect handler 5
           (start readOnlyBackend (uploadOf "a.txt" ["A"%byte]))
           {[ "file" := [Multipart.mkFileHeader "a.txt" ["A"%byte] false] ]}
           (Multipart.mkFileHeader "a.txt" ["A"%byte] false) []
           (Storages.SetId (testId 0) (Storages.NewStorageEntry readOnlyBackend))
           (Storages.mkBackend
              [Storages.SetId (testId 0) (Storages.NewStorageEntry readOnlyBackend)]
              true ∅ false 1 1000)); reflexivity.
Defined.

(** The upload of a one-byte file named a.txt. *)
Lemma upload_stores_the_file_zero_padded_witness :
  let s := start emptyBackend (uploadOf "a.txt" ["A"%byte]) in
  let s2 := Router.afterOutgoing handler (Router.afterOutgoing handler s) in
  let fh := Multipart.mkFileHeader "a.txt" ["A"%byte] false in
  let entry := Storages.SetId (testId 0) (Storages.NewStorageEntry emptyBackend) in
  ∃ s', Router.handleUploadRequest testId detect handler 5 s = (Ret tt, s')
        ∧ Http.status (w s') = Some Http.StatusOK
        ∧ Http.body (w s')
          = Http.body (w s2)
            ++ list_byte_of_string
                 (Router.ProtocolHost handler +:+ Storages.GetId entry
                  +:+ String Strings.dot "txt")
        ∧ Storages.files (backend s') !! Storages.path_of (Router.Configuration handler) entry
          = Some (Multipart.content fh
                  ++ replicate ((Router.chunkSize
                                 - length (Multipart.content fh) mod Router.chunkSize)
                                mod Router.chunkSize) x00)
        ∧ Storages.collection (backend s')
          = Storages.collection (backend s)
            ++ [Storages.SetFilename (Multipart.Filename fh)
                  (Storages.SetContentType
                     (detect
                        (Multipart.fill (Multipart.zeros Router.sniffLen)
                           (take Router.sniffLen (Multipart.content fh))))
                     entry)].
Proof.
  apply (upload_stores_the_file_zero_padded_and_answers_its_url testId detect handler 5
           (start emptyBackend (uploadOf "a.txt" ["A"%byte]))
           {[ "file" := [Multipart.mkFileHeader "a.txt" ["A"%byte] false] ]}
           (Multipart.mkFileHeader "a.txt" ["A"%byte] false) []
           (Storages.SetId (testId 0) (Storages.NewStorageEntry emptyBackend))
           (Storages.mkBackend
              [Storages.SetId (testId 0) (Storages.NewStorageEntry emptyBackend)]
              true ∅ true 1 1000)
           "a" "txt"); (reflexivity || discriminate).
Defined.

(** A GET of the stored entry, whose file holds three bytes. *)
Lemma get_sends_the_file_in_whole_buffers_witness :
  let s := start oneFile (getOf (firstId +:+ ".txt") EmptyString) in
  let s1 := Router.afterOutgoing handler s in
  let n := Z.to_nat (Router.BufferSize handler) in
  let bytes := ["A"%byte; "B"%byte; "C"%byte] in
  ∃ s' pad,
    Router.handleGetRequest etag handler s = (Ret tt, s')
    ∧ Http.status (w s') = Some Http.StatusOK
    ∧ Http.body (w s') = Http.body (w s1) ++ bytes ++ pad
    ∧ length pad = ((n - length bytes mod n) mod n)%nat
    ∧ (pad = [] ↔ (length bytes mod n = 0)%nat)
    ∧ backend s' = backend s1
    ∧ trace s' = [EvGetReader; EvLoadStorageEntry firstId] ++ trace s1.
Proof.
  apply (get_sends_the_file_in_whole_buffers etag handler
           (start oneFile (getOf (firstId +:+ ".txt") EmptyString))
           firstId storedEntry ["A"%byte; "B"%byte; "C"%byte]).
  - reflexivity.
  - reflexivity.
  - vm_compute. discriminate.
  - reflexivity.
  - reflexivity.
  - reflexivity.
Defined.

(** The same GET with a [BufferSize] of 0. *)
Lemma get_with_no_send_buffer_witness :
  let s := start oneFile (getOf (firstId +:+ ".txt") EmptyString) in
  let s1 := Router.afterOutgoing handlerWithoutBuffer s in
  ∃ s',
    Router.handleGetRequest etag handlerWithoutBuffer s
    = (if Router.BufferSize handlerWithoutBuffer <? 0 then Panic else Ret tt, s')
    ∧ Http.status (w s') = Some Http.StatusOK
    ∧ Http.body (w s') = Http.body (w s1).
Proof.
  apply (get_with_no_send_buffer_sends_no_byte etag handlerWithoutBuffer
           (start oneFile (getOf (firstId +:+ ".txt") EmptyString))
           firstId storedEntry ["A"%byte; "B"%byte; "C"%byte]).
  - reflexivity.
  - reflexivity.
  - vm_compute. discriminate.
  - reflexivity.
  - discriminate.
  - reflexivity.
Defined.

(** A GET of the stored entry when its file is missing, and when the
    database does not answer. *)
Lemma get_failures_witness :
  let s := start oneDocument (getOf (firstId +:+ ".txt") EmptyString) in
  let s1 := Router.afterOutgoing handler s in
  (∀ oid, Bson.ObjectIdHex firstId = Some oid →
          Storages.reachable (backend s1) = false →
          ∃ s', Router.handleGetRequest etag handler s = (Panic, s')
                ∧ Http.status (w s') = Some Http.StatusInternalServerError
                ∧ trace s' = [EvLoadStorageEntry firstId] ++ trace s1)
  ∧ (∀ entry,
       Storages.LoadStorageEntry firstId (backend s1) = (true, None, entry) →
       Http.Header_Get "If-None-Match" (Header (req s1)) ≠ etag entry →
       Storages.files (backend s1) !! Storages.path_of (Router.Configuration handler) entry
       = None →
       ∃ s', Router.handleGetRequest etag handler s = (Panic, s')
             ∧ Http.status (w s') = Some Http.StatusInternalServerError
             ∧ trace s' = [EvGetReader; EvLoadStorageEntry firstId] ++ trace s1).
Proof.
  apply (get_failures_answer_500_and_panic etag handler
           (start oneDocument (getOf (firstId +:+ ".txt") EmptyString)) firstId).
  - reflexivity.
  - reflexivity.
Defined.

(** An upload with the generator [unaryId], which never repeats itself. *)
Lemma handleUploadRequest_ends_witness :
  (Router.handleUploadRequest unaryId detect handler 5
     (start emptyBackend (uploadOf "a.txt" ["A"%byte]))).1 ≠ Running.
Proof.
  apply (handleUploadRequest_ends unaryId detect handler 5
           (start emptyBackend (uploadOf "a.txt" ["A"%byte]))).
  - exact unaryId_inj.
  - cbn. lia.
Defined.

(** The upload of a one-byte file named a.txt, and the GET of its URL. *)
Lemma uploaded_file_is_served_witness :
  let up := Router.handleUploadRequest testId detect handler 5
              (start emptyBackend (uploadOf "a.txt" ["A"%byte])) in
  let g := mkState (backend up.2) Http.newResponseWriter
             (getOf (firstId +:+ ".txt") EmptyString) [] in
  let g1 := Router.afterOutgoing handler g in
  let n := Z.to_nat (Router.BufferSize handler) in
  let content := ["A"%byte] in
  let stored := content
                ++ replicate ((Router.chunkSize - length content mod Router.chunkSize)
                              mod Router.chunkSize) x00 in
  ∃ g' pad,
    Router.handleGetRequest etag handler g = (Ret tt, g')
    ∧ Http.status (w g') = Some Http.StatusOK
    ∧ Http.body (w g') = Http.body (w g1) ++ stored ++ pad
    ∧ length pad = ((n - length stored mod n) mod n)%nat.
Proof.
  apply (uploaded_file_is_served_under_its_url testId detect etag handler 5
           (start emptyBackend (uploadOf "a.txt" ["A"%byte]))
           {[ "file" := [Multipart.mkFileHeader "a.txt" ["A"%byte] false] ]}
           (Multipart.mkFileHeader "a.txt" ["A"%byte] false) []
           (Storages.SetId (testId 0) (Storages.NewStorageEntry emptyBackend))
           (Storages.mkBackend
              [Storages.SetId (testId 0) (Storages.NewStorageEntry emptyBackend)]
              true ∅ true 1 1000)
           "a" "txt"
           Http.newResponseWriter (getOf (firstId +:+ ".txt") EmptyString) []).
  - reflexivity.
  - reflexivity.
  - reflexivity.
  - discriminate.
  - reflexivity.
  - reflexivity.
  - reflexivity.
  - reflexivity.
  - reflexivity.
  - apply NoDup_nil_2.
  - reflexivity.
  - reflexivity.
  - vm_compute. discriminate.
  - reflexivity.
  - reflexivity.
Defined.

(** An upload, in the later revision, of a file of five bytes that was
    spilled to disk and has no dot in its name, with a receive buffer of
    four bytes. *)
Lemma RouterRev_upload_stores_exactly_witness :
  let h := revHandler 4 in
  let s := start emptyBackend
             (uploadFromDisk "README" ["A"%byte; "B"%byte; "C"%byte; "D"%byte; "E"%byte]) in
  let s1 := RouterRev.afterOutgoing h s in
  let fh := Multipart.mkFileHeader "README"
              ["A"%byte; "B"%byte; "C"%byte; "D"%byte; "E"%byte] true in
  let entry := Storages.SetId (testId 0) (Storages.NewStorageEntry emptyBackend) in
  ∃ s' ending,
    RouterRev.handleUploadRequest testId detect h 5 s = (Ret tt, s')
    ∧ RouterRev.fileEnding (Multipart.Filename fh) = Some ending
    ∧ (Strings.absent Strings.dot (Multipart.Filename fh) = true → ending = EmptyString)
    ∧ Http.status (w s') = Some Http.StatusOK
    ∧ Http.body (w s')
      = Http.body (w s1)
        ++ list_byte_of_string
             (RouterRev.ProtocolHost h +:+ Storages.GetId entry +:+ ending)
    ∧ Storages.files (backend s') !! Storages.path_of (RouterRev.Configuration h) entry
      = Some (Multipart.content fh)
    ∧ Storages.collection (backend s')
      = Storages.collection (backend s)
        ++ [Storages.SetFilename (Multipart.Filename fh)
              (Storages.SetContentType
                 (detect
                    (Multipart.fill (Multipart.zeros Router.sniffLen)
                       (take Router.sniffLen (Multipart.content fh))))
                 entry)].
Proof.
  apply (RouterRev_upload_stores_exactly_the_uploaded_bytes testId detect (revHandler 4) 5
           (start emptyBackend
              (uploadFromDisk "README" ["A"%byte; "B"%byte; "C"%byte; "D"%byte; "E"%byte]))
           {[ "file" := [Multipart.mkFileHeader "README"
                           ["A"%byte; "B"%byte; "C"%byte; "D"%byte; "E"%byte] true] ]}
           (Multipart.mkFileHeader "README"
              ["A"%byte; "B"%byte; "C"%byte; "D"%byte; "E"%byte] true) []
           (Storages.SetId (testId 0) (Storages.NewStorageEntry emptyBackend))
           (Storages.mkBackend
              [Storages.SetId (testId 0) (Storages.NewStorageEntry emptyBackend)]
              true ∅ true 1 1000)); (reflexivity || discriminate).
Defined.

(** The upload of a one-byte file with a [ReceiveBufferSize] of 0. *)
Lemma RouterRev_upload_without_receive_buffer_witness :
  let h := revHandler 0 in
  let s := start emptyBackend (uploadOf "a.txt" ["A"%byte]) in
  let s1 := RouterRev.afterOutgoing h s in
  let entry := Storages.SetId (testId 0) (Storages.NewStorageEntry emptyBackend) in
  (RouterRev.ReceiveBufferSize h = 0 →
   ∃ s' ending,
     RouterRev.handleUploadRequest testId detect h 5 s = (Ret tt, s')
     ∧ Http.status (w s') = Some Http.StatusOK
     ∧ Http.body (w s')
       = Http.body (w s1)
         ++ list_byte_of_string
              (RouterRev.ProtocolHost h +:+ Storages.GetId entry +:+ ending)
     ∧ Storages.files (backend s') !! Storages.path_of (RouterRev.Configuration h) entry
       = Some [])
  ∧ (RouterRev.ReceiveBufferSize h < 0 →
     ∃ s',
       RouterRev.handleUploadRequest testId detect h 5 s = (Panic, s')
       ∧ w s' = w s1
       ∧ Storages.files (backend s') !! Storages.path_of (RouterRev.Configuration h) entry
         = Some []
       ∧ Storages.collection (backend s') = Storages.collection (backend s) ++ [entry]
       ∧ trace s' = [EvWriterClose; EvGetWriter; EvSave; EvNewStorageEntry;
                     EvParseMultipartForm] ++ trace s1).
Proof.
  apply (RouterRev_upload_without_receive_buffer testId detect (revHandler 0) 5
           (start emptyBackend (uploadOf "a.txt" ["A"%byte]))
           {[ "file" := [Multipart.mkFileHeader "a.txt" ["A"%byte] false] ]}
           (Multipart.mkFileHeader "a.txt" ["A"%byte] false) []
           (Storages.SetId (testId 0) (Storages.NewStorageEntry emptyBackend))
           (Storages.mkBackend
              [Storages.SetId (testId 0) (Storages.NewStorageEntry emptyBackend)]
              true ∅ true 1 1000)); (reflexivity || discriminate).
Defined.

(** A GET, in the later revision, of the bare id of the stored entry. *)
Lemma RouterRev_get_hands_the_stored_file_witness :
  let h := revHandler 4 in
  let s := start oneFile (getOf firstId EmptyString) in
  let s1 := RouterRev.afterOutgoing h s in
  ∃ w2,
    RouterRev.handleGetRequest serve h s
    = (Ret tt,
       mkState (backend s1)
         (serve w2 (req s1) EmptyString (Storages.LastModified storedEntry)
            (Multipart.mkFile ["A"%byte; "B"%byte; "C"%byte] 0 true))
         (req s1) ([EvGetReader; EvLoadStorageEntry firstId] ++ trace s1))
    ∧ Http.wroteHeader w2 = Http.wroteHeader (w s1)
    ∧ Http.body w2 = Http.body (w s1)
    ∧ Http.Header_Get "Content-Disposition" (Http.header w2)
      = Router.dispositionValue
          (if Router.whitelisted (RouterRev.WhitelistedContentTypes h)
                (Storages.GetContentType storedEntry)
           then "inline" else "attachment")
          (Storages.GetFilename storedEntry)
    ∧ Http.Header_Get "Content-Type" (Http.header w2)
      = (if Router.whitelisted (RouterRev.WhitelistedContentTypes h)
              (Storages.GetContentType storedEntry)
         then Http.Header_Get "Content-Type" (Http.header (w s1))
         else Storages.GetContentType storedEntry)
    ∧ Http.Header_Get "ETag" (Http.header w2)
      = Http.Header_Get "ETag" (Http.header (w s1)).
Proof.
  apply (RouterRev_get_hands_the_stored_file_to_ServeContent serve (revHandler 4)
           (start oneFile (getOf firstId EmptyString))
           firstId storedEntry ["A"%byte; "B"%byte; "C"%byte]); reflexivity.
Defined.

(** A GET, in the later revision, of a segment that is no object id. *)
Lemma RouterRev_get_failures_witness :
  let h := revHandler 4 in
  let s := start oneDocument (getOf "nothing" EmptyString) in
  let s1 := RouterRev.afterOutgoing h s in
  (∀ oid, Bson.ObjectIdHex "nothing" = Some oid →
          Storages.reachable (backend s1) = false →
          ∃ s', RouterRev.handleGetRequest serve h s = (Ret tt, s')
                ∧ Http.status (w s') = Some Http.StatusInternalServerError
                ∧ trace s' = [EvLoadStorageEntry "nothing"] ++ trace s1)
  ∧ (∀ entry,
       Storages.LoadStorageEntry "nothing" (backend s1) = (true, None, entry) →
       Storages.files (backend s1) !! Storages.path_of (RouterRev.Configuration h) entry
       = None →
       ∃ s', RouterRev.handleGetRequest serve h s = (Ret tt, s')
             ∧ Http.status (w s') = Some Http.StatusInternalServerError
             ∧ trace s' = [EvGetReader; EvLoadStorageEntry "nothing"] ++ trace s1)
  ∧ (Storages.misses "nothing" (backend s1) →
     RouterRev.handleGetRequest serve h s
     = match RouterRev.router h with
       | Some (RouterRev.mkMuxRouter (Some ServeHTTP)) =>
           (Ret tt, mkState (backend s1) (ServeHTTP (w s1) (req s1)) (req s1)
                      ([EvLoadStorageEntry "nothing"] ++ trace s1))
       | _ => (Panic, mkState (backend s1) (w s1) (req s1)
                        ([EvLoadStorageEntry "nothing"] ++ trace s1))
       end).
Proof.
  apply (RouterRev_get_failures serve (revHandler 4)
           (start oneDocument (getOf "nothing" EmptyString)) "nothing"); reflexivity.
Defined.

(** In the later revision: the upload of a file named README, and the GET
    of its URL, which ends in the bare id. *)
Lemma RouterRev_uploaded_file_is_served_witness :
  let h := revHandler 4 in
  let fh := Multipart.mkFileHeader "README"
              ["A"%byte; "B"%byte; "C"%byte; "D"%byte; "E"%byte] true in
  let entry := Storages.SetId (testId 0) (Storages.NewStorageEntry emptyBackend) in
  let up := RouterRev.handleUploadRequest testId detect h 5
              (start emptyBackend
                 (uploadFromDisk "README"
                    ["A"%byte; "B"%byte; "C"%byte; "D"%byte; "E"%byte])) in
  let g := mkState (backend up.2) Http.newResponseWriter (getOf firstId EmptyString) [] in
  let g1 := RouterRev.afterOutgoing h g in
  let contentType :=
    detect (Multipart.fill (Multipart.zeros Router.sniffLen)
              (take Router.sniffLen (Multipart.content fh))) in
  ∃ w2,
    RouterRev.handleGetRequest serve h g
    = (Ret tt,
       mkState (backend g1)
         (serve w2 (req g1) EmptyString (Storages.LastModified entry)
            (Multipart.mkFile (Multipart.content fh) 0 true))
         (req g1)
         ([EvGetReader; EvLoadStorageEntry (Storages.GetId entry)] ++ trace g1))
    ∧ Http.wroteHeader w2 = Http.wroteHeader (w g1)
    ∧ Http.body w2 = Http.body (w g1)
    ∧ Http.Header_Get "Content-Disposition" (Http.header w2)
      = Router.dispositionValue
          (if Router.whitelisted (RouterRev.WhitelistedContentTypes h) contentType
           then "inline" else "attachment")
          (Multipart.Filename fh).
Proof.
  apply (RouterRev_uploaded_file_is_served_under_its_url testId detect serve (revHandler 4) 5
           (start emptyBackend
              (uploadFromDisk "README" ["A"%byte; "B"%byte; "C"%byte; "D"%byte; "E"%byte]))
           {[ "file" := [Multipart.mkFileHeader "README"
                           ["A"%byte; "B"%byte; "C"%byte; "D"%byte; "E"%byte] true] ]}
           (Multipart.mkFileHeader "README"
              ["A"%byte; "B"%byte; "C"%byte; "D"%byte; "E"%byte] true) []
           (Storages.SetId (testId 0) (Storages.NewStorageEntry emptyBackend))
           (Storages.mkBackend
              [Storages.SetId (testId 0) (Storages.NewStorageEntry emptyBackend)]
              true ∅ true 1 1000)
           EmptyString
           Http.newResponseWriter (getOf firstId EmptyString) []).
  - reflexivity.
  - reflexivity.
  - discriminate.
  - reflexivity.
  - reflexivity.
  - reflexivity.
  - reflexivity.
  - apply NoDup_nil_2.
  - reflexivity.
  - reflexivity.
  - reflexivity.
Defined.

(** A GET, in the first revision, of the id of the stored entry. *)
Lemma RouterOld_get_sends_exactly_the_file_witness :
  let s := start oneFile (getOf firstId EmptyString) in
  let s1 := RouterOld.afterOutgoing oldHandler s in
  ∃ s',
    RouterOld.handleGetRequest oldHandler s = (Ret tt, s')
    ∧ Http.status (w s') = Some Http.StatusOK
    ∧ Http.body (w s') = Http.body (w s1) ++ ["A"%byte; "B"%byte; "C"%byte]
    ∧ Http.sentHeader (w s') = Some (Http.header (w s1))
    ∧ Http.Header_Get "Content-Type" (Http.header (w s'))
      = Storages.GetContentType storedEntry
    ∧ backend s' = backend s1.
Proof.
  apply (RouterOld_get_sends_exactly_the_file oldHandler
           (start oneFile (getOf firstId EmptyString)) storedEntry
           ["A"%byte; "B"%byte; "C"%byte]); reflexivity.
Defined.

(** A GET, in the first revision, of that id followed by a file ending. *)
Lemma RouterOld_get_of_segment_with_dot_witness :
  let s := start oneFile (getOf (firstId +:+ ".txt") EmptyString) in
  let s1 := RouterOld.afterOutgoing oldHandler s in
  let seg := default EmptyString (Vars (req s1) !! "id") in
  Bson.IsObjectIdHex seg = false
  ∧ ∃ s',
      RouterOld.handleGetRequest oldHandler s = (Ret tt, s')
      ∧ Http.status (w s') = Some Http.StatusNotFound
      ∧ backend s' = backend s1
      ∧ trace s' = [EvLoadStorageEntry seg] ++ trace s1.
Proof.
  apply (RouterOld_get_of_segment_with_dot_is_not_found oldHandler
           (start oneFile (getOf (firstId +:+ ".txt") EmptyString))); reflexivity.
Defined.

(** A POST, in the first revision, whose content type does not parse. *)
Lemma RouterOld_upload_of_unparseable_content_type_witness :
  let s := start emptyBackend plainPost in
  let s1 := RouterOld.afterOutgoing oldHandler s in
  ∃ s',
    RouterOld.handleUploadRequest testId parseMedia twoParts oldHandler 5 s = (Ret tt, s')
    ∧ Http.status (w s') = Some Http.StatusBadRequest
    ∧ backend s' = backend s
    ∧ trace s' = trace s1.
Proof.
  apply (RouterOld_upload_of_unparseable_content_type_is_bad_request testId parseMedia
           twoParts oldHandler 5 (start emptyBackend plainPost)); reflexivity.
Defined.

(** A POST, in the first revision, of a body of two parts. *)
Lemma RouterOld_upload_stores_the_parts_witness :
  let s := start emptyBackend multipartPost in
  let s1 := RouterOld.afterOutgoing oldHandler s in
  let entry := Storages.SetId (testId 0) (Storages.NewStorageEntry emptyBackend) in
  ∃ s',
    RouterOld.handleUploadRequest testId parseMedia twoParts oldHandler 5 s = (Ret tt, s')
    ∧ Http.status (w s') = Some Http.StatusOK
    ∧ Http.body (w s')
      = Http.body (w s1)
        ++ list_byte_of_string ("http://localhost:8080/sharex/" +:+ Storages.GetId entry)
    ∧ Storages.files (backend s') !! Storages.path_of (RouterOld.Configuration oldHandler) entry
      = Some (concat (RouterOld.bodies [firstPart; secondPart]))
    ∧ Storages.collection (backend s')
      = Storages.collection (backend s)
        ++ [Storages.SetFilename (RouterOld.FileName firstPart)
              (Storages.SetContentType (RouterOld.partContentType firstPart) entry)].
Proof.
  apply (RouterOld_upload_stores_the_parts_one_after_the_other testId parseMedia twoParts
           oldHandler 5 (start emptyBackend multipartPost)
           {[ "boundary" := "x" ]} firstPart [secondPart]
           (Storages.SetId (testId 0) (Storages.NewStorageEntry emptyBackend))
           (Storages.mkBackend
              [Storages.SetId (testId 0) (Storages.NewStorageEntry emptyBackend)]
              true ∅ true 1 1000)).
  - reflexivity.
  - reflexivity.
  - repeat constructor; eexists; reflexivity.
  - reflexivity.
  - reflexivity.
  - reflexivity.
Defined.

End MoreRuns.
